(** * slurmctld request processing (proc_req.c) and the job/node state
      predicates of slurm_protocol_defs.h

    The development embeds, as Rocq functions, the parts of the controller's
    RPC layer that the specification talks about:

    - the derived job and node state macros of [slurm_protocol_defs.h];
    - the RPC telemetry tables kept by [slurmctld_req], cleared by
      [_clear_rpc_stats] and serialised by [_pack_rpc_stats];
    - the identity checks [validate_slurm_user], [validate_operator] and
      [validate_super_user];
    - the RPC handlers for allocation, batch submission, the completion
      messages coming from the nodes, and the administrative requests.

    C integers are [Z] with the wrap-around of the unsigned types written
    out where the code relies on it.  Functions that live in other
    translation units (job_mgr.c, node_mgr.c, reservation.c, ...) are fields
    of the record [ctld_env]; the entity store they work on is an abstract
    type that the handlers only thread through.  Logging, timers and the
    acquisition of the slurmctld locks are not represented.

    A second part embeds further code of the same files and of their
    neighbours: the handlers for debug flags, log levels, node reboot and
    job notification, the RPC throttle, the string array copies made for
    the batch launch message, the separator search of the srun front end,
    and the dependency translation of the PBS job-submit plugin. *)

From stdpp Require Import base list numbers strings.
From Stdlib Require Import ZArith Lia Bool Ascii.

Local Open Scope Z_scope.

(** ** Constants *)

(** [slurm_msg_type_t], values read off the enumeration in
    slurm_protocol_defs.h. *)
Module MsgType.
Definition REQUEST_NODE_REGISTRATION_STATUS : Z := 1001.
Definition MESSAGE_NODE_REGISTRATION_STATUS : Z := 1002.
Definition REQUEST_RECONFIGURE : Z := 1003.
Definition REQUEST_SHUTDOWN : Z := 1005.
Definition REQUEST_SHUTDOWN_IMMEDIATE : Z := 1006.
Definition REQUEST_PING : Z := 1008.
Definition REQUEST_CONTROL : Z := 1009.
Definition REQUEST_SET_DEBUG_LEVEL : Z := 1010.
Definition REQUEST_TAKEOVER : Z := 1012.
Definition REQUEST_SET_SCHEDLOG_LEVEL : Z := 1013.
Definition REQUEST_SET_DEBUG_FLAGS : Z := 1014.
Definition REQUEST_REBOOT_NODES : Z := 1015.
Definition REQUEST_LICENSE_INFO : Z := 1021.
Definition REQUEST_BUILD_INFO : Z := 2001.
Definition REQUEST_JOB_INFO : Z := 2003.
Definition REQUEST_JOB_STEP_INFO : Z := 2005.
Definition REQUEST_NODE_INFO : Z := 2007.
Definition REQUEST_PARTITION_INFO : Z := 2009.
Definition REQUEST_BLOCK_INFO : Z := 2015.
Definition REQUEST_TRIGGER_SET : Z := 2017.
Definition REQUEST_TRIGGER_GET : Z := 2018.
Definition REQUEST_TRIGGER_CLEAR : Z := 2019.
Definition REQUEST_JOB_INFO_SINGLE : Z := 2021.
Definition REQUEST_SHARE_INFO : Z := 2022.
Definition REQUEST_RESERVATION_INFO : Z := 2024.
Definition REQUEST_PRIORITY_FACTORS : Z := 2026.
Definition REQUEST_TOPO_INFO : Z := 2028.
Definition REQUEST_TRIGGER_PULL : Z := 2030.
Definition REQUEST_FRONT_END_INFO : Z := 2031.
Definition REQUEST_SPANK_ENVIRONMENT : Z := 2033.
Definition REQUEST_STATS_INFO : Z := 2035.
Definition RESPONSE_STATS_INFO : Z := 2036.
Definition REQUEST_JOB_USER_INFO : Z := 2039.
Definition REQUEST_NODE_INFO_SINGLE : Z := 2040.
Definition REQUEST_UPDATE_JOB : Z := 3001.
Definition REQUEST_UPDATE_NODE : Z := 3002.
Definition REQUEST_CREATE_PARTITION : Z := 3003.
Definition REQUEST_DELETE_PARTITION : Z := 3004.
Definition REQUEST_UPDATE_PARTITION : Z := 3005.
Definition REQUEST_CREATE_RESERVATION : Z := 3006.
Definition RESPONSE_CREATE_RESERVATION : Z := 3007.
Definition REQUEST_DELETE_RESERVATION : Z := 3008.
Definition REQUEST_UPDATE_RESERVATION : Z := 3009.
Definition REQUEST_UPDATE_BLOCK : Z := 3010.
Definition REQUEST_UPDATE_FRONT_END : Z := 3011.
Definition REQUEST_RESOURCE_ALLOCATION : Z := 4001.
Definition RESPONSE_RESOURCE_ALLOCATION : Z := 4002.
Definition REQUEST_SUBMIT_BATCH_JOB : Z := 4003.
Definition RESPONSE_SUBMIT_BATCH_JOB : Z := 4004.
Definition REQUEST_JOB_WILL_RUN : Z := 4012.
Definition REQUEST_JOB_ALLOCATION_INFO : Z := 4014.
Definition REQUEST_JOB_ALLOCATION_INFO_LITE : Z := 4016.
Definition REQUEST_JOB_READY : Z := 4019.
Definition REQUEST_JOB_END_TIME : Z := 4021.
Definition REQUEST_JOB_NOTIFY : Z := 4022.
Definition REQUEST_JOB_SBCAST_CRED : Z := 4023.
Definition REQUEST_JOB_STEP_CREATE : Z := 5001.
Definition REQUEST_CANCEL_JOB_STEP : Z := 5005.
Definition REQUEST_UPDATE_JOB_STEP : Z := 5007.
Definition REQUEST_CHECKPOINT : Z := 5009.
Definition REQUEST_CHECKPOINT_COMP : Z := 5011.
Definition REQUEST_CHECKPOINT_TASK_COMP : Z := 5012.
Definition REQUEST_SUSPEND : Z := 5014.
Definition REQUEST_STEP_COMPLETE : Z := 5016.
Definition REQUEST_COMPLETE_JOB_ALLOCATION : Z := 5017.
Definition REQUEST_COMPLETE_BATCH_SCRIPT : Z := 5018.
Definition REQUEST_STEP_LAYOUT : Z := 5021.
Definition REQUEST_JOB_REQUEUE : Z := 5023.
Definition REQUEST_COMPLETE_BATCH_JOB : Z := 5030.
Definition REQUEST_KILL_JOB : Z := 5032.
Definition MESSAGE_EPILOG_COMPLETE : Z := 6012.
Definition REQUEST_COMPLETE_PROLOG : Z := 6018.
Definition RESPONSE_SLURM_RC : Z := 8001.
Definition RESPONSE_SLURM_RC_MSG : Z := 8002.
Definition ACCOUNTING_UPDATE_MSG : Z := 10001.
Definition ACCOUNTING_FIRST_REG : Z := 10002.
Definition ACCOUNTING_REGISTER_CTLD : Z := 10003.
End MsgType.

Definition SLURM_SUCCESS : Z := 0.
Definition SLURM_ERROR : Z := -1.

(** The constants of slurm/slurm.h and slurmdb.h that the embedded code
    names.  Those headers are not part of the sources at hand, so the values
    are a parameter of the development. *)
Record slurm_h := {
  JOB_STATE_BASE : Z;
  JOB_PENDING : Z;
  JOB_SUSPENDED : Z;
  JOB_COMPLETING : Z;
  NODE_STATE_BASE : Z;
  NODE_STATE_ALLOCATED : Z;
  NODE_STATE_ERROR : Z;
  NODE_STATE_MIXED : Z;
  NODE_STATE_DRAIN : Z;
  SLURM_BATCH_SCRIPT : Z;
  STAT_COMMAND_RESET : Z;
  SLURMDB_ADMIN_OPERATOR : Z;
  SLURMDB_ADMIN_SUPER_USER : Z;
  SLURM_14_11_PROTOCOL_VERSION : Z
}.

(** The error numbers of slurm/slurm_errno.h and errno.h that the handlers
    name; that header is not part of the sources either. *)
Record slurm_errno_h := {
  ESLURM_USER_ID_MISSING : Z;
  ESLURM_INVALID_NODE_NAME : Z;
  ESLURM_REQUESTED_PART_CONFIG_UNAVAILABLE : Z;
  ESLURM_RESERVATION_NOT_USABLE : Z;
  ESLURM_QOS_THRES : Z;
  ESLURM_NODE_NOT_AVAIL : Z;
  ESLURM_JOB_HELD : Z;
  ESLURM_CAN_NOT_START_IMMEDIATELY : Z;
  ESLURM_DUPLICATE_JOB_ID : Z;
  ESLURM_NO_STEPS : Z;
  ESLURM_RESERVATION_BUSY : Z;
  ESLURM_ALREADY_DONE : Z;
  ESLURM_ACCESS_DENIED : Z;
  ESLURMD_CREDENTIAL_REVOKED : Z;
  ESLURMD_UID_NOT_FOUND : Z;
  ESLURMD_GID_NOT_FOUND : Z;
  ESLURMD_INVALID_ACCT_FREQ : Z;
  SLURM_COMMUNICATIONS_SEND_ERROR : Z;
  EINVAL : Z;
  EAGAIN : Z;
  EINPROGRESS : Z;
  EACCES : Z
}.

Definition errno_codes (E : slurm_errno_h) : list Z :=
  [ ESLURM_USER_ID_MISSING E; ESLURM_INVALID_NODE_NAME E;
    ESLURM_REQUESTED_PART_CONFIG_UNAVAILABLE E;
    ESLURM_RESERVATION_NOT_USABLE E; ESLURM_QOS_THRES E;
    ESLURM_NODE_NOT_AVAIL E; ESLURM_JOB_HELD E;
    ESLURM_CAN_NOT_START_IMMEDIATELY E; ESLURM_DUPLICATE_JOB_ID E;
    ESLURM_NO_STEPS E; ESLURM_RESERVATION_BUSY E; ESLURM_ALREADY_DONE E;
    ESLURM_ACCESS_DENIED E; ESLURMD_CREDENTIAL_REVOKED E;
    ESLURMD_UID_NOT_FOUND E; ESLURMD_GID_NOT_FOUND E;
    ESLURMD_INVALID_ACCT_FREQ E; SLURM_COMMUNICATIONS_SEND_ERROR E;
    EINVAL E; EAGAIN E; EINPROGRESS E; EACCES E ].

(** An error table is well formed when its codes are pairwise distinct and
    none of them is [SLURM_SUCCESS]. *)
Definition errno_wf (E : slurm_errno_h) : Prop :=
  NoDup (SLURM_SUCCESS :: errno_codes E).

(** ** Job and node state predicates (slurm_protocol_defs.h) *)

Module StateMacros.
Section Macros.
Context (H : slurm_h).

(** A C value used as a condition is true when it is not zero. *)
Definition c_true (x : Z) : bool := negb (x =? 0).

Definition IS_JOB_PENDING (job_state : Z) : bool :=
Z.land job_state (JOB_STATE_BASE H) =? JOB_PENDING H.
Definition IS_JOB_SUSPENDED (job_state : Z) : bool :=
Z.land job_state (JOB_STATE_BASE H) =? JOB_SUSPENDED H.
Definition IS_JOB_COMPLETING (job_state : Z) : bool :=
c_true (Z.land job_state (JOB_COMPLETING H)).
Definition IS_JOB_STARTED (job_state : Z) : bool :=
Z.land job_state (JOB_STATE_BASE H) >? JOB_PENDING H.
Definition IS_JOB_FINISHED (job_state : Z) : bool :=
Z.land job_state (JOB_STATE_BASE H) >? JOB_SUSPENDED H.
Definition IS_JOB_COMPLETED (job_state : Z) : bool :=
IS_JOB_FINISHED job_state
&& (Z.land job_state (JOB_COMPLETING H) =? 0).

Definition IS_NODE_ALLOCATED (node_state : Z) : bool :=
Z.land node_state (NODE_STATE_BASE H) =? NODE_STATE_ALLOCATED H.
Definition IS_NODE_ERROR (node_state : Z) : bool :=
Z.land node_state (NODE_STATE_BASE H) =? NODE_STATE_ERROR H.
Definition IS_NODE_MIXED (node_state : Z) : bool :=
Z.land node_state (NODE_STATE_BASE H) =? NODE_STATE_MIXED H.
Definition IS_NODE_DRAIN (node_state : Z) : bool :=
c_true (Z.land node_state (NODE_STATE_DRAIN H)).
Definition IS_NODE_DRAINING (node_state : Z) : bool :=
c_true (Z.land node_state (NODE_STATE_DRAIN H))
&& (IS_NODE_ALLOCATED node_state || IS_NODE_ERROR node_state
  || IS_NODE_MIXED node_state).
Definition IS_NODE_DRAINED (node_state : Z) : bool :=
IS_NODE_DRAIN node_state && negb (IS_NODE_DRAINING node_state).

(** The reading of a state word that the specification uses: a base state
and a set of modifier flags. *)
Definition job_base (job_state : Z) : Z :=
Z.land job_state (JOB_STATE_BASE H).
Definition node_base (node_state : Z) : Z :=
Z.land node_state (NODE_STATE_BASE H).
Definition flag_set (state flag : Z) : Prop := Z.land state flag <> 0.
End Macros.
End StateMacros.

(** ** RPC telemetry (the static tables of proc_req.c) *)

Module RpcStats.

(** [rpc_type_*] and [rpc_user_*]: three parallel arrays per table and the
    size of each table (0 until the first request allocates it). *)
Record rpc_tables := {
  rpc_type_size : nat;
  rpc_type_id : list Z;     (* uint16_t * *)
  rpc_type_cnt : list Z;    (* uint32_t * *)
  rpc_type_time : list Z;   (* uint64_t * *)
  rpc_user_size : nat;
  rpc_user_id : list Z;     (* uint32_t * *)
  rpc_user_cnt : list Z;    (* uint32_t * *)
  rpc_user_time : list Z    (* uint64_t * *)
}.

(** State at program start: sizes 0, pointers NULL. *)
Definition rpc_tables_init : rpc_tables :=
  {| rpc_type_size := 0; rpc_type_id := []; rpc_type_cnt := [];
     rpc_type_time := [];
     rpc_user_size := 0; rpc_user_id := []; rpc_user_cnt := [];
     rpc_user_time := [] |}.

(** [xmalloc] returns zero-filled memory. *)
Definition xmalloc (n : nat) : list Z := replicate n 0.

Definition u32 (x : Z) : Z := x mod 2 ^ 32.
Definition u64 (x : Z) : Z := x mod 2 ^ 64.

(** Lines 4126-4131. *)
Definition alloc_type_table (t : rpc_tables) : rpc_tables :=
  if Nat.eqb (rpc_type_size t) 0 then
    {| rpc_type_size := 100; rpc_type_id := xmalloc 100;
       rpc_type_cnt := xmalloc 100; rpc_type_time := xmalloc 100;
       rpc_user_size := rpc_user_size t; rpc_user_id := rpc_user_id t;
       rpc_user_cnt := rpc_user_cnt t; rpc_user_time := rpc_user_time t |}
  else t.

(** Lines 4140-4145. *)
Definition alloc_user_table (t : rpc_tables) : rpc_tables :=
  if Nat.eqb (rpc_user_size t) 0 then
    {| rpc_type_size := rpc_type_size t; rpc_type_id := rpc_type_id t;
       rpc_type_cnt := rpc_type_cnt t; rpc_type_time := rpc_type_time t;
       rpc_user_size := 200; rpc_user_id := xmalloc 200;
       rpc_user_cnt := xmalloc 200; rpc_user_time := xmalloc 200 |}
  else t.

(** The scan of lines 4132-4139, started at index [i] with [n] iterations
    left ([n = rpc_type_size - i]).  Returns the id array and the value
    of [rpc_type_index], -1 when the loop ends without a [break]. *)
Fixpoint type_scan (n i : nat) (ids : list Z) (msg_type : Z) : list Z * Z :=
  match n with
  | O => (ids, -1)
  | S n' =>
      match ids !! i with
      | Some id =>
          if id =? 0 then (<[i := msg_type]> ids, Z.of_nat i)
          else if negb (id =? msg_type) then type_scan n' (S i) ids msg_type
          else (ids, Z.of_nat i)
      | None => (ids, -1)
      end
  end.

(** The scan of lines 4146-4153: slot 0 is never handed out. *)
Fixpoint user_scan (n i : nat) (ids : list Z) (rpc_uid : Z) : list Z * Z :=
  match n with
  | O => (ids, -1)
  | S n' =>
      match ids !! i with
      | Some id =>
          if (id =? 0) && negb (Nat.eqb i 0)
          then (<[i := rpc_uid]> ids, Z.of_nat i)
          else if negb (id =? rpc_uid) then user_scan n' (S i) ids rpc_uid
          else (ids, Z.of_nat i)
      | None => (ids, -1)
      end
  end.

(** First critical section of [slurmctld_req] (lines 4125-4154). *)
Definition rpc_stats_begin (msg_type rpc_uid : Z) (t : rpc_tables)
  : rpc_tables * (Z * Z) :=
  let t1 := alloc_type_table t in
  let '(tids, rpc_type_index) :=
    type_scan (rpc_type_size t1) 0 (rpc_type_id t1) msg_type in
  let t2 := alloc_user_table t1 in
  let '(uids, rpc_user_index) :=
    user_scan (rpc_user_size t2) 0 (rpc_user_id t2) rpc_uid in
  ({| rpc_type_size := rpc_type_size t2; rpc_type_id := tids;
      rpc_type_cnt := rpc_type_cnt t2; rpc_type_time := rpc_type_time t2;
      rpc_user_size := rpc_user_size t2; rpc_user_id := uids;
      rpc_user_cnt := rpc_user_cnt t2; rpc_user_time := rpc_user_time t2 |},
   (rpc_type_index, rpc_user_index)).

(** [cnt[idx]++; time[idx] += DELTA_TIMER] on uint32_t / uint64_t. *)
Definition bump (idx delta : Z) (cnt time : list Z) : list Z * list Z :=
  if 0 <=? idx then
    (alter (fun c => u32 (c + 1)) (Z.to_nat idx) cnt,
     alter (fun x => u64 (x + delta)) (Z.to_nat idx) time)
  else (cnt, time).

(** Second critical section of [slurmctld_req] (lines 4456-4465). *)
Definition rpc_stats_end (rpc_type_index rpc_user_index delta : Z)
    (t : rpc_tables) : rpc_tables :=
  let '(tc, tm) := bump rpc_type_index delta
                        (rpc_type_cnt t) (rpc_type_time t) in
  let '(uc, ut) := bump rpc_user_index delta
                        (rpc_user_cnt t) (rpc_user_time t) in
  {| rpc_type_size := rpc_type_size t; rpc_type_id := rpc_type_id t;
     rpc_type_cnt := tc; rpc_type_time := tm;
     rpc_user_size := rpc_user_size t; rpc_user_id := rpc_user_id t;
     rpc_user_cnt := uc; rpc_user_time := ut |}.

(** One of the two loops of [_clear_rpc_stats]: [n] iterations from [i],
    each writing 0 to the three arrays. *)
Fixpoint clear_loop (n i : nat) (cnt id time : list Z)
  : list Z * list Z * list Z :=
  match n with
  | O => (cnt, id, time)
  | S n' => clear_loop n' (S i) (<[i := 0]> cnt) (<[i := 0]> id)
                       (<[i := 0]> time)
  end.

Definition _clear_rpc_stats (t : rpc_tables) : rpc_tables :=
  let '(tc, ti, tm) :=
    clear_loop (rpc_type_size t) 0 (rpc_type_cnt t) (rpc_type_id t)
               (rpc_type_time t) in
  let '(uc, ui, ut) :=
    clear_loop (rpc_user_size t) 0 (rpc_user_cnt t) (rpc_user_id t)
               (rpc_user_time t) in
  {| rpc_type_size := rpc_type_size t; rpc_type_id := ti;
     rpc_type_cnt := tc; rpc_type_time := tm;
     rpc_user_size := rpc_user_size t; rpc_user_id := ui;
     rpc_user_cnt := uc; rpc_user_time := ut |}.

(** [free_rpc_stats]. *)
Definition free_rpc_stats (t : rpc_tables) : rpc_tables := rpc_tables_init.

(** What ends up in a pack buffer. *)
Inductive packed :=
| Pack16 (v : Z)
| Pack32 (v : Z)
| Pack64 (v : Z).

Definition Buf := list packed.

Definition pack32 (v : Z) (buffer : Buf) : Buf := buffer ++ [Pack32 v].

(** Modelled from the spec: pack.c ([pack16_array], [pack32_array],
    [pack64_array]) is not among the sources.  The dump serialises
    [{id, count, total}*]: an array packer receives a pointer to the first
    element and a count, and appends the count followed by that many
    elements read from the pointer on. *)
Definition pack16_array (valp : list Z) (size_val : nat) (buffer : Buf) : Buf :=
  buffer ++ Pack32 (Z.of_nat size_val) :: map Pack16 (take size_val valp).
Definition pack32_array (valp : list Z) (size_val : nat) (buffer : Buf) : Buf :=
  buffer ++ Pack32 (Z.of_nat size_val) :: map Pack32 (take size_val valp).
Definition pack64_array (valp : list Z) (size_val : nat) (buffer : Buf) : Buf :=
  buffer ++ Pack32 (Z.of_nat size_val) :: map Pack64 (take size_val valp).

(** The counting loops of [_pack_rpc_stats]: the first index at or after
    [i] whose id is 0, or [i + n] when there is none among the next [n]. *)
Fixpoint first_zero (n i : nat) (ids : list Z) : nat :=
  match n with
  | O => i
  | S n' =>
      match ids !! i with
      | Some id => if id =? 0 then i else first_zero n' (S i) ids
      | None => i
      end
  end.

(** The part of the buffer that [_pack_rpc_stats] appends for one table,
    given the value of [i] after its counting loop. *)
Definition pack_type_section (t : rpc_tables) (i : nat) (buffer : Buf) : Buf :=
  pack64_array (rpc_type_time t) i
    (pack32_array (rpc_type_cnt t) i
      (pack16_array (rpc_type_id t) i
        (pack32 (Z.of_nat i) buffer))).

Definition pack_user_section (t : rpc_tables) (i : nat) (buffer : Buf) : Buf :=
  pack64_array (rpc_user_time t) i
    (pack32_array (rpc_user_cnt t) i
      (pack32_array (rpc_user_id t) i
        (pack32 (Z.of_nat i) buffer))).

(** [_pack_rpc_stats]: [buffer] is the data packed so far.  The loop over
    the user table starts at [i = 1] and runs while [i < rpc_user_size]. *)
Definition _pack_rpc_stats (S14_11 : Z) (t : rpc_tables) (buffer : Buf)
    (protocol_version : Z) : Buf :=
  if protocol_version <? S14_11 then buffer
  else
    let i := first_zero (rpc_type_size t) 0 (rpc_type_id t) in
    let buffer := pack_type_section t i buffer in
    let i := first_zero (rpc_user_size t - 1) 1 (rpc_user_id t) in
    pack_user_section t i buffer.

(** The tables as [slurmctld_req] keeps them: both allocated with their
    fixed sizes, every array as long as its table. *)
Record allocated (t : rpc_tables) : Prop := {
  alloc_type_size : rpc_type_size t = 100%nat;
  alloc_type_id : length (rpc_type_id t) = 100%nat;
  alloc_type_cnt : length (rpc_type_cnt t) = 100%nat;
  alloc_type_time : length (rpc_type_time t) = 100%nat;
  alloc_user_size : rpc_user_size t = 200%nat;
  alloc_user_id : length (rpc_user_id t) = 200%nat;
  alloc_user_cnt : length (rpc_user_cnt t) = 200%nat;
  alloc_user_time : length (rpc_user_time t) = 200%nat
}.

(** The tables are either untouched since start (or [free_rpc_stats]) or
    fully allocated. *)
Definition tables_ok (t : rpc_tables) : Prop :=
  t = rpc_tables_init \/ allocated t.

End RpcStats.

(** ** The controller: data, collaborators and the handler monad *)

Module Ctld.
Import RpcStats StateMacros.

(** *** Records named by the handlers *)

Record job_details := {
  requeue : Z;            (* uint16_t *)
  prolog_running : Z;
  pn_min_memory : Z
}.

Record job_resources := {
  cpu_array_cnt : Z;
  cpu_array_reps : list Z;
  cpu_array_value : list Z
}.

Record job_record := {
  job_id : Z;
  user_id : Z;
  job_state : Z;
  batch_host : option string;
  details : option job_details;
  front_end_ptr : option string;   (* front_end_ptr->name *)
  job_resrcs : option job_resources;
  nodes : option string;
  node_cnt : Z;
  partition : option string;
  alias_list : option string
}.

(** *** Message bodies (slurm_protocol_defs.h), reduced to the fields the
    handlers read *)

Record job_desc_msg := {
  jd_user_id : Z;
  jd_alloc_node : option string;
  jd_immediate : Z;               (* uint16_t *)
  jd_job_id : Z;
  jd_resp_host : option string
}.

Record epilog_complete_msg := {
  ec_job_id : Z;
  ec_return_code : Z;
  ec_node_name : option string
}.

Record complete_batch_script_msg := {
  cb_job_id : Z;
  cb_job_rc : Z;
  cb_slurm_rc : Z;
  cb_node_name : option string;
  cb_user_id : Z
}.

Record step_complete_msg := {
  sc_job_id : Z;
  sc_job_step_id : Z;
  sc_range_first : Z;
  sc_range_last : Z;
  sc_step_rc : Z
}.

Record node_registration_msg := {
  nr_node_name : option string;
  nr_hash_val : Z
}.

Record shutdown_msg := { sd_options : Z }.
Record update_node_msg := { un_node_names : option string; un_node_state : Z;
                            un_reason : option string }.
Record update_part_msg := { up_name : option string }.
Record delete_part_msg := { dp_name : option string }.
Record resv_desc_msg := { rd_name : option string }.
Record reservation_name_msg := { rn_name : option string }.
Record stats_info_request_msg := { command_id : Z }.
Record update_front_end_msg := { fe_name : option string; fe_node_state : Z;
                                 fe_reason : option string }.
Record update_block_msg := { bg_block_id : option string;
                             bg_reason_rc : Z; bg_state_error : bool }.

(** A decoded request: the message type together with the body that the
    wire codec unpacks for it.  [Req_other] stands for the message types
    whose handlers are not embedded here and for unknown types; the codec
    never produces it with one of the types listed above it. *)
Inductive request :=
| Req_resource_allocation (d : job_desc_msg)
| Req_submit_batch_job (d : job_desc_msg)
| Req_epilog_complete (m : epilog_complete_msg)
| Req_complete_batch_job (m : complete_batch_script_msg)
| Req_complete_batch_script (m : complete_batch_script_msg)
| Req_step_complete (m : step_complete_msg)
| Req_node_registration (m : node_registration_msg)
| Req_node_registration_status
| Req_ping
| Req_reconfigure
| Req_control
| Req_shutdown (m : shutdown_msg)
| Req_shutdown_immediate
| Req_takeover
| Req_update_node (m : update_node_msg)
| Req_create_partition (m : update_part_msg)
| Req_update_partition (m : update_part_msg)
| Req_delete_partition (m : delete_part_msg)
| Req_create_reservation (m : resv_desc_msg)
| Req_update_reservation (m : resv_desc_msg)
| Req_delete_reservation (m : reservation_name_msg)
| Req_stats_info (m : stats_info_request_msg)
| Req_accounting_first_reg
| Req_accounting_register_ctld
| Req_other (msg_type : Z).

Definition msg_type_of (r : request) : Z :=
  match r with
  | Req_resource_allocation _ => MsgType.REQUEST_RESOURCE_ALLOCATION
  | Req_submit_batch_job _ => MsgType.REQUEST_SUBMIT_BATCH_JOB
  | Req_epilog_complete _ => MsgType.MESSAGE_EPILOG_COMPLETE
  | Req_complete_batch_job _ => MsgType.REQUEST_COMPLETE_BATCH_JOB
  | Req_complete_batch_script _ => MsgType.REQUEST_COMPLETE_BATCH_SCRIPT
  | Req_step_complete _ => MsgType.REQUEST_STEP_COMPLETE
  | Req_node_registration _ => MsgType.MESSAGE_NODE_REGISTRATION_STATUS
  | Req_node_registration_status =>
      MsgType.REQUEST_NODE_REGISTRATION_STATUS
  | Req_ping => MsgType.REQUEST_PING
  | Req_reconfigure => MsgType.REQUEST_RECONFIGURE
  | Req_control => MsgType.REQUEST_CONTROL
  | Req_shutdown _ => MsgType.REQUEST_SHUTDOWN
  | Req_shutdown_immediate => MsgType.REQUEST_SHUTDOWN_IMMEDIATE
  | Req_takeover => MsgType.REQUEST_TAKEOVER
  | Req_update_node _ => MsgType.REQUEST_UPDATE_NODE
  | Req_create_partition _ => MsgType.REQUEST_CREATE_PARTITION
  | Req_update_partition _ => MsgType.REQUEST_UPDATE_PARTITION
  | Req_delete_partition _ => MsgType.REQUEST_DELETE_PARTITION
  | Req_create_reservation _ => MsgType.REQUEST_CREATE_RESERVATION
  | Req_update_reservation _ => MsgType.REQUEST_UPDATE_RESERVATION
  | Req_delete_reservation _ => MsgType.REQUEST_DELETE_RESERVATION
  | Req_stats_info _ => MsgType.REQUEST_STATS_INFO
  | Req_accounting_first_reg => MsgType.ACCOUNTING_FIRST_REG
  | Req_accounting_register_ctld => MsgType.ACCOUNTING_REGISTER_CTLD
  | Req_other t => t
  end.

(** [slurm_msg_t] as the handlers see it.  [auth_uid] and [auth_errno] are
    what [g_slurm_auth_get_uid] and [g_slurm_auth_errno] return for
    [auth_cred]; [peer_addr] is the outcome of [slurm_get_peer_addr] on
    [conn_fd] ([None] when it fails, leaving [conn_errno]); [send_ok]
    tells whether a write on [conn_fd] succeeds. *)
Record slurm_msg := {
  auth_uid : Z;
  auth_errno : Z;
  body : request;
  protocol_version : Z;
  flags : Z;
  peer_addr : option string;
  conn_errno : Z;
  send_ok : bool
}.

Definition msg_type (msg : slurm_msg) : Z := msg_type_of (body msg).

(** *** Responses and other observable actions *)

Record resource_allocation_response_msg := {
  ra_error_code : Z;
  ra_job_id : Z;
  ra_node_cnt : Z;
  ra_node_list : option string;
  ra_partition : option string;
  ra_alias_list : option string;
  ra_num_cpu_groups : Z;
  ra_cpu_count_reps : list Z;
  ra_cpus_per_node : list Z;
  ra_pn_min_memory : Z
}.

Record submit_response_msg := {
  sr_job_id : Z;
  sr_step_id : Z;
  sr_error_code : Z
}.

Inductive response :=
| Rc_msg (rc : Z)                          (* slurm_send_rc_msg *)
| Rc_err_msg (rc : Z) (err_msg : string)   (* slurm_send_rc_err_msg *)
| Resp_resource_allocation (m : resource_allocation_response_msg)
| Resp_submit_batch_job (m : submit_response_msg)
| Resp_create_reservation (name : option string)
| Resp_stats_info (dump : Buf).

Inductive signal := SIGTERM | SIGABRT.

(** What a handler does besides calling into the entity store. *)
Inductive event :=
| Send (r : response)          (* a message written on msg->conn_fd *)
| Abort                        (* fatal() or a failed xassert() *)
| Queue_job_scheduler
| Schedule_job_save
| Schedule_node_save
| Schedule_part_save
| Save_all_state
| Trigger_reconfig
| Msg_to_slurmd (msg_type : Z)
| Update_cred_key
| Set_slurmctld_state_loc
| Sched_partition_change
| Assoc_mgr_set_missing_uids
| Start_power_mgr
| Acct_storage_reconfig
| Priority_reconfig
| Pthread_kill (sig : signal)
| Slurmctld_shutdown
| Acct_batch_step (job : Z) (nodes : option string) (exit_code : Z)
| Send_all_to_accounting
| Register_ctld.

Record diag_stats := {
  jobs_failed : Z;
  jobs_completed : Z
}.

(** *** Collaborators

    Functions defined outside proc_req.c.  [Store] is the entity store
    (jobs, steps, nodes, partitions, reservations); a function that may
    change it returns the new store. *)
Record ctld_env (Store : Type) := {
  (* build configuration *)
  HAVE_ALPS_CRAY : bool;
  HAVE_BG : bool;
  HAVE_BGQ : bool;
  HAVE_FRONT_END : bool;
  (* process and accounting identity *)
  getuid : Z;
  assoc_mgr_get_admin_level : Z -> Z;
  association_based_accounting : bool;
  now : Z;                                       (* time(NULL) *)
  (* job manager *)
  find_job_record : Z -> Store -> option job_record;
  validate_job_create_req :
    job_desc_msg -> Z -> Store -> Z * option string;
  allocated_session_in_use : job_desc_msg -> Store -> bool;
  job_allocate :
    job_desc_msg -> Z -> bool -> bool -> Z -> option string -> Store ->
    (Z * option job_record * option string) * Store;
  _launch_batch_step :
    job_desc_msg -> Z -> Z -> Store -> (Z * Z) * Store;
  job_epilog_complete : Z -> option string -> Z -> Store -> bool * Store;
  job_complete : Z -> Z -> bool -> bool -> Z -> Store -> Z * Store;
  replace_batch_job :
    slurm_msg -> option job_record -> Store -> (bool * list response) * Store;
  schedule : Z -> Store -> Store;
  (* step manager *)
  step_partial_comp :
    step_complete_msg -> Z -> Store -> (Z * Z * Z) * Store;
  job_step_complete : Z -> Z -> Z -> bool -> Z -> Store -> Z * Store;
  (* node manager *)
  drain_nodes : option string -> string -> Z -> Store -> Z * Store;
  update_front_end : update_front_end_msg -> Store -> Z * Store;
  update_node : update_node_msg -> Store -> Z * Store;
  validate_jobs_on_node : node_registration_msg -> Store -> Store;
  validate_node_specs :
    node_registration_msg -> Z -> Store -> (Z * bool) * Store;
  validate_nodes_via_front_end :
    node_registration_msg -> Z -> Store -> (Z * bool) * Store;
  select_jobinfo_block_id : job_record -> option string;
  select_g_update_block : update_block_msg -> Store -> Z * Store;
  (* configuration, partitions, reservations *)
  read_slurm_conf : Z -> bool -> Store -> Z * Store;
  update_part : update_part_msg -> bool -> Store -> Z * Store;
  delete_partition : delete_part_msg -> Store -> Z * Store;
  create_resv : resv_desc_msg -> Store -> (Z * option string) * Store;
  update_resv : resv_desc_msg -> Store -> Z * Store;
  delete_resv : reservation_name_msg -> Store -> Z * Store;
  (* statistics *)
  reset_stats : Z -> diag_stats -> diag_stats;
  pack_all_stat : Z -> Z -> diag_stats -> Store -> Buf
}.

Arguments HAVE_ALPS_CRAY {Store}.
Arguments HAVE_BG {Store}.
Arguments HAVE_BGQ {Store}.
Arguments HAVE_FRONT_END {Store}.
Arguments getuid {Store}.
Arguments assoc_mgr_get_admin_level {Store}.
Arguments association_based_accounting {Store}.
Arguments now {Store}.
Arguments find_job_record {Store}.
Arguments validate_job_create_req {Store}.
Arguments allocated_session_in_use {Store}.
Arguments job_allocate {Store}.
Arguments _launch_batch_step {Store}.
Arguments job_epilog_complete {Store}.
Arguments job_complete {Store}.
Arguments replace_batch_job {Store}.
Arguments schedule {Store}.
Arguments step_partial_comp {Store}.
Arguments job_step_complete {Store}.
Arguments drain_nodes {Store}.
Arguments update_front_end {Store}.
Arguments update_node {Store}.
Arguments validate_jobs_on_node {Store}.
Arguments validate_node_specs {Store}.
Arguments validate_nodes_via_front_end {Store}.
Arguments select_jobinfo_block_id {Store}.
Arguments select_g_update_block {Store}.
Arguments read_slurm_conf {Store}.
Arguments update_part {Store}.
Arguments delete_partition {Store}.
Arguments create_resv {Store}.
Arguments update_resv {Store}.
Arguments delete_resv {Store}.
Arguments reset_stats {Store}.
Arguments pack_all_stat {Store}.

(** *** Controller state

    [store] is changed only through the collaborators; [trace] lists the
    events of the run, most recent first.  The remaining fields are the
    globals and function-local statics that the handlers read or write. *)
Record ctld (Store : Type) := {
  store : Store;
  trace : list event;
  diag : diag_stats;                 (* slurmctld_diag_stats *)
  in_progress : bool;                (* static in reconfigure *)
  shutdown_time : Z;                 (* slurmctld_config.shutdown_time *)
  resume_backup : bool;              (* slurmctld_config.resume_backup *)
  thread_id_sig : Z;                 (* slurmctld_config.thread_id_sig *)
  conf_last_update : Z;              (* slurmctld_conf.last_update *)
  sched_params_defer : bool;         (* "defer" in SchedulerParameters *)
  defer_sched : bool                 (* static in epilog_complete *)
}.

Arguments store {Store}.
Arguments trace {Store}.
Arguments diag {Store}.
Arguments in_progress {Store}.
Arguments shutdown_time {Store}.
Arguments resume_backup {Store}.
Arguments thread_id_sig {Store}.
Arguments conf_last_update {Store}.
Arguments sched_params_defer {Store}.
Arguments defer_sched {Store}.

Section Monad.
Context {Store : Type}.

(** Handlers are state transformers over [ctld]. *)
Definition M (A : Type) : Type := ctld Store -> A * ctld Store.

Definition ret {A} (a : A) : M A := fun c => (a, c).
Definition bind {A B} (m : M A) (k : A -> M B) : M B :=
  fun c => let '(a, c1) := m c in k a c1.

Definition exec {A} (m : M A) (c : ctld Store) : ctld Store := snd (m c).

Definition with_store (c : ctld Store) (s : Store) : ctld Store :=
  {| store := s; trace := trace c; diag := diag c;
     in_progress := in_progress c; shutdown_time := shutdown_time c;
     resume_backup := resume_backup c; thread_id_sig := thread_id_sig c;
     conf_last_update := conf_last_update c;
     sched_params_defer := sched_params_defer c;
     defer_sched := defer_sched c |}.

Definition with_trace (c : ctld Store) (t : list event) : ctld Store :=
  {| store := store c; trace := t; diag := diag c;
     in_progress := in_progress c; shutdown_time := shutdown_time c;
     resume_backup := resume_backup c; thread_id_sig := thread_id_sig c;
     conf_last_update := conf_last_update c;
     sched_params_defer := sched_params_defer c;
     defer_sched := defer_sched c |}.

Definition with_diag (c : ctld Store) (d : diag_stats) : ctld Store :=
  {| store := store c; trace := trace c; diag := d;
     in_progress := in_progress c; shutdown_time := shutdown_time c;
     resume_backup := resume_backup c; thread_id_sig := thread_id_sig c;
     conf_last_update := conf_last_update c;
     sched_params_defer := sched_params_defer c;
     defer_sched := defer_sched c |}.

Definition with_in_progress (c : ctld Store) (b : bool) : ctld Store :=
  {| store := store c; trace := trace c; diag := diag c;
     in_progress := b; shutdown_time := shutdown_time c;
     resume_backup := resume_backup c; thread_id_sig := thread_id_sig c;
     conf_last_update := conf_last_update c;
     sched_params_defer := sched_params_defer c;
     defer_sched := defer_sched c |}.

Definition with_shutdown_time (c : ctld Store) (t : Z) : ctld Store :=
  {| store := store c; trace := trace c; diag := diag c;
     in_progress := in_progress c; shutdown_time := t;
     resume_backup := resume_backup c; thread_id_sig := thread_id_sig c;
     conf_last_update := conf_last_update c;
     sched_params_defer := sched_params_defer c;
     defer_sched := defer_sched c |}.

Definition with_resume_backup (c : ctld Store) (b : bool) : ctld Store :=
  {| store := store c; trace := trace c; diag := diag c;
     in_progress := in_progress c; shutdown_time := shutdown_time c;
     resume_backup := b; thread_id_sig := thread_id_sig c;
     conf_last_update := conf_last_update c;
     sched_params_defer := sched_params_defer c;
     defer_sched := defer_sched c |}.

Definition with_defer_sched (c : ctld Store) (b : bool) : ctld Store :=
  {| store := store c; trace := trace c; diag := diag c;
     in_progress := in_progress c; shutdown_time := shutdown_time c;
     resume_backup := resume_backup c; thread_id_sig := thread_id_sig c;
     conf_last_update := conf_last_update c;
     sched_params_defer := sched_params_defer c;
     defer_sched := b |}.

(** Record an event. *)
Definition emit (e : event) : M unit :=
  fun c => (tt, with_trace c (e :: trace c)).

(** Call a collaborator that may change the store. *)
Definition call {A} (f : Store -> A * Store) : M A :=
  fun c => let '(a, s) := f (store c) in (a, with_store c s).

(** Call a collaborator that changes the store and returns nothing. *)
Definition call_ (f : Store -> Store) : M unit :=
  fun c => (tt, with_store c (f (store c))).

(** Call a collaborator that only reads the store. *)
Definition look {A} (f : Store -> A) : M A :=
  fun c => (f (store c), c).

(** Read a global. *)
Definition get {A} (f : ctld Store -> A) : M A := fun c => (f c, c).

(** Write a global. *)
Definition put (f : ctld Store -> ctld Store) : M unit :=
  fun c => (tt, f c).

Definition skip : M unit := ret tt.
End Monad.

Arguments M : clear implicits.

Declare Scope ctld_scope.
Delimit Scope ctld_scope with ctld.
Notation "x <- m ;; k" := (bind m (fun x => k))
  (at level 100, m at next level, right associativity) : ctld_scope.
Notation "m ;; k" := (bind m (fun _ => k))
  (at level 100, right associativity) : ctld_scope.

(** The messages sent on the connection during a run, oldest first. *)
Fixpoint sent_of (t : list event) : list response :=
  match t with
  | [] => []
  | Send r :: t' => sent_of t' ++ [r]
  | _ :: t' => sent_of t'
  end.

(** *** Identity checks and the allocation handlers *)

Section Handlers.
Context (H : slurm_h) (E : slurm_errno_h).
Context {Store : Type} (X : ctld_env Store).

Local Open Scope ctld_scope.

Definition validate_slurm_user (uid : Z) : bool :=
  if (uid =? 0) || (uid =? getuid X) then true else false.

Definition validate_super_user (uid : Z) : bool :=
  if (uid =? 0) || (uid =? getuid X)
     || (assoc_mgr_get_admin_level X uid >=? SLURMDB_ADMIN_SUPER_USER H)
  then true else false.

Definition validate_operator (uid : Z) : bool :=
  if (uid =? 0) || (uid =? getuid X)
     || (assoc_mgr_get_admin_level X uid >=? SLURMDB_ADMIN_OPERATOR H)
  then true else false.

Definition _kill_job_on_msg_fail (job_id : Z) : M Store unit :=
  _ <- call (job_complete X job_id 0 false false 0) ;; skip.

(** [(alloc_node == NULL) || (alloc_node[0] == '\0')] *)
Definition alloc_node_missing (d : job_desc_msg) : bool :=
  match jd_alloc_node d with
  | None => true
  | Some s => if String.eqb s "" then true else false
  end.

Definition send_rc_or_err (error_code : Z) (err_msg : option string)
  : M Store unit :=
  match err_msg with
  | Some m => emit (Send (Rc_err_msg error_code m))
  | None => emit (Send (Rc_msg error_code))
  end.

(** The [job_waiting] test of [_slurm_rpc_allocate_resources]. *)
Definition job_waiting_code (error_code : Z) : bool :=
  (error_code =? ESLURM_REQUESTED_PART_CONFIG_UNAVAILABLE E)
  || (error_code =? ESLURM_RESERVATION_NOT_USABLE E)
  || (error_code =? ESLURM_QOS_THRES E)
  || (error_code =? ESLURM_NODE_NOT_AVAIL E)
  || (error_code =? ESLURM_JOB_HELD E).

Definition build_alloc_msg (error_code : Z) (job_ptr : job_record)
  : resource_allocation_response_msg :=
  let '(groups, reps, cpus) :=
    match job_resrcs job_ptr with
    | Some r =>
        if c_true (cpu_array_cnt r)
        then (cpu_array_cnt r,
              take (Z.to_nat (cpu_array_cnt r)) (cpu_array_reps r),
              take (Z.to_nat (cpu_array_cnt r)) (cpu_array_value r))
        else (0, [], [])
    | None => (0, [], [])
    end in
  {| ra_error_code := error_code;
     ra_job_id := job_id job_ptr;
     ra_node_cnt := node_cnt job_ptr;
     ra_node_list := nodes job_ptr;
     ra_partition := partition job_ptr;
     ra_alias_list := alias_list job_ptr;
     ra_num_cpu_groups := groups;
     ra_cpu_count_reps := reps;
     ra_cpus_per_node := cpus;
     ra_pn_min_memory :=
       match details job_ptr with
       | Some d => pn_min_memory d
       | None => 0
       end |}.

Definition with_resp_host (d : job_desc_msg) (host : string)
  : job_desc_msg :=
  {| jd_user_id := jd_user_id d; jd_alloc_node := jd_alloc_node d;
     jd_immediate := jd_immediate d; jd_job_id := jd_job_id d;
     jd_resp_host := Some host |}.

(** The last part of [_slurm_rpc_allocate_resources], from
    "return result" on. *)
Definition allocate_return_result (msg : slurm_msg) (immediate : Z)
    (error_code : Z) (job_ptr : option job_record)
    (err_msg : option string) : M Store unit :=
  let job_waiting := job_waiting_code error_code in
  if (error_code =? SLURM_SUCCESS)
     || ((immediate =? 0) && job_waiting)
  then
    match job_ptr with
    | None => emit Abort                       (* xassert(job_ptr) *)
    | Some job_ptr =>
        emit (Send (Resp_resource_allocation
                      (build_alloc_msg error_code job_ptr))) ;;
        (if send_ok msg then skip
         else _kill_job_on_msg_fail (job_id job_ptr)) ;;
        emit Schedule_job_save ;;
        emit Schedule_node_save
    end
  else send_rc_or_err error_code err_msg.

Definition _slurm_rpc_allocate_resources (msg : slurm_msg)
    (job_desc_msg : job_desc_msg) : M Store unit :=
  let uid := auth_uid msg in
  let immediate := jd_immediate job_desc_msg in
  let error_code := SLURM_SUCCESS in
  let error_code :=
    if negb (uid =? jd_user_id job_desc_msg)
       && negb (validate_slurm_user uid)
    then ESLURM_USER_ID_MISSING E else error_code in
  let error_code :=
    if alloc_node_missing job_desc_msg
    then ESLURM_INVALID_NODE_NAME E else error_code in
  v <- (if error_code =? SLURM_SUCCESS
        then look (validate_job_create_req X job_desc_msg uid)
        else ret (error_code, None)) ;;
  let '(error_code, err_msg) := v in
  in_use <- (if HAVE_ALPS_CRAY X
             then look (allocated_session_in_use X job_desc_msg)
             else ret false) ;;
  let error_code :=
    if in_use then ESLURM_RESERVATION_BUSY E else error_code in
  r <- match peer_addr msg with
       | Some host =>
           let job_desc_msg := with_resp_host job_desc_msg host in
           if error_code =? SLURM_SUCCESS then
             call (job_allocate X job_desc_msg immediate false true uid
                                err_msg)
           else ret (error_code, None, err_msg)
       | None =>
           if c_true (conn_errno msg)
           then ret (conn_errno msg, None, err_msg)
           else ret (SLURM_ERROR, None, err_msg)
       end ;;
  let '(error_code, job_ptr, err_msg) := r in
  allocate_return_result msg immediate error_code job_ptr err_msg.

(** Lines 6980-6996 of [_slurm_rpc_submit_batch_job]: what becomes of
    the job id named in the request. *)
Inductive named_job :=
| Job_active (job_ptr : job_record)   (* an active allocation *)
| Job_duplicate (job_ptr : job_record)(* finished, still completing *)
| Job_none.                           (* job_ptr == NULL *)

Definition submit_named_job (job_desc_msg : job_desc_msg) (s : Store)
  : named_job :=
  if negb (jd_job_id job_desc_msg =? SLURM_BATCH_SCRIPT H) then
    match find_job_record X (jd_job_id job_desc_msg) s with
    | Some job_ptr =>
        if IS_JOB_FINISHED H (job_state job_ptr) then
          if IS_JOB_COMPLETING H (job_state job_ptr)
          then Job_duplicate job_ptr
          else Job_none                 (* OK to re-use job id *)
        else Job_active job_ptr
    | None => Job_none
    end
  else Job_none.

(** The last part of [_slurm_rpc_submit_batch_job], from
    "return result" on. *)
Definition submit_return_result (error_code : Z)
    (job_ptr : option job_record) (err_msg : option string) : M Store unit :=
  if negb (error_code =? SLURM_SUCCESS)
     && negb (error_code =? ESLURM_JOB_HELD E)
     && negb (error_code =? ESLURM_NODE_NOT_AVAIL E)
     && negb (error_code =? ESLURM_QOS_THRES E)
     && negb (error_code =? ESLURM_RESERVATION_NOT_USABLE E)
     && negb (error_code =? ESLURM_REQUESTED_PART_CONFIG_UNAVAILABLE E)
  then send_rc_or_err error_code err_msg
  else
    match job_ptr with
    | None => emit Abort                               (* fatal() *)
    | Some job_ptr =>
        emit (Send (Resp_submit_batch_job
                      {| sr_job_id := job_id job_ptr;
                         sr_step_id := SLURM_BATCH_SCRIPT H;
                         sr_error_code := error_code |})) ;;
        emit Schedule_job_save ;;
        emit Schedule_node_save ;;
        emit Queue_job_scheduler
    end.

Definition _slurm_rpc_submit_batch_job (msg : slurm_msg)
    (job_desc_msg : job_desc_msg) : M Store unit :=
  let uid := auth_uid msg in
  let error_code := SLURM_SUCCESS in
  let error_code :=
    if negb (uid =? jd_user_id job_desc_msg)
       && negb (validate_super_user uid)
    then ESLURM_USER_ID_MISSING E else error_code in
  let error_code :=
    if alloc_node_missing job_desc_msg
    then ESLURM_INVALID_NODE_NAME E else error_code in
  v <- (if error_code =? SLURM_SUCCESS
        then look (validate_job_create_req X job_desc_msg uid)
        else ret (error_code, None)) ;;
  let '(error_code, err_msg) := v in
  if error_code =? SLURM_SUCCESS then
    named <- look (submit_named_job job_desc_msg) ;;
    match named with
    | Job_duplicate _ =>
        emit (Send (Rc_msg (ESLURM_DUPLICATE_JOB_ID E)))
    | Job_active job_ptr =>
        if HAVE_FRONT_END X && negb (HAVE_BGQ X)
           && negb (HAVE_ALPS_CRAY X) && negb (validate_slurm_user uid)
        then emit (Send (Rc_msg (ESLURM_NO_STEPS E)))
        else if negb (user_id job_ptr =? uid)
        then emit (Send (Rc_msg (ESLURM_USER_ID_MISSING E)))
        else if match details job_ptr with
                | Some d => c_true (prolog_running d)
                | None => false
                end
        then emit (Send (Rc_msg (EAGAIN E)))
        else
          r <- call (_launch_batch_step X job_desc_msg uid
                                        (protocol_version msg)) ;;
          let '(error_code, step_id) := r in
          if negb (error_code =? SLURM_SUCCESS)
          then emit (Send (Rc_msg error_code))
          else
            emit (Send (Resp_submit_batch_job
                          {| sr_job_id := jd_job_id job_desc_msg;
                             sr_step_id := step_id;
                             sr_error_code := error_code |})) ;;
            emit Schedule_job_save
    | Job_none =>
        (* Create new job allocation *)
        r <- call (job_allocate X job_desc_msg (jd_immediate job_desc_msg)
                                false false uid err_msg) ;;
        let '(error_code, job_ptr, err_msg) := r in
        let error_code :=
          if c_true (jd_immediate job_desc_msg)
             && negb (error_code =? SLURM_SUCCESS)
          then ESLURM_CAN_NOT_START_IMMEDIATELY E else error_code in
        submit_return_result error_code job_ptr err_msg
    end
  else submit_return_result error_code None err_msg.

(** *** Messages from the compute nodes *)

Definition _slurm_rpc_epilog_complete (msg : slurm_msg)
    (epilog_msg : epilog_complete_msg) : M Store unit :=
  let uid := auth_uid msg in
  if negb (validate_slurm_user uid) then skip        (* return *)
  else
    (* config_update is a static that is never assigned: it stays 0 *)
    last_update <- get conf_last_update ;;
    (if negb (0 =? last_update)
     then d <- get sched_params_defer ;;
          put (fun c => with_defer_sched c d)
     else skip) ;;
    run_scheduler <- call (job_epilog_complete X (ec_job_id epilog_msg)
                             (ec_node_name epilog_msg)
                             (ec_return_code epilog_msg)) ;;
    if run_scheduler : bool then
      defer <- get defer_sched ;;
      (if negb defer then call_ (schedule X 0) else skip) ;;
      emit Schedule_node_save ;;
      emit Schedule_job_save
    else skip.
    (* NOTE: RPC has no response *)

(** [job_ptr && job_ptr->batch_host && comp_msg->node_name &&
    strcmp(job_ptr->batch_host, comp_msg->node_name)] *)
Definition batch_from_wrong_node (job_ptr : option job_record)
    (comp_msg : complete_batch_script_msg) : bool :=
  match job_ptr with
  | Some j =>
      match batch_host j, cb_node_name comp_msg with
      | Some h, Some n => negb (String.eqb h n)
      | _, _ => false
      end
  | None => false
  end.

(** [job_ptr && job_ptr->details && job_ptr->details->requeue] *)
Definition details_requeue (job_ptr : option job_record) : bool :=
  match job_ptr with
  | Some j =>
      match details j with
      | Some d => c_true (requeue d)
      | None => false
      end
  | None => false
  end.

(** Outcome of the "First set node DOWN if fatal error" block of
    [_slurm_rpc_complete_batch_script]. *)
Record batch_rc_outcome := {
  bo_slurm_rc : Z;              (* comp_msg->slurm_rc afterwards *)
  bo_error_code : Z;
  bo_job_requeue : bool;
  bo_dump_job : bool;
  bo_dump_node : bool;
  bo_block_id : option string   (* block_desc.bg_block_id, HAVE_BG *)
}.

Definition batch_rc_block (comp_msg : complete_batch_script_msg)
    (job_ptr : option job_record) : M Store batch_rc_outcome :=
  let slurm_rc := cb_slurm_rc comp_msg in
  let quiet := {| bo_slurm_rc := slurm_rc; bo_error_code := SLURM_SUCCESS;
                  bo_job_requeue := false; bo_dump_job := false;
                  bo_dump_node := false; bo_block_id := None |} in
  if (slurm_rc =? ESLURM_ALREADY_DONE E)
     || (slurm_rc =? ESLURMD_CREDENTIAL_REVOKED E)
  then
    (* race condition on job termination, not a real error *)
    ret {| bo_slurm_rc := SLURM_SUCCESS; bo_error_code := SLURM_SUCCESS;
           bo_job_requeue := false; bo_dump_job := false;
           bo_dump_node := false; bo_block_id := None |}
  else if HAVE_ALPS_CRAY X
          && (slurm_rc =? ESLURM_RESERVATION_NOT_USABLE E)
  then
    (* Give job one more chance to run *)
    ret {| bo_slurm_rc := slurm_rc; bo_error_code := SLURM_SUCCESS;
           bo_job_requeue := true; bo_dump_job := true;
           bo_dump_node := false; bo_block_id := None |}
  else if (slurm_rc =? SLURM_COMMUNICATIONS_SEND_ERROR E)
          || (slurm_rc =? ESLURM_USER_ID_MISSING E)
          || (slurm_rc =? ESLURMD_UID_NOT_FOUND E)
          || (slurm_rc =? ESLURMD_GID_NOT_FOUND E)
          || (slurm_rc =? ESLURMD_INVALID_ACCT_FREQ E)
  then ret quiet
  else if negb (slurm_rc =? SLURM_SUCCESS) then
    put (fun c => with_diag c
           {| jobs_failed := jobs_failed (diag c) + 1;
              jobs_completed := jobs_completed (diag c) |}) ;;
    (* error_code is still SLURM_SUCCESS here *)
    r <- (if HAVE_BG X then
            ret (SLURM_SUCCESS,
                 match job_ptr with
                 | Some j => select_jobinfo_block_id X j
                 | None => None
                 end)
          else if HAVE_FRONT_END X then
            match job_ptr with
            | Some j =>
                match front_end_ptr j with
                | Some name =>
                    rc <- call (update_front_end X
                            {| fe_name := Some name;
                               fe_node_state := NODE_STATE_DRAIN H;
                               fe_reason :=
                                 Some "batch job complete failure" |}) ;;
                    ret (rc, None)
                | None => ret (SLURM_SUCCESS, None)
                end
            | None => ret (SLURM_SUCCESS, None)
            end
          else
            rc <- call (drain_nodes X (cb_node_name comp_msg)
                          "batch job complete failure" (getuid X)) ;;
            ret (rc, None)) ;;
    let '(error_code, block_id) := r in
    ret {| bo_slurm_rc := slurm_rc; bo_error_code := error_code;
           bo_job_requeue :=
             negb (cb_job_rc comp_msg =? SLURM_SUCCESS)
             && details_requeue job_ptr;
           bo_dump_job := true; bo_dump_node := true;
           bo_block_id := block_id |}
  else ret quiet.

Fixpoint emit_sends (rs : list response) : M Store unit :=
  match rs with
  | [] => skip
  | r :: rs' => emit (Send r) ;; emit_sends rs'
  end.

(** "Send batch step info to accounting, only if the job is still
    completing." *)
Definition batch_step_accounting (comp_msg : complete_batch_script_msg)
    (job_ptr : option job_record) : M Store unit :=
  match job_ptr with
  | Some j =>
      if association_based_accounting X
         && negb (job_state j =? JOB_PENDING H)
      then emit (Acct_batch_step (job_id j)
                   (if HAVE_FRONT_END X then nodes j
                    else cb_node_name comp_msg)
                   (cb_job_rc comp_msg))
      else skip
  | None => skip
  end.

(** The part of [_slurm_rpc_complete_batch_script] from "Mark job
    allocation complete" on. *)
Definition batch_mark_complete (msg : slurm_msg)
    (comp_msg : complete_batch_script_msg) (job_ptr : option job_record)
    (o : batch_rc_outcome) : M Store unit :=
  let uid := auth_uid msg in
  (if msg_type msg =? MsgType.REQUEST_COMPLETE_BATCH_JOB
   then _ <- call (job_epilog_complete X (cb_job_id comp_msg)
                     (cb_node_name comp_msg) 0) ;; skip
   else skip) ;;
  i <- call (job_complete X (cb_job_id comp_msg) uid
               (bo_job_requeue o) false (cb_job_rc comp_msg)) ;;
  let error_code := Z.max (bo_error_code o) i in
  error_code <-
    (match bo_block_id o with
     | Some id =>
         i <- call (select_g_update_block X
                      {| bg_block_id := Some id;
                         bg_reason_rc := bo_slurm_rc o;
                         bg_state_error := true |}) ;;
         ret (Z.max error_code i)
     | None => ret error_code
     end) ;;
  r <- (if c_true error_code then
          emit (Send (Rc_msg error_code)) ;;
          ret (false, bo_dump_job o)
        else
          put (fun c => with_diag c
                 {| jobs_failed := jobs_failed (diag c);
                    jobs_completed := jobs_completed (diag c) + 1 |}) ;;
          rb <- call (replace_batch_job X msg job_ptr) ;;
          emit_sends (snd rb) ;;
          ret (fst rb, true)) ;;
  let '(run_sched, dump_job) := r in
  (if run_sched : bool then call_ (schedule X 0) else skip) ;;
  (if dump_job : bool then emit Schedule_job_save else skip) ;;
  (if bo_dump_node o then emit Schedule_node_save else skip).

Definition _slurm_rpc_complete_batch_script (msg : slurm_msg)
    (comp_msg : complete_batch_script_msg) : M Store unit :=
  let uid := auth_uid msg in
  if negb (validate_slurm_user uid) then skip
    (* Only the slurmstepd can complete a batch script: return *)
  else
    job_ptr <- look (find_job_record X (cb_job_id comp_msg)) ;;
    if batch_from_wrong_node job_ptr comp_msg then
      emit (Send (Rc_msg SLURM_SUCCESS))     (* ignored request *)
    else
      batch_step_accounting comp_msg job_ptr ;;
      o <- batch_rc_block comp_msg job_ptr ;;
      batch_mark_complete msg comp_msg job_ptr o.

Definition _slurm_rpc_node_registration (msg : slurm_msg)
    (node_reg_stat_msg : node_registration_msg) : M Store unit :=
  let uid := auth_uid msg in
  let error_code :=
    if negb (validate_slurm_user uid)
    then ESLURM_USER_ID_MISSING E else SLURM_SUCCESS in
  error_code <-
    (if error_code =? SLURM_SUCCESS then
       r <- (if HAVE_FRONT_END X then
               call (validate_nodes_via_front_end X node_reg_stat_msg
                       (protocol_version msg))
             else
               call_ (validate_jobs_on_node X node_reg_stat_msg) ;;
               call (validate_node_specs X node_reg_stat_msg
                       (protocol_version msg))) ;;
       let '(error_code, newly_up) := r in
       (if newly_up : bool then emit Queue_job_scheduler else skip) ;;
       ret error_code
     else ret error_code) ;;
  if c_true error_code then emit (Send (Rc_msg error_code))
  else emit (Send (Rc_msg SLURM_SUCCESS)).

Definition _slurm_rpc_ping (msg : slurm_msg) : M Store unit :=
  (* We could authenticate here, if desired *)
  emit (Send (Rc_msg SLURM_SUCCESS)).

Definition _slurm_rpc_step_complete (msg : slurm_msg)
    (req : step_complete_msg) : M Store unit :=
  let uid := auth_uid msg in
  r <- call (step_partial_comp X req uid) ;;
  let '(rc, rem, step_rc) := r in
  if c_true rc || c_true rem then
    (* some error or not totally done *)
    emit (Send (Rc_msg rc)) ;;
    (if negb (c_true rc) then emit Schedule_job_save else skip)
  else
    error_code <-
      (if sc_job_step_id req =? SLURM_BATCH_SCRIPT H
       then call (job_complete X (sc_job_id req) uid false false step_rc)
       else call (job_step_complete X (sc_job_id req)
                    (sc_job_step_id req) uid false step_rc)) ;;
    if c_true error_code then emit (Send (Rc_msg error_code))
    else
      emit (Send (Rc_msg SLURM_SUCCESS)) ;;
      emit Schedule_job_save.

(** *** Administrative requests *)

Definition _slurm_rpc_reconfigure_controller (msg : slurm_msg)
  : M Store unit :=
  let uid := auth_uid msg in
  let error_code :=
    if negb (validate_super_user uid)
    then ESLURM_USER_ID_MISSING E else SLURM_SUCCESS in
  busy <- get (fun c => in_progress c || c_true (shutdown_time c)) ;;
  let error_code := if busy : bool then EINPROGRESS E else error_code in
  error_code <-
    (if error_code =? SLURM_SUCCESS then
       put (fun c => with_in_progress c true) ;;
       error_code <- call (read_slurm_conf X 1 true) ;;
       (if error_code =? SLURM_SUCCESS then
          emit Update_cred_key ;;
          emit Set_slurmctld_state_loc ;;
          emit (Msg_to_slurmd MsgType.REQUEST_RECONFIGURE)
        else skip) ;;
       put (fun c => with_in_progress c false) ;;
       emit Sched_partition_change ;;
       emit Assoc_mgr_set_missing_uids ;;
       emit Start_power_mgr ;;
       emit Trigger_reconfig ;;
       ret error_code
     else ret error_code) ;;
  if c_true error_code then emit (Send (Rc_msg error_code))
  else
    emit (Send (Rc_msg SLURM_SUCCESS)) ;;
    emit Acct_storage_reconfig ;;
    emit Priority_reconfig ;;
    emit Save_all_state ;;
    emit Queue_job_scheduler.

(** [shutdown_msg] is the body of REQUEST_SHUTDOWN; REQUEST_CONTROL has
    none.  The wait for [server_thread_count] to drop, which changes
    nothing, is left out. *)
Definition _slurm_rpc_shutdown_controller (msg : slurm_msg)
    (shutdown_msg : option shutdown_msg) : M Store unit :=
  let uid := auth_uid msg in
  let error_code :=
    if negb (validate_super_user uid)
    then ESLURM_USER_ID_MISSING E else SLURM_SUCCESS in
  options <-
    (if c_true error_code then ret 0
     else if msg_type msg =? MsgType.REQUEST_CONTROL then
       put (fun c => with_resume_backup c true) ;; ret 0
     else ret (match shutdown_msg with
               | Some m => sd_options m
               | None => 0
               end)) ;;
  down <- get shutdown_time ;;
  tid <- get thread_id_sig ;;
  (if c_true error_code then skip
   else if options =? 1 then skip
   else if c_true down then skip
   else
     (if (msg_type msg =? MsgType.REQUEST_SHUTDOWN) && (options =? 0)
      then emit (Msg_to_slurmd MsgType.REQUEST_SHUTDOWN) else skip) ;;
     (if c_true tid then emit (Pthread_kill SIGTERM)
      else
        put (fun c => with_shutdown_time c (now X)) ;;
        emit Slurmctld_shutdown)) ;;
  emit (Send (Rc_msg error_code)) ;;
  (if (error_code =? SLURM_SUCCESS) && (options =? 1) && c_true tid
   then emit (Pthread_kill SIGABRT) else skip).

Definition _slurm_rpc_shutdown_controller_immediate (msg : slurm_msg)
  : M Store unit :=
  let uid := auth_uid msg in
  let error_code :=
    if negb (validate_super_user uid)
    then ESLURM_USER_ID_MISSING E else SLURM_SUCCESS in
  (* No op: just used to knock loose accept RPC thread *)
  if error_code =? SLURM_SUCCESS then skip else skip.

Definition _slurm_rpc_takeover (msg : slurm_msg) : M Store unit :=
  let uid := auth_uid msg in
  let error_code :=
    if negb (validate_super_user uid)
    then ESLURM_USER_ID_MISSING E else SLURM_SUCCESS in
  emit (Send (Rc_msg error_code)).

Definition send_rc_result (error_code : Z) : M Store unit :=
  if c_true error_code then emit (Send (Rc_msg error_code))
  else emit (Send (Rc_msg SLURM_SUCCESS)).

Definition _slurm_rpc_update_node (msg : slurm_msg)
    (update_node_msg_ptr : update_node_msg) : M Store unit :=
  let uid := auth_uid msg in
  let error_code :=
    if negb (validate_super_user uid)
    then ESLURM_USER_ID_MISSING E else SLURM_SUCCESS in
  error_code <-
    (if error_code =? SLURM_SUCCESS
     then call (update_node X update_node_msg_ptr)
     else ret error_code) ;;
  send_rc_result error_code ;;
  (* Below functions provide their own locks *)
  emit Schedule_node_save ;;
  emit Queue_job_scheduler ;;
  emit Trigger_reconfig.

Definition _slurm_rpc_update_partition (msg : slurm_msg)
    (part_desc_ptr : update_part_msg) : M Store unit :=
  let uid := auth_uid msg in
  let error_code :=
    if negb (validate_super_user uid)
    then ESLURM_USER_ID_MISSING E else SLURM_SUCCESS in
  error_code <-
    (if error_code =? SLURM_SUCCESS then
       if msg_type msg =? MsgType.REQUEST_CREATE_PARTITION
       then call (update_part X part_desc_ptr true)
       else call (update_part X part_desc_ptr false)
     else ret error_code) ;;
  if c_true error_code then emit (Send (Rc_msg error_code))
  else
    emit (Send (Rc_msg SLURM_SUCCESS)) ;;
    emit Schedule_part_save ;;
    emit Queue_job_scheduler.

Definition _slurm_rpc_delete_partition (msg : slurm_msg)
    (part_desc_ptr : delete_part_msg) : M Store unit :=
  let uid := auth_uid msg in
  let error_code :=
    if negb (validate_super_user uid)
    then ESLURM_USER_ID_MISSING E else SLURM_SUCCESS in
  error_code <-
    (if error_code =? SLURM_SUCCESS
     then call (delete_partition X part_desc_ptr)
     else ret error_code) ;;
  if c_true error_code then emit (Send (Rc_msg error_code))
  else
    emit (Send (Rc_msg SLURM_SUCCESS)) ;;
    emit Save_all_state ;;
    emit Queue_job_scheduler.

Definition _slurm_rpc_resv_create (msg : slurm_msg)
    (resv_desc_ptr : resv_desc_msg) : M Store unit :=
  let uid := auth_uid msg in
  let error_code :=
    if negb (validate_operator uid)
    then ESLURM_USER_ID_MISSING E else SLURM_SUCCESS in
  r <- (if error_code =? SLURM_SUCCESS
        then call (create_resv X resv_desc_ptr)
        else ret (error_code, rd_name resv_desc_ptr)) ;;
  let '(error_code, name) := r in
  if c_true error_code then emit (Send (Rc_msg error_code))
  else
    (* send reservation name *)
    emit (Send (Resp_create_reservation name)) ;;
    emit Queue_job_scheduler.

Definition _slurm_rpc_resv_update (msg : slurm_msg)
    (resv_desc_ptr : resv_desc_msg) : M Store unit :=
  let uid := auth_uid msg in
  let error_code :=
    if negb (validate_operator uid)
    then ESLURM_USER_ID_MISSING E else SLURM_SUCCESS in
  error_code <-
    (if error_code =? SLURM_SUCCESS
     then call (update_resv X resv_desc_ptr)
     else ret error_code) ;;
  if c_true error_code then emit (Send (Rc_msg error_code))
  else
    emit (Send (Rc_msg SLURM_SUCCESS)) ;;
    emit Queue_job_scheduler.

Definition _slurm_rpc_resv_delete (msg : slurm_msg)
    (resv_desc_ptr : reservation_name_msg) : M Store unit :=
  let uid := auth_uid msg in
  let error_code :=
    if negb (validate_operator uid)
    then ESLURM_USER_ID_MISSING E else SLURM_SUCCESS in
  error_code <-
    (if error_code =? SLURM_SUCCESS
     then call (delete_resv X resv_desc_ptr)
     else ret error_code) ;;
  if c_true error_code then emit (Send (Rc_msg error_code))
  else
    emit (Send (Rc_msg SLURM_SUCCESS)) ;;
    emit Queue_job_scheduler.

Definition _slurm_rpc_accounting_first_reg (msg : slurm_msg)
  : M Store unit :=
  let uid := auth_uid msg in
  if negb (validate_super_user uid) then skip
  else emit Send_all_to_accounting.

Definition _slurm_rpc_accounting_register_ctld (msg : slurm_msg)
  : M Store unit :=
  let uid := auth_uid msg in
  if negb (validate_super_user uid) then skip
  else emit Register_ctld.

(** *** Statistics *)

(** [_slurm_rpc_dump_stats]; the telemetry tables are passed in and
    returned next to the controller state. *)
Definition _slurm_rpc_dump_stats (msg : slurm_msg)
    (request_msg : stats_info_request_msg) (t : rpc_tables)
  : M Store rpc_tables :=
  let uid := auth_uid msg in
  if (command_id request_msg =? STAT_COMMAND_RESET H)
     && negb (validate_slurm_user uid)
  then
    emit (Send (Rc_msg (ESLURM_ACCESS_DENIED E))) ;;
    ret t
  else if command_id request_msg =? STAT_COMMAND_RESET H then
    put (fun c => with_diag c (reset_stats X 1 (diag c))) ;;
    let t := _clear_rpc_stats t in
    dump <- get (fun c => pack_all_stat X 0 (protocol_version msg)
                            (diag c) (store c)) ;;
    let dump := _pack_rpc_stats (SLURM_14_11_PROTOCOL_VERSION H) t dump
                  (protocol_version msg) in
    emit (Send (Resp_stats_info dump)) ;;
    ret t
  else
    dump <- get (fun c => pack_all_stat X 1 (protocol_version msg)
                            (diag c) (store c)) ;;
    let dump := _pack_rpc_stats (SLURM_14_11_PROTOCOL_VERSION H) t dump
                  (protocol_version msg) in
    emit (Send (Resp_stats_info dump)) ;;
    ret t.

(** *** The dispatcher *)

(** Message types that [slurmctld_req] dispatches to handlers which are
    not embedded here. *)
Definition other_rpc_types : list Z :=
  [ MsgType.REQUEST_BUILD_INFO; MsgType.REQUEST_JOB_INFO;
    MsgType.REQUEST_JOB_USER_INFO; MsgType.REQUEST_JOB_INFO_SINGLE;
    MsgType.REQUEST_SHARE_INFO; MsgType.REQUEST_PRIORITY_FACTORS;
    MsgType.REQUEST_JOB_END_TIME; MsgType.REQUEST_FRONT_END_INFO;
    MsgType.REQUEST_NODE_INFO; MsgType.REQUEST_NODE_INFO_SINGLE;
    MsgType.REQUEST_PARTITION_INFO; MsgType.REQUEST_CANCEL_JOB_STEP;
    MsgType.REQUEST_COMPLETE_JOB_ALLOCATION;
    MsgType.REQUEST_COMPLETE_PROLOG; MsgType.REQUEST_JOB_STEP_CREATE;
    MsgType.REQUEST_JOB_STEP_INFO; MsgType.REQUEST_JOB_WILL_RUN;
    MsgType.REQUEST_JOB_ALLOCATION_INFO;
    MsgType.REQUEST_JOB_ALLOCATION_INFO_LITE;
    MsgType.REQUEST_JOB_SBCAST_CRED; MsgType.REQUEST_UPDATE_FRONT_END;
    MsgType.REQUEST_UPDATE_JOB; MsgType.REQUEST_UPDATE_BLOCK;
    MsgType.REQUEST_RESERVATION_INFO; MsgType.REQUEST_CHECKPOINT;
    MsgType.REQUEST_CHECKPOINT_COMP;
    MsgType.REQUEST_CHECKPOINT_TASK_COMP; MsgType.REQUEST_SUSPEND;
    MsgType.REQUEST_JOB_REQUEUE; MsgType.REQUEST_JOB_READY;
    MsgType.REQUEST_BLOCK_INFO; MsgType.REQUEST_STEP_LAYOUT;
    MsgType.REQUEST_UPDATE_JOB_STEP; MsgType.REQUEST_TRIGGER_SET;
    MsgType.REQUEST_TRIGGER_GET; MsgType.REQUEST_TRIGGER_CLEAR;
    MsgType.REQUEST_TRIGGER_PULL; MsgType.REQUEST_JOB_NOTIFY;
    MsgType.REQUEST_SET_DEBUG_FLAGS; MsgType.REQUEST_SET_DEBUG_LEVEL;
    MsgType.REQUEST_SET_SCHEDLOG_LEVEL; MsgType.ACCOUNTING_UPDATE_MSG;
    MsgType.REQUEST_TOPO_INFO; MsgType.REQUEST_SPANK_ENVIRONMENT;
    MsgType.REQUEST_REBOOT_NODES; MsgType.REQUEST_LICENSE_INFO;
    MsgType.REQUEST_KILL_JOB ].

(** The handlers that are not embedded; none of them touches the
    telemetry tables. *)
Context (other_handlers : slurm_msg -> M Store unit).

(** The [switch] of [slurmctld_req]. *)
Definition dispatch (msg : slurm_msg) (t : rpc_tables)
  : M Store rpc_tables :=
  match body msg with
  | Req_resource_allocation d =>
      _slurm_rpc_allocate_resources msg d ;; ret t
  | Req_submit_batch_job d => _slurm_rpc_submit_batch_job msg d ;; ret t
  | Req_epilog_complete m => _slurm_rpc_epilog_complete msg m ;; ret t
  | Req_complete_batch_job m
  | Req_complete_batch_script m =>
      _slurm_rpc_complete_batch_script msg m ;; ret t
  | Req_step_complete m => _slurm_rpc_step_complete msg m ;; ret t
  | Req_node_registration m =>
      _slurm_rpc_node_registration msg m ;; ret t
  | Req_node_registration_status =>
      (* slurmctld is talking with itself *)
      emit (Send (Rc_msg (EINVAL E))) ;; ret t
  | Req_ping => _slurm_rpc_ping msg ;; ret t
  | Req_reconfigure => _slurm_rpc_reconfigure_controller msg ;; ret t
  | Req_control => _slurm_rpc_shutdown_controller msg None ;; ret t
  | Req_shutdown m =>
      _slurm_rpc_shutdown_controller msg (Some m) ;; ret t
  | Req_shutdown_immediate =>
      _slurm_rpc_shutdown_controller_immediate msg ;; ret t
  | Req_takeover => _slurm_rpc_takeover msg ;; ret t
  | Req_update_node m => _slurm_rpc_update_node msg m ;; ret t
  | Req_create_partition m
  | Req_update_partition m => _slurm_rpc_update_partition msg m ;; ret t
  | Req_delete_partition m => _slurm_rpc_delete_partition msg m ;; ret t
  | Req_create_reservation m => _slurm_rpc_resv_create msg m ;; ret t
  | Req_update_reservation m => _slurm_rpc_resv_update msg m ;; ret t
  | Req_delete_reservation m => _slurm_rpc_resv_delete msg m ;; ret t
  | Req_stats_info m => _slurm_rpc_dump_stats msg m t
  | Req_accounting_first_reg =>
      _slurm_rpc_accounting_first_reg msg ;; ret t
  | Req_accounting_register_ctld =>
      _slurm_rpc_accounting_register_ctld msg ;; ret t
  | Req_other ty =>
      if bool_decide (ty ∈ other_rpc_types)
      then other_handlers msg ;; ret t
      else emit (Send (Rc_msg (EINVAL E))) ;; ret t  (* invalid RPC *)
  end.

(** [slurmctld_req]: [delta] is the value of DELTA_TIMER measured by
    END_TIMER for this request. *)
Definition slurmctld_req (msg : slurm_msg) (delta : Z) (t : rpc_tables)
  : M Store rpc_tables :=
  let rpc_uid := u32 (auth_uid msg) in
  if negb (auth_errno msg =? SLURM_SUCCESS) then ret t  (* return *)
  else
    let '(t, (rpc_type_index, rpc_user_index)) :=
      rpc_stats_begin (msg_type msg) rpc_uid t in
    t <- dispatch msg t ;;
    ret (rpc_stats_end rpc_type_index rpc_user_index delta t).

End Handlers.
End Ctld.

(** ** Concrete tables and a concrete controller, used to run the handlers *)

Module Sample.
Import RpcStats Ctld.

(** Values in the style of slurm.h and slurmdb.h. *)
Definition slurm_h_values : slurm_h :=
  {| JOB_STATE_BASE := 0x00ff;
     JOB_PENDING := 0;
     JOB_SUSPENDED := 2;
     JOB_COMPLETING := 0x8000;
     NODE_STATE_BASE := 0x000f;
     NODE_STATE_ALLOCATED := 3;
     NODE_STATE_ERROR := 4;
     NODE_STATE_MIXED := 5;
     NODE_STATE_DRAIN := 0x0200;
     SLURM_BATCH_SCRIPT := 0xfffffffe;
     STAT_COMMAND_RESET := 0;
     SLURMDB_ADMIN_OPERATOR := 2;
     SLURMDB_ADMIN_SUPER_USER := 3;
     SLURM_14_11_PROTOCOL_VERSION := 7168 |}.

(** An error table with pairwise distinct codes. *)
Definition errno_values : slurm_errno_h :=
  {| ESLURM_USER_ID_MISSING := 2010;
     ESLURM_INVALID_NODE_NAME := 2018;
     ESLURM_REQUESTED_PART_CONFIG_UNAVAILABLE := 2015;
     ESLURM_RESERVATION_NOT_USABLE := 2070;
     ESLURM_QOS_THRES := 2081;
     ESLURM_NODE_NOT_AVAIL := 2063;
     ESLURM_JOB_HELD := 2043;
     ESLURM_CAN_NOT_START_IMMEDIATELY := 2058;
     ESLURM_DUPLICATE_JOB_ID := 2011;
     ESLURM_NO_STEPS := 2045;
     ESLURM_RESERVATION_BUSY := 2071;
     ESLURM_ALREADY_DONE := 2021;
     ESLURM_ACCESS_DENIED := 2002;
     ESLURMD_CREDENTIAL_REVOKED := 4008;
     ESLURMD_UID_NOT_FOUND := 4002;
     ESLURMD_GID_NOT_FOUND := 4003;
     ESLURMD_INVALID_ACCT_FREQ := 4039;
     SLURM_COMMUNICATIONS_SEND_ERROR := 1002;
     EINVAL := 22;
     EAGAIN := 11;
     EINPROGRESS := 115;
     EACCES := 13 |}.

(** The sample entity store is the log of the calls that changed it, most
    recent first. *)
Definition Store : Type := list string.

Definition sample_job (id state : Z) : job_record :=
  {| job_id := id; user_id := 1000; job_state := state;
     batch_host := Some "n1";
     details := Some {| requeue := 1; prolog_running := 0;
                        pn_min_memory := 0 |};
     front_end_ptr := None; job_resrcs := None;
     nodes := Some "n[1-2]"; node_cnt := 2;
     partition := Some "debug"; alias_list := None |}.

(** A controller whose collaborators succeed and log their call.  The
    daemon runs as uid 500; [level] gives the accounting admin level of a
    uid; [alloc_rc] is what [job_allocate] returns, next to a new pending
    job (under the id named in the request, else 42); [jobs] are the job
    records in the store; [cray] selects the HAVE_ALPS_CRAY build. *)
Definition env (level : Z -> Z) (alloc_rc : Z) (jobs : list job_record)
    (cray : bool) : ctld_env Store :=
  {| HAVE_ALPS_CRAY := cray;
     HAVE_BG := false;
     HAVE_BGQ := false;
     HAVE_FRONT_END := false;
     getuid := 500;
     assoc_mgr_get_admin_level := level;
     association_based_accounting := false;
     now := 1000000;
     find_job_record := fun id _ =>
       List.find (fun j => job_id j =? id) jobs;
     validate_job_create_req := fun _ _ _ => (SLURM_SUCCESS, None);
     allocated_session_in_use := fun _ _ => false;
     job_allocate := fun d _ _ _ _ em s =>
       ((alloc_rc,
         Some (sample_job (if jd_job_id d =? 0xfffffffe then 42
                           else jd_job_id d) 0), em),
        "job_allocate" :: s);
     _launch_batch_step := fun _ _ _ s =>
       ((SLURM_SUCCESS, 0), "_launch_batch_step" :: s);
     job_epilog_complete := fun _ _ _ s =>
       (true, "job_epilog_complete" :: s);
     job_complete := fun _ _ _ _ _ s =>
       (SLURM_SUCCESS, "job_complete" :: s);
     replace_batch_job := fun _ _ s =>
       ((false, [Rc_msg SLURM_SUCCESS]), s);
     schedule := fun _ s => "schedule" :: s;
     step_partial_comp := fun _ _ s =>
       ((SLURM_SUCCESS, 0, 0), "step_partial_comp" :: s);
     job_step_complete := fun _ _ _ _ _ s =>
       (SLURM_SUCCESS, "job_step_complete" :: s);
     drain_nodes := fun _ _ _ s => (SLURM_SUCCESS, "drain_nodes" :: s);
     update_front_end := fun _ s =>
       (SLURM_SUCCESS, "update_front_end" :: s);
     update_node := fun _ s => (SLURM_SUCCESS, "update_node" :: s);
     validate_jobs_on_node := fun _ s => "validate_jobs_on_node" :: s;
     validate_node_specs := fun _ _ s =>
       ((SLURM_SUCCESS, false), "validate_node_specs" :: s);
     validate_nodes_via_front_end := fun _ _ s =>
       ((SLURM_SUCCESS, false), "validate_nodes_via_front_end" :: s);
     select_jobinfo_block_id := fun _ => None;
     select_g_update_block := fun _ s =>
       (SLURM_SUCCESS, "select_g_update_block" :: s);
     read_slurm_conf := fun _ _ s =>
       (SLURM_SUCCESS, "read_slurm_conf" :: s);
     update_part := fun _ _ s => (SLURM_SUCCESS, "update_part" :: s);
     delete_partition := fun _ s =>
       (SLURM_SUCCESS, "delete_partition" :: s);
     create_resv := fun d s =>
       ((SLURM_SUCCESS, rd_name d), "create_resv" :: s);
     update_resv := fun _ s => (SLURM_SUCCESS, "update_resv" :: s);
     delete_resv := fun _ s => (SLURM_SUCCESS, "delete_resv" :: s);
     reset_stats := fun _ _ => {| jobs_failed := 0; jobs_completed := 0 |};
     pack_all_stat := fun _ _ d _ =>
       [Pack32 (jobs_failed d); Pack32 (jobs_completed d)] |}.

(** Nobody has an accounting admin level. *)
Definition no_admins : Z -> Z := fun _ => 0.

(** Uid 2000 is an accounting operator, nobody is an administrator. *)
Definition operator_2000 : Z -> Z :=
  fun uid => if uid =? 2000 then 2 else 0.

Definition ctld0 : ctld Store :=
  {| store := []; trace := [];
     diag := {| jobs_failed := 0; jobs_completed := 0 |};
     in_progress := false; shutdown_time := 0; resume_backup := false;
     thread_id_sig := 1; conf_last_update := 0;
     sched_params_defer := false; defer_sched := false |}.

(** A request from [uid] over a working connection. *)
Definition request_from (uid : Z) (r : request) : slurm_msg :=
  {| auth_uid := uid; auth_errno := 0; body := r;
     protocol_version := 7168; flags := 0;
     peer_addr := Some "10.0.0.7"; conn_errno := 0; send_ok := true |}.

Definition other_noop : slurm_msg -> M Store unit := fun _ => ret tt.

Definition job_desc (uid immediate id : Z) : job_desc_msg :=
  {| jd_user_id := uid; jd_alloc_node := Some "login1";
     jd_immediate := immediate; jd_job_id := id; jd_resp_host := None |}.

(** Telemetry tables that are full: request types 1..100 and, behind the
    reserved slot 0, user ids 1..199 each hold a slot with one sample. *)
Definition full_tables : rpc_tables :=
  {| rpc_type_size := 100;
     rpc_type_id := map Z.of_nat (seq 1 100);
     rpc_type_cnt := replicate 100 1;
     rpc_type_time := replicate 100 10;
     rpc_user_size := 200;
     rpc_user_id := map Z.of_nat (seq 0 200);
     rpc_user_cnt := replicate 200 1;
     rpc_user_time := replicate 200 10 |}.
End Sample.

(** ** Vocabulary of the statements *)

Module Spec.
Import RpcStats Ctld.

(** A slot of the per-type table serves request type [key] when it is
    free (id 0) or already holds [key]. *)
Definition type_slot (key : Z) (j : nat) (id : Z) : Prop :=
  id = 0 \/ id = key.

(** A slot of the per-user table serves [uid] when it is free and not
    slot 0, or already holds [uid]. *)
Definition user_slot (uid : Z) (j : nat) (id : Z) : Prop :=
  (id = 0 /\ j <> 0%nat) \/ id = uid.

(** [j] is the first slot of [ids] that serves. *)
Definition first_slot (P : nat -> Z -> Prop) (ids : list Z) (j : nat)
  : Prop :=
  (exists id, ids !! j = Some id /\ P j id)
  /\ forall k id, (k < j)%nat -> ids !! k = Some id -> ~ P k id.

(** The table is full and holds no matching slot. *)
Definition no_slot (P : nat -> Z -> Prop) (ids : list Z) : Prop :=
  forall k id, ids !! k = Some id -> ~ P k id.


(** The request is a statistics reset from the slurm user, the one
    request whose handler clears the telemetry tables. *)
Definition stats_reset_granted (H : slurm_h) {Store} (X : ctld_env Store)
    (msg : slurm_msg) : bool :=
  match body msg with
  | Req_stats_info m =>
      (command_id m =? STAT_COMMAND_RESET H)
      && validate_slurm_user X (auth_uid msg)
  | _ => false
  end.

(** The transient capacity errors. *)
Definition transient_capacity_error (E : slurm_errno_h) (e : Z) : Prop :=
  e = ESLURM_NODE_NOT_AVAIL E
  \/ e = ESLURM_REQUESTED_PART_CONFIG_UNAVAILABLE E
  \/ e = ESLURM_QOS_THRES E
  \/ e = ESLURM_JOB_HELD E.

(** A return-code message with its optional detail. *)
Definition rc_reply (rc : Z) (err_msg : option string) : response :=
  match err_msg with
  | Some m => Rc_err_msg rc m
  | None => Rc_msg rc
  end.



(** The request got the list [rs] of messages in reply. *)
Definition replies {Store} (c c' : ctld Store) (rs : list response) : Prop :=
  sent_of (trace c') = sent_of (trace c) ++ rs.

(** Whatever the state, running [m] sends exactly [n] messages. *)
Definition sends {Store A} (n : nat) (m : M Store A) : Prop :=
  forall c, exists rs, length rs = n /\ replies c (snd (m c)) rs.

(** The request got one message in reply, or none because the daemon
    stopped on a failed assertion. *)
Definition reply_or_abort {Store} (c c' : ctld Store) : Prop :=
  (exists r, replies c c' [r])
  \/ (replies c c' [] /\ exists t, trace c' = Abort :: t).

(** Every entry of both tables is zero. *)
Definition all_zero (t : rpc_tables) : Prop :=
  rpc_type_id t = replicate (rpc_type_size t) 0
  /\ rpc_type_cnt t = replicate (rpc_type_size t) 0
  /\ rpc_type_time t = replicate (rpc_type_size t) 0
  /\ rpc_user_id t = replicate (rpc_user_size t) 0
  /\ rpc_user_cnt t = replicate (rpc_user_size t) 0
  /\ rpc_user_time t = replicate (rpc_user_size t) 0.

(** The telemetry states that the controller can be in: the initial one,
    and what [slurmctld_req] and [free_rpc_stats] make of a reachable
    one. *)
Inductive reachable (H : slurm_h) (E : slurm_errno_h)
  : rpc_tables -> Prop :=
| reach_init : reachable H E rpc_tables_init
| reach_req (t : rpc_tables) (Store : Type) (X : ctld_env Store)
    (other : slurm_msg -> M Store unit) (msg : slurm_msg) (delta : Z)
    (c : ctld Store) :
    reachable H E t ->
    reachable H E (fst (slurmctld_req H E X other msg delta t c))
| reach_free (t : rpc_tables) :
    reachable H E t -> reachable H E (free_rpc_stats t).
End Spec.

(** ** Other requests between the two critical sections of a request *)

Module Interleaving.
Import RpcStats.

End Interleaving.

(** ** C integer conversions *)

Module CInt.
(** A value of type [int] after a conversion from a wider type. *)
Definition to_int (x : Z) : Z := (x + 2 ^ 31) mod 2 ^ 32 - 2 ^ 31.
End CInt.

(** ** Invariant of the telemetry tables *)

Module TableInv.
(** The ids of a table from slot [from] on: the slots in use come first,
    and no id is held by two slots. *)
Definition used_prefix (from : nat) (ids : list Z) : Prop :=
  (forall j k id, ids !! j = Some id -> id <> 0 ->
                  (from <= k < j)%nat -> ids !! k <> Some 0)
  /\ (forall i j id, ids !! i = Some id -> ids !! j = Some id ->
                     id <> 0 -> i = j).
End TableInv.

(** ** Further administrative requests of proc_req.c: debug flags, log
       levels and node reboot *)

Module AdminRpc.
Import StateMacros RpcStats Ctld CInt.

(** [log_options_t] (log.h), reduced to the fields the handlers assign. *)
Record log_options := {
  stderr_level : Z;
  syslog_level : Z;
  logfile_level : Z
}.

(** Constants of log.h, slurm.h and slurm_errno.h that these handlers
    name; the headers are not among the sources. *)
Record admin_h := {
  LOG_LEVEL_QUIET : Z;
  LOG_LEVEL_END : Z;
  SCHEDLOG_OPTS_INITIALIZER : log_options;
  NODE_STATE_DOWN : Z;
  NODE_STATE_FUTURE : Z;
  NODE_STATE_CLOUD : Z;
  NODE_STATE_POWER_SAVE : Z;
  NODE_STATE_MAINT : Z;
  ESLURM_DISABLED : Z;
  ESLURM_NOT_SUPPORTED : Z
}.

(** Message bodies (slurm_protocol_defs.h). *)
Record set_debug_flags_msg := {
  debug_flags_minus : Z;        (* uint64_t *)
  debug_flags_plus : Z          (* uint64_t *)
}.
Record set_debug_level_msg := { debug_level : Z (* uint32_t *) }.
Record reboot_msg := { node_list : option string }.

(** Calls into other translation units, with their arguments. *)
Inductive admin_call :=
| Slurm_set_debug_flags (debug_flags : Z)
| Log_set_debug_flags
| Gs_reconfig
| Gres_plugin_reconfig
| Acct_storage_g_reconfig
| Priority_g_reconfig
| Select_g_reconfigure
| Slurm_sched_g_reconfig
| Switch_g_reconfig
| Log_alter (log_opts : log_options) (logfile : option string)
| Sched_log_alter (log_opts : log_options) (logfile : option string).

(** The globals that these handlers read and write, and the calls they
    made, most recent first.  What the called functions do to the globals
    is not represented. *)
Record admin_store := {
  debug_flags : Z;                       (* slurmctld_conf.debug_flags *)
  slurmctld_logfile : option string;     (* slurmctld_conf.slurmctld_logfile *)
  sched_logfile : option string;         (* slurmctld_conf.sched_logfile *)
  daemonize : Z;                         (* slurmctld_config.daemonize *)
  slurmctld_debug : Z;                   (* conf->slurmctld_debug *)
  sched_log_level : Z;                   (* conf->sched_log_level *)
  node_record_table : list Z;            (* node_state of each node record *)
  want_nodes_reboot : bool;
  calls : list admin_call
}.

Definition record_call (a : admin_call) (s : admin_store) : admin_store :=
  {| debug_flags := debug_flags s;
     slurmctld_logfile := slurmctld_logfile s;
     sched_logfile := sched_logfile s; daemonize := daemonize s;
     slurmctld_debug := slurmctld_debug s;
     sched_log_level := sched_log_level s;
     node_record_table := node_record_table s;
     want_nodes_reboot := want_nodes_reboot s;
     calls := a :: calls s |}.

Definition set_slurmctld_debug (v : Z) (s : admin_store) : admin_store :=
  {| debug_flags := debug_flags s;
     slurmctld_logfile := slurmctld_logfile s;
     sched_logfile := sched_logfile s; daemonize := daemonize s;
     slurmctld_debug := v;
     sched_log_level := sched_log_level s;
     node_record_table := node_record_table s;
     want_nodes_reboot := want_nodes_reboot s;
     calls := calls s |}.

Definition set_sched_log_level (v : Z) (s : admin_store) : admin_store :=
  {| debug_flags := debug_flags s;
     slurmctld_logfile := slurmctld_logfile s;
     sched_logfile := sched_logfile s; daemonize := daemonize s;
     slurmctld_debug := slurmctld_debug s;
     sched_log_level := v;
     node_record_table := node_record_table s;
     want_nodes_reboot := want_nodes_reboot s;
     calls := calls s |}.

Definition set_nodes (table : list Z) (want : bool) (s : admin_store)
  : admin_store :=
  {| debug_flags := debug_flags s;
     slurmctld_logfile := slurmctld_logfile s;
     sched_logfile := sched_logfile s; daemonize := daemonize s;
     slurmctld_debug := slurmctld_debug s;
     sched_log_level := sched_log_level s;
     node_record_table := table;
     want_nodes_reboot := want;
     calls := calls s |}.

(** [slurmctld_conf.last_update = t]. *)
Definition with_conf_last_update {Store} (c : ctld Store) (t : Z)
  : ctld Store :=
  {| store := store c; trace := trace c; diag := diag c;
     in_progress := in_progress c; shutdown_time := shutdown_time c;
     resume_backup := resume_backup c; thread_id_sig := thread_id_sig c;
     conf_last_update := t;
     sched_params_defer := sched_params_defer c;
     defer_sched := defer_sched c |}.

(** [MIN] and [MAX] of macros.h, which is not among the sources: the
    usual conditional expressions. *)
Definition MIN (a b : Z) : Z := if a <? b then a else b.
Definition MAX (a b : Z) : Z := if a >? b then a else b.

(** [~x] on a [uint64_t]. *)
Definition not64 (x : Z) : Z := u64 (Z.lnot x).

(** [tolower] and [strcasecmp] of the C library. *)
Definition tolower (c : ascii) : ascii :=
  let n := nat_of_ascii c in
  if (65 <=? n)%nat && (n <=? 90)%nat then ascii_of_nat (n + 32) else c.

Fixpoint strcasecmp (s1 s2 : string) : Z :=
  match s1, s2 with
  | EmptyString, EmptyString => 0
  | EmptyString, String b _ => 0 - Z.of_nat (nat_of_ascii (tolower b))
  | String a _, EmptyString => Z.of_nat (nat_of_ascii (tolower a))
  | String a s1', String b s2' =>
      if Ascii.eqb (tolower a) (tolower b) then strcasecmp s1' s2'
      else Z.of_nat (nat_of_ascii (tolower a))
           - Z.of_nat (nat_of_ascii (tolower b))
  end.

Section AdminHandlers.
Context (H : slurm_h) (E : slurm_errno_h) (A : admin_h).
Context (X : ctld_env admin_store).
(** [node_name2bitmap(node_list, false, &bitmap)] of node_mgr.c: the
    return code and the bitmap, one bit per node record. *)
Context (node_name2bitmap : string -> admin_store -> Z * list bool).

Local Open Scope ctld_scope.

(** Further node state macros of slurm_protocol_defs.h. *)
Definition IS_NODE_DOWN (node_state : Z) : bool :=
  Z.land node_state (NODE_STATE_BASE H) =? NODE_STATE_DOWN A.
Definition IS_NODE_FUTURE (node_state : Z) : bool :=
  Z.land node_state (NODE_STATE_BASE H) =? NODE_STATE_FUTURE A.
Definition IS_NODE_CLOUD (node_state : Z) : bool :=
  c_true (Z.land node_state (NODE_STATE_CLOUD A)).
Definition IS_NODE_POWER_SAVE (node_state : Z) : bool :=
  c_true (Z.land node_state (NODE_STATE_POWER_SAVE A)).
Definition IS_NODE_MAINT (node_state : Z) : bool :=
  c_true (Z.land node_state (NODE_STATE_MAINT A)).

Definition _slurm_rpc_set_debug_flags (msg : slurm_msg)
    (request_msg : set_debug_flags_msg) : M admin_store unit :=
  let uid := auth_uid msg in
  if negb (validate_super_user H X uid) then
    emit (Send (Rc_msg (EACCES E)))
  else
    debug_flags <- look debug_flags ;;
    let debug_flags :=
      Z.land debug_flags (not64 (debug_flags_minus request_msg)) in
    let debug_flags := Z.lor debug_flags (debug_flags_plus request_msg) in
    call_ (record_call (Slurm_set_debug_flags debug_flags)) ;;
    put (fun c => with_conf_last_update c (now X)) ;;
    (* Reset cached debug_flags values *)
    call_ (record_call Log_set_debug_flags) ;;
    call_ (record_call Gs_reconfig) ;;
    call_ (record_call Gres_plugin_reconfig) ;;
    call_ (record_call Acct_storage_g_reconfig) ;;
    call_ (record_call Priority_g_reconfig) ;;
    call_ (record_call Select_g_reconfigure) ;;
    call_ (record_call Slurm_sched_g_reconfig) ;;
    call_ (record_call Switch_g_reconfig) ;;
    emit (Send (Rc_msg SLURM_SUCCESS)).

(** The level that [_slurm_rpc_set_debug_level] computes.  The first
    comparison is between a [uint32_t] and an [int], hence made on
    [unsigned int]; its result is stored in an [int]. *)
Definition clamp_debug_level (request : Z) : Z :=
  let debug_level := to_int (MIN request (u32 (LOG_LEVEL_END A - 1))) in
  MAX debug_level (LOG_LEVEL_QUIET A).

Definition debug_log_opts (daemonize : Z) (logfile : option string)
    (debug_level : Z) : log_options :=
  (* every field kept here of LOG_OPTS_INITIALIZER is assigned below *)
  if c_true daemonize then
    match logfile with
    | Some _ =>
        {| stderr_level := LOG_LEVEL_QUIET A;
           syslog_level := LOG_LEVEL_QUIET A;
           logfile_level := debug_level |}
    | None =>
        {| stderr_level := LOG_LEVEL_QUIET A;
           syslog_level := debug_level;
           logfile_level := LOG_LEVEL_QUIET A |}
    end
  else
    {| stderr_level := debug_level;
       syslog_level := LOG_LEVEL_QUIET A;
       logfile_level := match logfile with
                        | Some _ => debug_level
                        | None => LOG_LEVEL_QUIET A
                        end |}.

Definition _slurm_rpc_set_debug_level (msg : slurm_msg)
    (request_msg : set_debug_level_msg) : M admin_store unit :=
  let uid := auth_uid msg in
  if negb (validate_super_user H X uid) then
    emit (Send (Rc_msg (EACCES E)))
  else
    let debug_level := clamp_debug_level (debug_level request_msg) in
    daemonize <- look daemonize ;;
    logfile <- look slurmctld_logfile ;;
    let log_opts := debug_log_opts daemonize logfile debug_level in
    call_ (record_call (Log_alter log_opts logfile)) ;;
    call_ (set_slurmctld_debug debug_level) ;;
    put (fun c => with_conf_last_update c (now X)) ;;
    emit (Send (Rc_msg SLURM_SUCCESS)).

Definition clamp_schedlog_level (request : Z) : Z :=
  let schedlog_level :=
    to_int (MIN request (u32 (LOG_LEVEL_QUIET A + 1))) in
  MAX schedlog_level (LOG_LEVEL_QUIET A).

Definition _slurm_rpc_set_schedlog_level (msg : slurm_msg)
    (request_msg : set_debug_level_msg) : M admin_store unit :=
  let uid := auth_uid msg in
  if negb (validate_super_user H X uid) then
    emit (Send (Rc_msg (EACCES E)))
  else
    sched_logfile <- look sched_logfile ;;
    match sched_logfile with
    | None => emit (Send (Rc_msg (ESLURM_DISABLED A)))
    | Some _ =>
        let schedlog_level :=
          clamp_schedlog_level (debug_level request_msg) in
        let log_opts :=
          {| stderr_level := stderr_level (SCHEDLOG_OPTS_INITIALIZER A);
             syslog_level := syslog_level (SCHEDLOG_OPTS_INITIALIZER A);
             logfile_level := schedlog_level |} in
        call_ (record_call (Sched_log_alter log_opts sched_logfile)) ;;
        call_ (set_sched_log_level schedlog_level) ;;
        put (fun c => with_conf_last_update c (now X)) ;;
        emit (Send (Rc_msg SLURM_SUCCESS))
    end.

(** [bit_test(bitmap, i)]. *)
Definition bit_test (bitmap : list bool) (i : nat) : bool :=
  match bitmap !! i with Some b => b | None => false end.

(** Whether the loop of [_slurm_rpc_reboot_nodes] marks a node in this
    state once its bit is set. *)
Definition reboot_wanted (node_state : Z) : bool :=
  if IS_NODE_MAINT node_state then false   (* already on maintenance *)
  else if IS_NODE_FUTURE node_state || IS_NODE_DOWN node_state then false
  else if IS_NODE_CLOUD node_state && IS_NODE_POWER_SAVE node_state
  then false
  else true.

(** The loop over the node records: [n] iterations from [i]. *)
Fixpoint reboot_loop (n i : nat) (bitmap : list bool) (table : list Z)
    (want_nodes_reboot : bool) : list Z * bool :=
  match n with
  | O => (table, want_nodes_reboot)
  | S n' =>
      match table !! i with
      | Some node_state =>
          if negb (bit_test bitmap i) then
            reboot_loop n' (S i) bitmap table want_nodes_reboot
          else if negb (reboot_wanted node_state) then
            reboot_loop n' (S i) bitmap table want_nodes_reboot
          else
            reboot_loop n' (S i) bitmap
              (<[i := Z.lor node_state (NODE_STATE_MAINT A)]> table) true
      | None => (table, want_nodes_reboot)
      end
  end.

(** What the loop makes of the node in state [st] at index [k]. *)
Definition rebooted (bitmap : list bool) (k : nat) (st : Z) : Z :=
  if bit_test bitmap k && reboot_wanted st
  then Z.lor st (NODE_STATE_MAINT A) else st.

(** [bit_alloc(node_record_count); bit_nset(bitmap, 0, count - 1)]. *)
Definition all_nodes (node_record_count : nat) : list bool :=
  replicate node_record_count true.

Definition _slurm_rpc_reboot_nodes (msg : slurm_msg)
    (reboot_msg : option reboot_msg) : M admin_store unit :=
  let uid := auth_uid msg in
  if negb (validate_super_user H X uid) then
    emit (Send (Rc_msg (EACCES E)))
  else if HAVE_FRONT_END X then
    emit (Send (Rc_msg (ESLURM_NOT_SUPPORTED A)))
  else
    let nodelist := match reboot_msg with
                    | Some m => node_list m
                    | None => None
                    end in
    table <- look node_record_table ;;
    bitmap <-
      (match nodelist with
       | None => ret (Some (all_nodes (length table)))
       | Some l =>
           if strcasecmp l "ALL" =? 0
           then ret (Some (all_nodes (length table)))
           else
             r <- look (node_name2bitmap l) ;;
             if negb (fst r =? 0) then ret None else ret (Some (snd r))
       end) ;;
    match bitmap with
    | None => emit (Send (Rc_msg (ESLURM_INVALID_NODE_NAME E)))
    | Some bitmap =>
        call_ (fun s =>
                 let '(table, want) :=
                   reboot_loop (length (node_record_table s)) 0 bitmap
                     (node_record_table s) (want_nodes_reboot s) in
                 set_nodes table want s) ;;
        want <- look want_nodes_reboot ;;
        (if want : bool then emit Schedule_node_save else skip) ;;
        emit (Send (Rc_msg SLURM_SUCCESS))
    end.
End AdminHandlers.
End AdminRpc.

(** ** The job notification request of proc_req.c *)

Module NotifyRpc.
Import Ctld.

Record job_notify_msg := {
  jn_job_id : Z;
  jn_message : option string
}.

Section NotifyHandlers.
Context (E : slurm_errno_h) {Store : Type} (X : ctld_env Store).
(** [ESLURM_INVALID_JOB_ID] of slurm_errno.h. *)
Context (ESLURM_INVALID_JOB_ID : Z).
(** [srun_user_message] of srun_comm.c. *)
Context (srun_user_message :
           job_record -> option string -> Store -> Z * Store).

Local Open Scope ctld_scope.

Definition _slurm_rpc_job_notify (msg : slurm_msg)
    (notify_msg : job_notify_msg) : M Store unit :=
  let uid := auth_uid msg in
  job_ptr <- look (find_job_record X (jn_job_id notify_msg)) ;;
  error_code <-
    match job_ptr with
    | None => ret ESLURM_INVALID_JOB_ID
    | Some job_ptr =>
        if (user_id job_ptr =? uid) || validate_slurm_user X uid
        then call (srun_user_message job_ptr (jn_message notify_msg))
        else ret (ESLURM_USER_ID_MISSING E)
    end ;;
  emit (Send (Rc_msg error_code)).
End NotifyHandlers.
End NotifyRpc.

(** ** The RPC throttle of proc_req.c *)

Module Throttle.
Import CInt.

(** Where a server thread is with respect to the throttle of one handler:
    outside, inside [_throttle_start], or between [_throttle_start] and
    [_throttle_fini]. *)
Inductive place := Outside | Starting | Throttled.

(** The handler's counter (a [static int]) and its server threads. *)
Record throttle := {
  active_rpc_cnt : Z;
  threads : list place
}.

(** One pass through the [while (1)] loop of [_throttle_start], made with
    [throttle_mutex] held: the new counter when the loop is left, [None]
    when the thread goes into [pthread_cond_wait]. *)
Definition _throttle_start (active_rpc_cnt : Z) : option Z :=
  if active_rpc_cnt =? 0 then Some (to_int (active_rpc_cnt + 1))
  else None.

(** The critical section of [_throttle_fini]. *)
Definition _throttle_fini (active_rpc_cnt : Z) : Z :=
  to_int (active_rpc_cnt - 1).

(** Thread [i] is scheduled and runs up to its next release of
    [throttle_mutex]. *)
Definition run_thread (i : nat) (t : throttle) : throttle :=
  match threads t !! i with
  | Some Outside =>
      {| active_rpc_cnt := active_rpc_cnt t;
         threads := <[i := Starting]> (threads t) |}
  | Some Starting =>
      match _throttle_start (active_rpc_cnt t) with
      | Some cnt =>
          {| active_rpc_cnt := cnt;
             threads := <[i := Throttled]> (threads t) |}
      | None => t                         (* waits for the broadcast *)
      end
  | Some Throttled =>
      {| active_rpc_cnt := _throttle_fini (active_rpc_cnt t);
         threads := <[i := Outside]> (threads t) |}
  | None => t
  end.

(** The states that [n] server threads can bring the throttle to. *)
Inductive throttle_reachable (n : nat) : throttle -> Prop :=
| reach_start :
    throttle_reachable n
      {| active_rpc_cnt := 0; threads := replicate n Outside |}
| reach_run (i : nat) (t : throttle) :
    throttle_reachable n t -> throttle_reachable n (run_thread i t).

Definition is_throttled (p : place) : bool :=
  match p with Throttled => true | _ => false end.

(** The number of threads between [_throttle_start] and
    [_throttle_fini]. *)
Definition throttled (ts : list place) : nat :=
  length (List.filter is_throttled ts).
End Throttle.

(** ** Copies of string arrays for the batch launch message (proc_req.c) *)

Module StringArrays.
Import CInt.

(** The character that ends a C string. *)
Definition NUL : ascii := Ascii.zero.

(** [char **array]: the strings behind a pointer, by index.  The callers
    pass an array of at least [size] strings, none of them NULL. *)
Definition c_array := nat -> string.

(** The loop of [xduparray]: [n] iterations from [i]. *)
Fixpoint xduparray_loop (n i : nat) (array : c_array)
    (result : list (option string)) : list (option string) :=
  match n with
  | O => result
  | S n' =>
      (* result[i] = xstrdup(array[i]) *)
      xduparray_loop n' (S i) array (<[i := Some (array i)]> result)
  end.

(** [xduparray]: [None] is the NULL pointer; the array it returns comes
    from [xmalloc], which fills it with NULL pointers. *)
Definition xduparray (size : nat) (array : c_array)
  : option (list (option string)) :=
  if Nat.eqb size 0 then None
  else Some (xduparray_loop size 0 array (replicate size None)).

(** The first loop of [_xduparray2]: [len += strlen(array[i]) + 1] on an
    [int]. *)
Fixpoint xduparray2_len (n i : nat) (array : c_array) (len : Z) : Z :=
  match n with
  | O => len
  | S n' =>
      xduparray2_len n' (S i) array
        (to_int (len + (Z.of_nat (String.length (array i)) + 1)))
  end.

(** [strcpy(ptr, src)] into a block of memory, [ptr] being an offset into
    the block: the characters of [src], then NUL.  (A write past the end
    of the block is lost here; in C it corrupts the heap.) *)
Fixpoint strcpy (block : list ascii) (ptr : nat) (src : string)
  : list ascii :=
  match src with
  | EmptyString => <[ptr := NUL]> block
  | String c src' => strcpy (<[ptr := c]> block) (S ptr) src'
  end.

(** The second loop of [_xduparray2]; [ptr] is the offset of the write
    position in [block], and [result] holds offsets into [block]. *)
Fixpoint xduparray2_copy (n i : nat) (array : c_array) (ptr : Z)
    (block : list ascii) (result : list (option Z))
  : list ascii * list (option Z) :=
  match n with
  | O => (block, result)
  | S n' =>
      let result := <[i := Some ptr]> result in
      let len := to_int (Z.of_nat (String.length (array i))) in
      let block := strcpy block (Z.to_nat ptr) (array i) in
      xduparray2_copy n' (S i) array (ptr + (len + 1)) block result
  end.

(** [_xduparray2]: the one block that holds all the strings, and the
    array of pointers into it; [None] is the NULL pointer. *)
Definition _xduparray2 (size : nat) (array : c_array)
  : option (list ascii * list (option Z)) :=
  if Nat.eqb size 0 then None
  else
    let len := xduparray2_len size 0 array 0 in
    let ptr := replicate (Z.to_nat len) NUL in
    let result := replicate size None in
    Some (xduparray2_copy size 0 array 0 ptr result).

(** The C string that starts at the head of a piece of memory. *)
Fixpoint read_string (mem : list ascii) : option string :=
  match mem with
  | [] => None
  | c :: mem' =>
      if Ascii.eqb c NUL then Some EmptyString
      else option_map (String c) (read_string mem')
  end.

(** The C string at offset [ptr] of a block. *)
Definition string_at (block : list ascii) (ptr : Z) : option string :=
  read_string (drop (Z.to_nat ptr) block).

(** A string that can be a C string: no NUL inside. *)
Fixpoint nul_free (s : string) : bool :=
  match s with
  | EmptyString => true
  | String c s' => negb (Ascii.eqb c NUL) && nul_free s'
  end.

(** The bytes that the first [n] strings of an array take, each with its
    NUL. *)
Fixpoint bytes_of (n : nat) (array : c_array) : Z :=
  match n with
  | O => 0
  | S n' => bytes_of n' array + (Z.of_nat (String.length (array n')) + 1)
  end.
(** The memory image of [n] strings from index [i] on. *)
Fixpoint image (n i : nat) (array : c_array) : list ascii :=
  match n with
  | O => []
  | S n' =>
      String.list_ascii_of_string (array i) ++ NUL :: image n' (S i) array
  end.

End StringArrays.

(** ** The srun front end for POE *)

Module SrunLaunch.
Import CInt StringArrays.

(** The double quote character (code 34). *)
Definition DQUOTE : ascii :=
  Ascii false true false false false true false false.

(** [cmd_line[i]]: the character at index [i], the terminating NUL at
    index [strlen(cmd_line)]. *)
Definition char_at (cmd_line : string) (i : nat) : ascii :=
  match String.get i cmd_line with
  | Some c => c
  | None => NUL
  end.

(** The loop of [_find_srun_sep]: [n] iterations from [i]; the result is
    an offset into [cmd_line], [None] for NULL. *)
Fixpoint find_srun_sep_loop (n i : nat) (cmd_line : string) : option nat :=
  match n with
  | O => None
  | S n' =>
      if Ascii.eqb (char_at cmd_line i) DQUOTE
         && Ascii.eqb (char_at cmd_line (i + 1)) " "
         && (Ascii.eqb (char_at cmd_line (i + 2)) DQUOTE
             || Ascii.eqb (char_at cmd_line (i + 2)) NUL)
      then Some (i + 1)%nat
      else find_srun_sep_loop n' (S i) cmd_line
  end.

Definition _find_srun_sep (cmd_line : string) : option nat :=
  let len := to_int (Z.of_nat (String.length cmd_line)) in
  find_srun_sep_loop (Z.to_nat (len - 2)) 0 cmd_line.

(** The separator between two quoted arguments starts at index [j]:
    a quote, a space, a quote. *)
Definition separator_at (cmd_line : string) (j : nat) : Prop :=
  String.get j cmd_line = Some DQUOTE
  /\ String.get (j + 1) cmd_line = Some " "%char
  /\ String.get (j + 2) cmd_line = Some DQUOTE.
End SrunLaunch.

(** ** The PBS job-submit plugin (job_submit_pbs.c) *)

Module JobSubmitPbs.
Local Open Scope string_scope.

(** [struct job_descriptor], reduced to the field the plugin works on; a
    NULL string is [None].  A C string is a [string] without the
    character NUL. *)
Record job_descriptor := { dependency : option string }.

(** [strncmp]: the difference of the first two characters that differ
    among the first [n], the end of a string counting as the character 0. *)
Fixpoint strncmp (s1 s2 : string) (n : nat) : Z :=
  match n with
  | O => 0
  | S n' =>
      match s1, s2 with
      | EmptyString, EmptyString => 0
      | EmptyString, String b _ => 0 - Z.of_N (N_of_ascii b)
      | String a _, EmptyString => Z.of_N (N_of_ascii a)
      | String a s1', String b s2' =>
          if Ascii.eqb a b then strncmp s1' s2' n'
          else Z.of_N (N_of_ascii a) - Z.of_N (N_of_ascii b)
      end
  end.

(** [xstrcat(str, add)]: appends, allocating when [str] is NULL. *)
Definition xstrcat (str : option string) (add : string) : option string :=
  match str with
  | Some s => Some (s ++ add)
  | None => Some add
  end.

(** The two scans of [strtok_r] for the delimiter set [","]: over the
    leading delimiters, and over the token.  The second returns the token
    and, when a delimiter ended it, what follows that delimiter. *)
Fixpoint skip_delim (s : string) : string :=
  match s with
  | String a s' => if Ascii.eqb a "," then skip_delim s' else s
  | EmptyString => s
  end.

Fixpoint scan_token (s : string) : string * option string :=
  match s with
  | EmptyString => (EmptyString, None)
  | String a s' =>
      if Ascii.eqb a "," then (EmptyString, Some s')
      else let '(tok, rest) := scan_token s' in (String a tok, rest)
  end.

(** [strtok_r(str, ",", &saveptr)]: [str] is [None] for NULL; returns the
    token (or NULL) and the new value of [saveptr]. *)
Definition strtok_r (str : option string) (saveptr : string)
  : option string * string :=
  let s := match str with Some s => s | None => saveptr end in
  let s := skip_delim s in
  match s with
  | EmptyString => (None, s)
  | _ =>
      let '(tok, rest) := scan_token s in
      (Some tok, match rest with Some r => r | None => EmptyString end)
  end.

(** The test of the loop body. *)
Definition kept (tok : string) : bool :=
  (strncmp tok "after" 5 =? 0)%Z
  || (strncmp tok "expand" 6 =? 0)%Z
  || (strncmp tok "singleton" 9 =? 0)%Z.

(** The [while (tok)] loop; every iteration shortens [last_ptr], so
    [fuel] iterations suffice when [fuel] exceeds its length. *)
Fixpoint xlate_loop (fuel : nat) (tok : option string) (last_ptr : string)
    (result : option string) : option string :=
  match tok, fuel with
  | None, _ => result
  | Some _, O => result
  | Some tok, S fuel' =>
      let result :=
        if kept tok then
          let result :=
            match result with
            | Some _ => xstrcat result ","
            | None => result
            end in
          xstrcat result tok
        else result in
      let '(tok', last_ptr') := strtok_r None last_ptr in
      xlate_loop fuel' tok' last_ptr' result
  end.

Definition _xlate_dependency (job_desc : job_descriptor) : job_descriptor :=
  match dependency job_desc with
  | None => job_desc
  | Some dep =>
      let '(tok, last_ptr) := strtok_r (Some dep) EmptyString in
      {| dependency := xlate_loop (S (String.length dep)) tok last_ptr None |}
  end.

Definition job_submit (job_desc : job_descriptor) (submit_uid : Z)
  : Z * job_descriptor :=
  (SLURM_SUCCESS, _xlate_dependency job_desc).

Definition job_modify (job_desc : job_descriptor)
    (job_ptr : Ctld.job_record) (submit_uid : Z) : Z * job_descriptor :=
  (SLURM_SUCCESS, _xlate_dependency job_desc).

(** One iteration of the loop body on [result]. *)
Definition add_option (result : option string) (tok : string)
  : option string :=
  xstrcat (match result with
           | Some _ => xstrcat result ","
           | None => result
           end) tok.

(** A dependency option as the plugin sees one: not empty, no comma. *)
Fixpoint comma_free (s : string) : bool :=
  match s with
  | EmptyString => true
  | String a s' => negb (Ascii.eqb a ",") && comma_free s'
  end.

Definition is_option (tok : string) : Prop :=
  tok <> EmptyString /\ comma_free tok = true.

(** The options that Slurm knows: those that start with "after", "expand"
    or "singleton". *)
Definition slurm_option (tok : string) : bool :=
  String.prefix "after" tok || String.prefix "expand" tok
  || String.prefix "singleton" tok.

(** A list of options written as a dependency string; no option gives
    NULL. *)
Definition option_list (l : list string) : option string :=
  match l with
  | [] => None
  | _ => Some (String.concat "," l)
  end.

(** The pieces of a string between its commas, empty ones included. *)
Fixpoint split_commas (s : string) : list string :=
  match s with
  | EmptyString => [EmptyString]
  | String a s' =>
      if Ascii.eqb a "," then EmptyString :: split_commas s'
      else match split_commas s' with
           | t :: l => String a t :: l
           | [] => [String a EmptyString]
           end
  end.

Definition nonempty (s : string) : bool :=
  match s with EmptyString => false | _ => true end.

Definition fields (s : string) : list string :=
  List.filter nonempty (split_commas s).
End JobSubmitPbs.

(** ** Sample values for the administrative requests *)

Module AdminSample.
Import Ctld AdminRpc.

(** Values in the style of log.h, slurm.h and slurm_errno.h. *)
Definition admin_h_values : admin_h :=
  {| LOG_LEVEL_QUIET := 0;
     LOG_LEVEL_END := 11;
     SCHEDLOG_OPTS_INITIALIZER :=
       {| stderr_level := 0; syslog_level := 0; logfile_level := 0 |};
     NODE_STATE_DOWN := 1;
     NODE_STATE_FUTURE := 6;
     NODE_STATE_CLOUD := 0x0080;
     NODE_STATE_POWER_SAVE := 0x1000;
     NODE_STATE_MAINT := 0x8000;
     ESLURM_DISABLED := 2036;
     ESLURM_NOT_SUPPORTED := 2037 |}.

(** A daemon in the background with both log files, debug flags 0x5, and
    three nodes: idle, down, and allocated. *)
Definition admin_store0 : admin_store :=
  {| debug_flags := 0x5;
     slurmctld_logfile := Some "/var/log/slurmctld.log";
     sched_logfile := Some "/var/log/sched.log";
     daemonize := 1;
     slurmctld_debug := 3;
     sched_log_level := 0;
     node_record_table := [2; 1; 3];
     want_nodes_reboot := false;
     calls := [] |}.

(** A controller over [admin_store] whose other collaborators do nothing;
    the daemon runs as uid 500 and nobody has an admin level. *)
Definition env : ctld_env admin_store :=
  {| HAVE_ALPS_CRAY := false;
     HAVE_BG := false;
     HAVE_BGQ := false;
     HAVE_FRONT_END := false;
     getuid := 500;
     assoc_mgr_get_admin_level := fun _ => 0;
     association_based_accounting := false;
     now := 1000000;
     find_job_record := fun _ _ => None;
     validate_job_create_req := fun _ _ _ => (SLURM_SUCCESS, None);
     allocated_session_in_use := fun _ _ => false;
     job_allocate := fun _ _ _ _ _ em s => ((SLURM_SUCCESS, None, em), s);
     _launch_batch_step := fun _ _ _ s => ((SLURM_SUCCESS, 0), s);
     job_epilog_complete := fun _ _ _ s => (false, s);
     job_complete := fun _ _ _ _ _ s => (SLURM_SUCCESS, s);
     replace_batch_job := fun _ _ s => ((false, []), s);
     schedule := fun _ s => s;
     step_partial_comp := fun _ _ s => ((SLURM_SUCCESS, 0, 0), s);
     job_step_complete := fun _ _ _ _ _ s => (SLURM_SUCCESS, s);
     drain_nodes := fun _ _ _ s => (SLURM_SUCCESS, s);
     update_front_end := fun _ s => (SLURM_SUCCESS, s);
     update_node := fun _ s => (SLURM_SUCCESS, s);
     validate_jobs_on_node := fun _ s => s;
     validate_node_specs := fun _ _ s => ((SLURM_SUCCESS, false), s);
     validate_nodes_via_front_end := fun _ _ s =>
       ((SLURM_SUCCESS, false), s);
     select_jobinfo_block_id := fun _ => None;
     select_g_update_block := fun _ s => (SLURM_SUCCESS, s);
     read_slurm_conf := fun _ _ s => (SLURM_SUCCESS, s);
     update_part := fun _ _ s => (SLURM_SUCCESS, s);
     delete_partition := fun _ s => (SLURM_SUCCESS, s);
     create_resv := fun d s => ((SLURM_SUCCESS, rd_name d), s);
     update_resv := fun _ s => (SLURM_SUCCESS, s);
     delete_resv := fun _ s => (SLURM_SUCCESS, s);
     reset_stats := fun _ d => d;
     pack_all_stat := fun _ _ _ _ => [] |}.

Definition ctld0 : ctld admin_store :=
  {| store := admin_store0; trace := [];
     diag := {| jobs_failed := 0; jobs_completed := 0 |};
     in_progress := false; shutdown_time := 0; resume_backup := false;
     thread_id_sig := 1; conf_last_update := 0;
     sched_params_defer := false; defer_sched := false |}.
End AdminSample.

(** * Properties *)

(** ** Job and node state predicates *)

Section StateMacroFacts.
Import StateMacros.
Context (H : slurm_h).

Lemma c_true_iff (x : Z) : c_true x = true <-> x <> 0.
Proof.
  unfold c_true. destruct (Z.eqb_spec x 0); simpl; split; intros; congruence.
Qed.

Lemma c_true_false_iff (x : Z) : c_true x = false <-> x = 0.
Proof.
  unfold c_true. destruct (Z.eqb_spec x 0); simpl; split; intros; congruence.
Qed.

(** C6.  The derived predicates in terms of base state and flags: Started
    iff base > Pending; Finished iff base > Suspended; Completed iff
    Finished and Completing clear; Draining iff Drain set and base is
    Allocated, Error or Mixed; Drained iff Drain set and not Draining. *)
Theorem derived_state_predicates (job_state node_state : Z) :
  (IS_JOB_STARTED H job_state = true
     <-> job_base H job_state > JOB_PENDING H) /\
  (IS_JOB_FINISHED H job_state = true
     <-> job_base H job_state > JOB_SUSPENDED H) /\
  (IS_JOB_COMPLETED H job_state = true
     <-> IS_JOB_FINISHED H job_state = true
         /\ ~ flag_set job_state (JOB_COMPLETING H)) /\
  (IS_NODE_DRAINING H node_state = true
     <-> flag_set node_state (NODE_STATE_DRAIN H)
         /\ (node_base H node_state = NODE_STATE_ALLOCATED H
             \/ node_base H node_state = NODE_STATE_ERROR H
             \/ node_base H node_state = NODE_STATE_MIXED H)) /\
  (IS_NODE_DRAINED H node_state = true
     <-> flag_set node_state (NODE_STATE_DRAIN H)
         /\ IS_NODE_DRAINING H node_state = false).
Proof.
  unfold flag_set, job_base, node_base.
  split; [|split; [|split; [|split]]].
  - unfold IS_JOB_STARTED. rewrite Z.gtb_lt. lia.
  - unfold IS_JOB_FINISHED. rewrite Z.gtb_lt. lia.
  - unfold IS_JOB_COMPLETED. rewrite andb_true_iff, Z.eqb_eq.
    split; intros [A B]; (split; [exact A | lia]).
  - unfold IS_NODE_DRAINING, IS_NODE_ALLOCATED, IS_NODE_ERROR,
      IS_NODE_MIXED.
    rewrite andb_true_iff, !orb_true_iff, !Z.eqb_eq, c_true_iff. tauto.
  - unfold IS_NODE_DRAINED, IS_NODE_DRAIN.
    rewrite andb_true_iff, negb_true_iff, c_true_iff. tauto.
Qed.
End StateMacroFacts.

(** ** RPC telemetry *)

Section RpcStatsFacts.
Import RpcStats Spec.

Lemma type_scan_spec (key : Z) (n i : nat) (ids : list Z) :
  (i + n = length ids)%nat ->
  (forall k id, (k < i)%nat -> ids !! k = Some id -> ~ type_slot key k id) ->
  (exists j, snd (type_scan n i ids key) = Z.of_nat j
             /\ first_slot (type_slot key) ids j
             /\ fst (type_scan n i ids key) = <[j := key]> ids)
  \/ (snd (type_scan n i ids key) = -1
      /\ no_slot (type_slot key) ids
      /\ fst (type_scan n i ids key) = ids).
Proof.
  revert i. induction n as [|n IH]; intros i Hlen Hprev; simpl.
  - right. repeat split; auto. intros k id Hk.
    apply Hprev with (k := k); auto.
    apply lookup_lt_Some in Hk. lia.
  - destruct (ids !! i) as [id|] eqn:Hi.
    2:{ apply lookup_ge_None in Hi. lia. }
    destruct (Z.eqb_spec id 0) as [-> | Hnz].
    + left. exists i. simpl. repeat split; auto.
      exists 0. split; auto. now left.
    + destruct (Z.eqb_spec id key) as [-> | Hnk]; simpl.
      * left. exists i. simpl. repeat split; auto.
        -- exists key. split; auto. now right.
        -- symmetry. now apply list_insert_id.
      * apply IH; [lia|]. intros k id' Hk Hid'.
        destruct (Nat.eq_dec k i) as [-> | Hne].
        -- rewrite Hi in Hid'. injection Hid' as <-.
           unfold type_slot. tauto.
        -- apply Hprev with (k := k); auto. lia.
Qed.

Lemma user_scan_spec (uid : Z) (n i : nat) (ids : list Z) :
  (i + n = length ids)%nat ->
  (forall k id, (k < i)%nat -> ids !! k = Some id -> ~ user_slot uid k id) ->
  (exists j, snd (user_scan n i ids uid) = Z.of_nat j
             /\ first_slot (user_slot uid) ids j
             /\ fst (user_scan n i ids uid) = <[j := uid]> ids)
  \/ (snd (user_scan n i ids uid) = -1
      /\ no_slot (user_slot uid) ids
      /\ fst (user_scan n i ids uid) = ids).
Proof.
  revert i. induction n as [|n IH]; intros i Hlen Hprev; simpl.
  - right. repeat split; auto. intros k id Hk.
    apply Hprev with (k := k); auto.
    apply lookup_lt_Some in Hk. lia.
  - destruct (ids !! i) as [id|] eqn:Hi.
    2:{ apply lookup_ge_None in Hi. lia. }
    destruct ((id =? 0) && negb (Nat.eqb i 0)) eqn:Hfree.
    + apply andb_true_iff in Hfree as [Hz Hi0].
      apply Z.eqb_eq in Hz. apply negb_true_iff, Nat.eqb_neq in Hi0.
      left. exists i. simpl. repeat split; auto.
      exists id. split; auto. now left.
    + assert (Hnf : ~ (id = 0 /\ i <> 0%nat)).
      { intros [Hz Hi0]. apply Z.eqb_eq in Hz.
        apply Nat.eqb_neq in Hi0. rewrite Hz, Hi0 in Hfree. discriminate. }
      destruct (Z.eqb_spec id uid) as [-> | Hnk]; simpl.
      * left. exists i. simpl. repeat split; auto.
        -- exists uid. split; auto. now right.
        -- symmetry. now apply list_insert_id.
      * apply IH; [lia|]. intros k id' Hk Hid'.
        destruct (Nat.eq_dec k i) as [-> | Hne].
        -- rewrite Hi in Hid'. injection Hid' as <-.
           unfold user_slot. tauto.
        -- apply Hprev with (k := k); auto. lia.
Qed.

Lemma alloc_user_keeps_type (t : rpc_tables) :
  rpc_type_size (alloc_user_table t) = rpc_type_size t
  /\ rpc_type_id (alloc_user_table t) = rpc_type_id t
  /\ rpc_type_cnt (alloc_user_table t) = rpc_type_cnt t
  /\ rpc_type_time (alloc_user_table t) = rpc_type_time t.
Proof.
  unfold alloc_user_table. destruct (Nat.eqb _ _); simpl; auto.
Qed.

Lemma alloc_tables_ok (t : rpc_tables) :
  tables_ok t -> allocated (alloc_user_table (alloc_type_table t)).
Proof.
  intros [-> | Ha].
  - constructor; reflexivity.
  - destruct Ha as [A1 A2 A3 A4 A5 A6 A7 A8].
    unfold alloc_type_table. rewrite A1. simpl.
    unfold alloc_user_table. rewrite A5. simpl.
    constructor; assumption.
Qed.

Lemma rpc_stats_begin_eq (key uid : Z) (t : rpc_tables) :
  let t0 := alloc_user_table (alloc_type_table t) in
  rpc_stats_begin key uid t =
    ({| rpc_type_size := rpc_type_size t0;
        rpc_type_id :=
          fst (type_scan (rpc_type_size t0) 0 (rpc_type_id t0) key);
        rpc_type_cnt := rpc_type_cnt t0;
        rpc_type_time := rpc_type_time t0;
        rpc_user_size := rpc_user_size t0;
        rpc_user_id :=
          fst (user_scan (rpc_user_size t0) 0 (rpc_user_id t0) uid);
        rpc_user_cnt := rpc_user_cnt t0;
        rpc_user_time := rpc_user_time t0 |},
     (snd (type_scan (rpc_type_size t0) 0 (rpc_type_id t0) key),
      snd (user_scan (rpc_user_size t0) 0 (rpc_user_id t0) uid))).
Proof.
  intros t0. unfold rpc_stats_begin.
  destruct (alloc_user_keeps_type (alloc_type_table t)) as (K1 & K2 & K3 & K4).
  fold t0 in K1, K2, K3, K4. fold t0.
  rewrite <- K1, <- K2.
  destruct (type_scan (rpc_type_size t0) 0 (rpc_type_id t0) key) as [tids ti].
  destruct (user_scan (rpc_user_size t0) 0 (rpc_user_id t0) uid) as [uids ui].
  reflexivity.
Qed.




Lemma rpc_stats_end_fields (ti ui delta : Z) (t : rpc_tables) :
  let t' := rpc_stats_end ti ui delta t in
  rpc_type_size t' = rpc_type_size t
  /\ rpc_type_id t' = rpc_type_id t
  /\ rpc_type_cnt t' = fst (bump ti delta (rpc_type_cnt t) (rpc_type_time t))
  /\ rpc_type_time t' = snd (bump ti delta (rpc_type_cnt t) (rpc_type_time t))
  /\ rpc_user_size t' = rpc_user_size t
  /\ rpc_user_id t' = rpc_user_id t
  /\ rpc_user_cnt t' = fst (bump ui delta (rpc_user_cnt t) (rpc_user_time t))
  /\ rpc_user_time t' = snd (bump ui delta (rpc_user_cnt t) (rpc_user_time t)).
Proof.
  unfold rpc_stats_end.
  destruct (bump ti delta _ _) as [tc tm].
  destruct (bump ui delta _ _) as [uc um]. simpl. repeat split.
Qed.

Lemma bump_length (idx delta : Z) (cnt time : list Z) :
  length (fst (bump idx delta cnt time)) = length cnt
  /\ length (snd (bump idx delta cnt time)) = length time.
Proof.
  unfold bump. destruct (0 <=? idx); simpl; auto.
  now rewrite !length_alter.
Qed.

Lemma type_scan_length (key : Z) (n i : nat) (ids : list Z) :
  length (fst (type_scan n i ids key)) = length ids.
Proof.
  revert i. induction n as [|n IH]; intros i; simpl; auto.
  destruct (ids !! i) as [id|]; auto.
  destruct (id =? 0); simpl; [apply length_insert|].
  destruct (negb (id =? key)); simpl; auto.
Qed.

Lemma user_scan_length (uid : Z) (n i : nat) (ids : list Z) :
  length (fst (user_scan n i ids uid)) = length ids.
Proof.
  revert i. induction n as [|n IH]; intros i; simpl; auto.
  destruct (ids !! i) as [id|]; auto.
  destruct ((id =? 0) && negb (Nat.eqb i 0)); simpl; [apply length_insert|].
  destruct (negb (id =? uid)); simpl; auto.
Qed.

End RpcStatsFacts.

(** ** The dispatcher and the telemetry tables *)

Section DispatchFacts.
Import RpcStats Ctld Spec.
Context (H : slurm_h) (E : slurm_errno_h).
Context {Store : Type} (X : ctld_env Store).
Context (other : slurm_msg -> M Store unit).

Lemma fst_bind_ret {A B} (m : M Store A) (b : B) (c : ctld Store) :
  fst (bind m (fun _ => ret b) c) = b.
Proof. unfold bind, ret. now destruct (m c). Qed.

Lemma snd_bind_ret {A B} (m : M Store A) (b : B) (c : ctld Store) :
  snd (bind m (fun _ => ret b) c) = snd (m c).
Proof. unfold bind, ret. now destruct (m c). Qed.

Lemma dump_stats_tables (msg : slurm_msg) (m : stats_info_request_msg)
    (t : rpc_tables) (c : ctld Store) :
  fst (_slurm_rpc_dump_stats H E X msg m t c) =
    if (command_id m =? STAT_COMMAND_RESET H)
       && validate_slurm_user X (auth_uid msg)
    then _clear_rpc_stats t else t.
Proof.
  unfold _slurm_rpc_dump_stats.
  destruct (command_id m =? STAT_COMMAND_RESET H);
    destruct (validate_slurm_user X (auth_uid msg)); reflexivity.
Qed.

(** Only a granted statistics reset changes the tables between the two
    critical sections of [slurmctld_req]. *)
Lemma dispatch_tables (msg : slurm_msg) (t : rpc_tables) (c : ctld Store) :
  fst (dispatch H E X other msg t c) =
    if stats_reset_granted H X msg then _clear_rpc_stats t else t.
Proof.
  unfold dispatch, stats_reset_granted.
  destruct (body msg); try apply fst_bind_ret.
  - apply dump_stats_tables.
  - destruct (bool_decide _); apply fst_bind_ret.
Qed.

Lemma slurmctld_req_tables (msg : slurm_msg) (delta : Z) (t : rpc_tables)
    (c : ctld Store) :
  fst (slurmctld_req H E X other msg delta t c) =
    if negb (auth_errno msg =? SLURM_SUCCESS) then t
    else
      let b := rpc_stats_begin (msg_type msg) (u32 (auth_uid msg)) t in
      rpc_stats_end (fst (snd b)) (snd (snd b)) delta
        (if stats_reset_granted H X msg
         then _clear_rpc_stats (fst b) else fst b).
Proof.
  unfold slurmctld_req.
  destruct (negb (auth_errno msg =? SLURM_SUCCESS)); [reflexivity|].
  destruct (rpc_stats_begin _ _ t) as [t1 [ti ui]]. cbn [fst snd].
  unfold bind at 1.
  pose proof (dispatch_tables msg t1 c) as D.
  destruct (dispatch H E X other msg t1 c) as [t2 c2].
  cbn [fst] in D. subst t2. reflexivity.
Qed.
End DispatchFacts.

(** ** Clearing and dumping the telemetry tables *)

Section ClearFacts.
Import RpcStats Spec.

Lemma zero_step (i : nat) (l : list Z) :
  (i < length l)%nat -> take (S i) (<[i := 0]> l) = take i l ++ [0].
Proof.
  intros Hi.
  rewrite (take_S_r _ _ 0) by now apply list_lookup_insert_eq.
  now rewrite take_insert_ge by lia.
Qed.

Lemma clear_loop_spec (n i : nat) (l1 l2 l3 : list Z) :
  (i + n = length l1)%nat -> (i + n = length l2)%nat ->
  (i + n = length l3)%nat ->
  clear_loop n i l1 l2 l3 =
    (take i l1 ++ replicate n 0, take i l2 ++ replicate n 0,
     take i l3 ++ replicate n 0).
Proof.
  revert i l1 l2 l3. induction n as [|n IH]; intros i l1 l2 l3 H1 H2 H3.
  - simpl. rewrite !app_nil_r, !take_ge by lia. reflexivity.
  - simpl. rewrite IH by (rewrite length_insert; lia).
    rewrite !zero_step by lia.
    rewrite <- !app_assoc. reflexivity.
Qed.

Lemma clear_rpc_stats_spec (t : rpc_tables) :
  tables_ok t ->
  all_zero (_clear_rpc_stats t)
  /\ rpc_type_size (_clear_rpc_stats t) = rpc_type_size t
  /\ rpc_user_size (_clear_rpc_stats t) = rpc_user_size t.
Proof.
  intros [-> | [A1 A2 A3 A4 A5 A6 A7 A8]].
  - repeat split.
  - unfold _clear_rpc_stats.
    rewrite !clear_loop_spec by (rewrite ?A1, ?A5; lia).
    unfold all_zero. simpl. repeat split.
Qed.

Lemma clear_allocated (t : rpc_tables) :
  allocated t -> allocated (_clear_rpc_stats t).
Proof.
  intros Ha.
  destruct (clear_rpc_stats_spec t (or_intror Ha))
    as ((Z1 & Z2 & Z3 & Z4 & Z5 & Z6) & S1 & S2).
  destruct Ha as [A1 A2 A3 A4 A5 A6 A7 A8].
  constructor; rewrite ?Z1, ?Z2, ?Z3, ?Z4, ?Z5, ?Z6, ?length_replicate;
    congruence.
Qed.

Lemma first_zero_ge (n i : nat) (ids : list Z) :
  (i <= first_zero n i ids)%nat.
Proof.
  revert i. induction n as [|n IH]; intros i; simpl; [lia|].
  destruct (ids !! i) as [id|]; [|lia].
  destruct (id =? 0); [lia|]. specialize (IH (S i)). lia.
Qed.

Lemma user_scan_slot0 (uid : Z) (n i : nat) (ids : list Z) :
  fst (user_scan n i ids uid) !! 0%nat = ids !! 0%nat.
Proof.
  revert i. induction n as [|n IH]; intros i; simpl; auto.
  destruct (ids !! i) as [id|]; auto.
  destruct ((id =? 0) && negb (Nat.eqb i 0)) eqn:Hc; simpl.
  - apply andb_true_iff in Hc as [_ Hi].
    apply negb_true_iff, Nat.eqb_neq in Hi.
    now apply list_lookup_insert_ne.
  - destruct (negb (id =? uid)); simpl; auto.
Qed.

Lemma user_scan_index (uid : Z) (n i : nat) (ids : list Z) :
  snd (user_scan n i ids uid) = -1
  \/ exists j, (i <= j)%nat /\ snd (user_scan n i ids uid) = Z.of_nat j.
Proof.
  revert i. induction n as [|n IH]; intros i; simpl; auto.
  destruct (ids !! i) as [id|]; auto.
  destruct ((id =? 0) && negb (Nat.eqb i 0)); simpl.
  - right. exists i. split; [lia | reflexivity].
  - destruct (negb (id =? uid)); simpl.
    + destruct (IH (S i)) as [-> | (j & Hj & ->)]; auto.
      right. exists j. split; [lia | reflexivity].
    + right. exists i. split; [lia | reflexivity].
Qed.

(** With slot 0 holding id 0, the scan returns index 0 exactly for uid 0. *)
Lemma user_scan_zero (uid : Z) (n : nat) (ids : list Z) :
  ids !! 0%nat = Some 0 ->
  (snd (user_scan (S n) 0 ids uid) = 0 <-> uid = 0).
Proof.
  intros H0. cbn [user_scan]. rewrite H0.
  replace ((0 =? 0) && negb (Nat.eqb 0 0)) with false by reflexivity.
  destruct (Z.eqb_spec 0 uid) as [<- | Hne]; cbn [negb snd].
  - tauto.
  - destruct (user_scan_index uid n 1 ids) as [G | (j & Hj & G)];
      rewrite G; split; intros; lia.
Qed.
End ClearFacts.

Section StatsFacts.
Import RpcStats Ctld Spec.
Context (H : slurm_h) (E : slurm_errno_h).

Lemma slurm_user_is_super_user {Store} (X : ctld_env Store) (uid : Z) :
  validate_slurm_user X uid = true -> validate_super_user H X uid = true.
Proof.
  unfold validate_slurm_user, validate_super_user.
  destruct ((uid =? 0) || (uid =? getuid X)); simpl; auto.
  discriminate.
Qed.

(** C9.  A statistics request with the reset command: a caller who is not a
    super-user gets ESLURM_ACCESS_DENIED and nothing changes; whenever the
    request is not denied the caller is a super-user, every id, count and
    time of both tables is zero afterwards, and the statistics response is
    sent. *)
Theorem stats_reset {Store} (X : ctld_env Store) (msg : slurm_msg)
    (request_msg : stats_info_request_msg) (t : rpc_tables)
    (c : ctld Store) :
  tables_ok t ->
  command_id request_msg = STAT_COMMAND_RESET H ->
  let r := _slurm_rpc_dump_stats H E X msg request_msg t c in
  (validate_super_user H X (auth_uid msg) = false ->
     fst r = t
     /\ trace (snd r) = Send (Rc_msg (ESLURM_ACCESS_DENIED E)) :: trace c
     /\ store (snd r) = store c /\ diag (snd r) = diag c)
  /\ ((fst r = t
       /\ trace (snd r) = Send (Rc_msg (ESLURM_ACCESS_DENIED E)) :: trace c)
      \/ (validate_super_user H X (auth_uid msg) = true
          /\ all_zero (fst r)
          /\ rpc_type_size (fst r) = rpc_type_size t
          /\ rpc_user_size (fst r) = rpc_user_size t
          /\ exists dump,
               trace (snd r) = Send (Resp_stats_info dump) :: trace c)).
Proof.
  intros Hok Hcmd r. subst r. unfold _slurm_rpc_dump_stats.
  rewrite Hcmd, Z.eqb_refl. cbn [andb].
  destruct (validate_slurm_user X (auth_uid msg)) eqn:Hu; cbn [negb].
  - pose proof (slurm_user_is_super_user X _ Hu) as Hs.
    destruct (clear_rpc_stats_spec t Hok) as (Hz & S1 & S2).
    split.
    + intros Hn. congruence.
    + right. split; [exact Hs|]. split; [exact Hz|].
      split; [exact S1|]. split; [exact S2|]. eexists. reflexivity.
  - split.
    + intros _. cbn. auto.
    + left. cbn. auto.
Qed.

Lemma begin_allocated (key uid : Z) (t : rpc_tables) :
  tables_ok t -> allocated (fst (rpc_stats_begin key uid t)).
Proof.
  intros Hok. rewrite rpc_stats_begin_eq. cbn [fst].
  destruct (alloc_tables_ok t Hok) as [A1 A2 A3 A4 A5 A6 A7 A8].
  constructor; cbn; rewrite ?type_scan_length, ?user_scan_length; assumption.
Qed.

Lemma end_allocated (ti ui delta : Z) (t : rpc_tables) :
  allocated t -> allocated (rpc_stats_end ti ui delta t).
Proof.
  intros [A1 A2 A3 A4 A5 A6 A7 A8].
  destruct (rpc_stats_end_fields ti ui delta t)
    as (F1 & F2 & F3 & F4 & F5 & F6 & F7 & F8).
  constructor; rewrite ?F1, ?F2, ?F3, ?F4, ?F5, ?F6, ?F7, ?F8;
    rewrite ?(proj1 (bump_length _ _ _ _)), ?(proj2 (bump_length _ _ _ _));
    assumption.
Qed.

(** Slot 0 of the per-user table never holds an id other than 0. *)
Lemma reachable_slot0 (t : rpc_tables) :
  reachable H E t ->
  tables_ok t /\ (allocated t -> rpc_user_id t !! 0%nat = Some 0).
Proof.
  induction 1 as [| t Store X other msg delta c Hr [IHok IH0] | t Hr IH].
  - split; [now left|]. intros [A1 _ _ _ _ _ _ _]. discriminate.
  - rewrite slurmctld_req_tables.
    destruct (negb (auth_errno msg =? SLURM_SUCCESS)); [now split|].
    cbv zeta.
    set (b := rpc_stats_begin (msg_type msg) (u32 (auth_uid msg)) t).
    pose proof (begin_allocated (msg_type msg) (u32 (auth_uid msg)) t IHok)
      as Hb. fold b in Hb.
    assert (Hb0 : rpc_user_id (fst b) !! 0%nat = Some 0).
    { subst b. rewrite rpc_stats_begin_eq. cbn [fst rpc_user_id].
      rewrite user_scan_slot0.
      destruct IHok as [-> | Ha]; [reflexivity|].
      pose proof Ha as [A1 _ _ _ A5 _ _ _].
      unfold alloc_type_table. rewrite A1. cbn.
      unfold alloc_user_table. rewrite A5. cbn. now apply IH0. }
    destruct (stats_reset_granted H X msg).
    + split.
      * right. now apply end_allocated, clear_allocated.
      * intros _.
        destruct (rpc_stats_end_fields (fst (snd b)) (snd (snd b)) delta
                    (_clear_rpc_stats (fst b)))
          as (_ & _ & _ & _ & _ & F6 & _ & _).
        rewrite F6.
        destruct (clear_rpc_stats_spec (fst b) (or_intror Hb))
          as ((_ & _ & _ & Z4 & _ & _) & _ & S2).
        rewrite Z4, S2. destruct Hb as [_ _ _ _ -> _ _ _]. reflexivity.
    + split.
      * right. now apply end_allocated.
      * intros _.
        destruct (rpc_stats_end_fields (fst (snd b)) (snd (snd b)) delta
                    (fst b))
          as (_ & _ & _ & _ & _ & F6 & _ & _).
        now rewrite F6.
  - split; [now left|]. intros [A1 _ _ _ _ _ _ _]. discriminate.
Qed.

(** C10, as amended.  In every reachable state with allocated tables, slot
    0 of the per-user table holds id 0, the slot scan leaves it so and
    returns index 0 exactly for uid 0.  For a client of protocol version
    14.11 or later the statistics dump, whose counting loop starts at index
    1, packs the user arrays from index 0 on, so the user section begins
    with slot 0: id 0 followed by the count and the cumulative time
    recorded for uid 0.  For a client of an older protocol version
    [_pack_rpc_stats] appends nothing: the response has no telemetry
    section at all. *)
Theorem uid0_slot_is_dumped (t : rpc_tables) :
  reachable H E t ->
  allocated t ->
  rpc_user_id t !! 0%nat = Some 0
  /\ (forall uid,
        fst (user_scan (rpc_user_size t) 0 (rpc_user_id t) uid) !! 0%nat
          = Some 0
        /\ (snd (user_scan (rpc_user_size t) 0 (rpc_user_id t) uid) = 0
            <-> uid = 0))
  /\ (forall buffer protocol_version,
        SLURM_14_11_PROTOCOL_VERSION H <= protocol_version ->
        exists n c0 t0 ids cnts times,
          rpc_user_cnt t !! 0%nat = Some c0
          /\ rpc_user_time t !! 0%nat = Some t0
          /\ _pack_rpc_stats (SLURM_14_11_PROTOCOL_VERSION H) t buffer
               protocol_version
             = pack_type_section t
                 (first_zero (rpc_type_size t) 0 (rpc_type_id t)) buffer
               ++ [Pack32 (Z.of_nat (S n))]
               ++ (Pack32 (Z.of_nat (S n)) :: Pack32 0 :: ids)
               ++ (Pack32 (Z.of_nat (S n)) :: Pack32 c0 :: cnts)
               ++ (Pack32 (Z.of_nat (S n)) :: Pack64 t0 :: times))
  /\ (forall buffer protocol_version,
        protocol_version < SLURM_14_11_PROTOCOL_VERSION H ->
        _pack_rpc_stats (SLURM_14_11_PROTOCOL_VERSION H) t buffer
          protocol_version = buffer).
Proof.
  intros Hr Ha.
  destruct (reachable_slot0 t Hr) as [_ H0]. specialize (H0 Ha).
  pose proof Ha as [A1 A2 A3 A4 A5 A6 A7 A8].
  split; [exact H0|]. split; [|split].
  - intros uid. split.
    + now rewrite user_scan_slot0.
    + rewrite A5. now apply user_scan_zero.
  - intros buffer pv Hpv. unfold _pack_rpc_stats.
    destruct (Z.ltb_spec pv (SLURM_14_11_PROTOCOL_VERSION H)); [lia|].
    cbv zeta.
    pose proof (first_zero_ge (rpc_user_size t - 1) 1 (rpc_user_id t)) as Hge.
    destruct (first_zero (rpc_user_size t - 1) 1 (rpc_user_id t))
      as [|n]; [lia|].
    destruct (rpc_user_id t) as [|i0 ids] eqn:Eid; [discriminate|].
    destruct (rpc_user_cnt t) as [|c0 cnts] eqn:Ecnt; [discriminate|].
    destruct (rpc_user_time t) as [|t0 times] eqn:Etm; [discriminate|].
    cbn in H0. injection H0 as ->.
    exists n, c0, t0, (map Pack32 (take n ids)),
      (map Pack32 (take n cnts)), (map Pack64 (take n times)).
    split; [reflexivity|]. split; [reflexivity|].
    unfold pack_user_section, pack64_array, pack32_array, pack32.
    rewrite Eid, Ecnt, Etm. cbn [take map].
    rewrite <- !app_assoc. reflexivity.
  - intros buffer pv Hpv. unfold _pack_rpc_stats.
    destruct (Z.ltb_spec pv (SLURM_14_11_PROTOCOL_VERSION H)); [|lia].
    reflexivity.
Qed.
End StatsFacts.

(** C10, counterexample.  Starting from the initial tables, a ping from
    uid 0 that took 7 time units is recorded in slot 0; a later statistics
    request by uid 1000, sent with protocol version 14.11, gets a response
    whose user section lists two entries, the first being uid 0 with count
    1 and time 7. *)
Lemma uid0_counters_in_dump :
  let X := Sample.env Sample.no_admins 0 [] false in
  let t1 := fst (Ctld.slurmctld_req Sample.slurm_h_values Sample.errno_values
                   X Sample.other_noop
                   (Sample.request_from 0 Ctld.Req_ping) 7
                   RpcStats.rpc_tables_init Sample.ctld0) in
  let r2 := Ctld.slurmctld_req Sample.slurm_h_values Sample.errno_values
              X Sample.other_noop
              (Sample.request_from 1000
                 (Ctld.Req_stats_info {| Ctld.command_id := 1 |})) 3
              t1 Sample.ctld0 in
  Ctld.sent_of (Ctld.trace (snd r2)) =
    [Ctld.Resp_stats_info
       (map RpcStats.Pack32 [0; 0]
        ++ [RpcStats.Pack32 2]
        ++ RpcStats.Pack32 2 :: map RpcStats.Pack16 [1008; 2035]
        ++ RpcStats.Pack32 2 :: map RpcStats.Pack32 [1; 0]
        ++ RpcStats.Pack32 2 :: map RpcStats.Pack64 [7; 0]
        ++ [RpcStats.Pack32 2]
        ++ RpcStats.Pack32 2 :: map RpcStats.Pack32 [0; 1000]
        ++ RpcStats.Pack32 2 :: map RpcStats.Pack32 [1; 0]
        ++ RpcStats.Pack32 2 :: map RpcStats.Pack64 [7; 0])].
Proof. vm_compute. reflexivity. Qed.

Lemma stats_reset_witness :
  let X := Sample.env Sample.no_admins 0 [] false in
  let msg := Sample.request_from 500
               (Ctld.Req_stats_info {| Ctld.command_id := 0 |}) in
  let r := Ctld._slurm_rpc_dump_stats Sample.slurm_h_values
             Sample.errno_values X msg {| Ctld.command_id := 0 |}
             Sample.full_tables Sample.ctld0 in
  RpcStats.tables_ok Sample.full_tables
  /\ Ctld.command_id {| Ctld.command_id := 0 |}
     = STAT_COMMAND_RESET Sample.slurm_h_values
  /\ Spec.all_zero (fst r).
Proof.
  intros X msg r.
  assert (Hok : RpcStats.tables_ok Sample.full_tables).
  { right. constructor; reflexivity. }
  split; [exact Hok|]. split; [reflexivity|].
  destruct (stats_reset Sample.slurm_h_values Sample.errno_values X msg
              {| Ctld.command_id := 0 |} Sample.full_tables Sample.ctld0
              Hok eq_refl) as [_ [[_ Hd] | (_ & Hz & _)]].
  - discriminate Hd.
  - exact Hz.
Defined.

Lemma uid0_slot_is_dumped_witness :
  let X := Sample.env Sample.no_admins 0 [] false in
  let t1 := fst (Ctld.slurmctld_req Sample.slurm_h_values Sample.errno_values
                   X Sample.other_noop
                   (Sample.request_from 0 Ctld.Req_ping) 7
                   RpcStats.rpc_tables_init Sample.ctld0) in
  let S14_11 := SLURM_14_11_PROTOCOL_VERSION Sample.slurm_h_values in
  Spec.reachable Sample.slurm_h_values Sample.errno_values t1
  /\ RpcStats.allocated t1
  /\ RpcStats.rpc_user_id t1 !! 0%nat = Some 0
  /\ (exists n ids cnts times,
        RpcStats._pack_rpc_stats S14_11 t1 [] S14_11
        = RpcStats.pack_type_section t1
            (RpcStats.first_zero (RpcStats.rpc_type_size t1) 0
               (RpcStats.rpc_type_id t1)) []
          ++ [RpcStats.Pack32 (Z.of_nat (S n))]
          ++ (RpcStats.Pack32 (Z.of_nat (S n)) :: RpcStats.Pack32 0 :: ids)
          ++ (RpcStats.Pack32 (Z.of_nat (S n)) :: RpcStats.Pack32 1 :: cnts)
          ++ (RpcStats.Pack32 (Z.of_nat (S n)) :: RpcStats.Pack64 7
              :: times))
  /\ RpcStats._pack_rpc_stats S14_11 t1 [] (S14_11 - 1) = [].
Proof.
  intros X t1 S14_11.
  assert (Hr : Spec.reachable Sample.slurm_h_values Sample.errno_values t1).
  { apply Spec.reach_req, Spec.reach_init. }
  assert (Ha : RpcStats.allocated t1).
  { constructor; reflexivity. }
  split; [exact Hr|]. split; [exact Ha|].
  destruct (uid0_slot_is_dumped Sample.slurm_h_values Sample.errno_values
              t1 Hr Ha) as (H0 & _ & Hnew & Hold).
  split; [exact H0|]. split.
  - destruct (Hnew [] S14_11 ltac:(unfold S14_11; lia))
      as (n & c0 & tm0 & ids & cnts & times & Hc & Ht & Hp).
    injection Hc as <-. injection Ht as <-.
    exists n, ids, cnts, times. exact Hp.
  - apply Hold. unfold S14_11. lia.
Defined.

(** ** One request and the requests around it *)

Section TelemetryFacts.
Import RpcStats Ctld Spec Interleaving.
Context (H : slurm_h) (E : slurm_errno_h).
Context {Store : Type} (X : ctld_env Store).
Context (other : slurm_msg -> M Store unit).








End TelemetryFacts.



(** ** Error numbers *)

Lemma nodup_neq (l : list Z) (i j : nat) (a b : Z) :
  NoDup l -> l !! i = Some a -> l !! j = Some b -> i <> j -> a <> b.
Proof.
  intros Hnd Hi Hj Hij ->. apply Hij. eapply NoDup_lookup; eauto.
Qed.

Ltac find_code l a k :=
  lazymatch l with
  | a :: _ => k 0%nat
  | _ :: ?rest => find_code rest a ltac:(fun n => k (S n))
  end.

(** Solves [a <> b] for two different entries of a well-formed table. *)
Ltac errno_ne :=
  lazymatch goal with
  | Hwf : errno_wf ?E |- ?a <> ?b =>
      let l := eval cbv [errno_codes] in (SLURM_SUCCESS :: errno_codes E) in
      find_code l a ltac:(fun i =>
        find_code l b ltac:(fun j =>
          exact (nodup_neq _ i j a b Hwf eq_refl eq_refl ltac:(lia))))
  end.

(** Decides the comparisons between entries of the table in the goal. *)
Ltac errno_eqb :=
  repeat match goal with
    | |- context [?a =? ?a] => rewrite (Z.eqb_refl a)
    | Hwf : errno_wf _ |- context [?a =? ?b] =>
        let Hn := fresh in
        assert (Hn : a <> b) by errno_ne;
        rewrite (proj2 (Z.eqb_neq a b) Hn); clear Hn
    end.

Lemma errno_values_wf : errno_wf Sample.errno_values.
Proof.
  unfold errno_wf. apply (bool_decide_unpack _). vm_compute. exact I.
Qed.

(** ** Allocation and batch submission *)

Section HandlerFacts.
Import StateMacros RpcStats Ctld Spec.
Context (H : slurm_h) (E : slurm_errno_h).
Context {Store : Type} (X : ctld_env Store).


Lemma submit_reaches_allocate (msg : slurm_msg) (d : job_desc_msg)
    (c : ctld Store) (em0 em1 : option string) (e : Z)
    (jp : option job_record) (s1 : Store) :
  alloc_node_missing d = false ->
  validate_job_create_req X d (auth_uid msg) (store c) = (SLURM_SUCCESS, em0) ->
  auth_uid msg = jd_user_id d
  \/ validate_super_user H X (auth_uid msg) = true ->
  submit_named_job H X d (store c) = Job_none ->
  job_allocate X d (jd_immediate d) false false (auth_uid msg) em0 (store c)
    = ((e, jp, em1), s1) ->
  _slurm_rpc_submit_batch_job H E X msg d c =
    submit_return_result H E
      (if c_true (jd_immediate d) && negb (e =? SLURM_SUCCESS)
       then ESLURM_CAN_NOT_START_IMMEDIATELY E else e)
      jp em1 (with_store c s1).
Proof.
  intros Hnode Hval Huid Hnamed Halloc.
  unfold _slurm_rpc_submit_batch_job.
  assert (Hu : negb (auth_uid msg =? jd_user_id d)
               && negb (validate_super_user H X (auth_uid msg)) = false).
  { destruct Huid as [-> | ->]; [rewrite Z.eqb_refl | rewrite andb_false_r];
      reflexivity. }
  rewrite Hu, Hnode. cbv beta iota zeta. rewrite Z.eqb_refl.
  unfold bind at 1. unfold look at 1. rewrite Hval. cbv beta iota zeta.
  rewrite Z.eqb_refl.
  unfold bind at 1. unfold look at 1. rewrite Hnamed.
  unfold bind at 1. unfold call at 1. rewrite Halloc. reflexivity.
Qed.

Lemma allocate_reaches_allocate (msg : slurm_msg) (d : job_desc_msg)
    (c : ctld Store) (em0 em1 : option string) (e : Z)
    (jp : option job_record) (s1 : Store) (host : string) :
  alloc_node_missing d = false ->
  validate_job_create_req X d (auth_uid msg) (store c) = (SLURM_SUCCESS, em0) ->
  auth_uid msg = jd_user_id d
  \/ validate_slurm_user X (auth_uid msg) = true ->
  HAVE_ALPS_CRAY X && allocated_session_in_use X d (store c) = false ->
  peer_addr msg = Some host ->
  job_allocate X (with_resp_host d host) (jd_immediate d) false true
    (auth_uid msg) em0 (store c) = ((e, jp, em1), s1) ->
  _slurm_rpc_allocate_resources E X msg d c =
    allocate_return_result E X msg (jd_immediate d) e jp em1
      (with_store c s1).
Proof.
  intros Hnode Hval Huid Hcray Hpeer Halloc.
  unfold _slurm_rpc_allocate_resources.
  assert (Hu : negb (auth_uid msg =? jd_user_id d)
               && negb (validate_slurm_user X (auth_uid msg)) = false).
  { destruct Huid as [-> | ->]; [rewrite Z.eqb_refl | rewrite andb_false_r];
      reflexivity. }
  assert (Hin : (if HAVE_ALPS_CRAY X
                 then look (allocated_session_in_use X d)
                 else ret false) c = (false, c)).
  { destruct (HAVE_ALPS_CRAY X); [|reflexivity].
    cbn [andb] in Hcray. unfold look. now rewrite Hcray. }
  rewrite Hu, Hnode, Hpeer. cbv beta iota zeta. rewrite Z.eqb_refl.
  unfold bind at 1. unfold look at 1. rewrite Hval. cbv beta iota zeta.
  unfold bind at 1. rewrite Hin. rewrite Z.eqb_refl.
  unfold bind at 1. unfold call at 1. rewrite Halloc. reflexivity.
Qed.

Lemma transient_is_waiting (e : Z) :
  errno_wf E -> transient_capacity_error E e ->
  (e =? SLURM_SUCCESS) = false
  /\ job_waiting_code E e = true
  /\ (negb (e =? ESLURM_JOB_HELD E)
      && negb (e =? ESLURM_NODE_NOT_AVAIL E)
      && negb (e =? ESLURM_QOS_THRES E)
      && negb (e =? ESLURM_RESERVATION_NOT_USABLE E)
      && negb (e =? ESLURM_REQUESTED_PART_CONFIG_UNAVAILABLE E)) = false.
Proof.
  intros Hwf He. unfold job_waiting_code.
  destruct He as [-> | [-> | [-> | ->]]]; errno_eqb; repeat split.
Qed.

(** C1, as amended.  A request that passes the checks made before
    [job_allocate] and for which [job_allocate] returns one of the transient
    capacity errors: when it is not immediate and a job record came back,
    the handler replies with the success payload carrying the job id and the
    error code.  Batch submission then leaves the store as [job_allocate]
    left it, and so does allocation when its reply is written; when writing
    the allocation reply fails, [_kill_job_on_msg_fail] ends the job with
    [job_complete].  When the request is immediate, batch submission replies
    with the return code ESLURM_CAN_NOT_START_IMMEDIATELY, while allocation
    replies with a return-code message carrying the error code itself; both
    leave the store as [job_allocate] left it. *)
Theorem transient_capacity_errors (e : Z) (msg : slurm_msg)
    (d : job_desc_msg) (c : ctld Store) (em0 em1 : option string)
    (jp : option job_record) (s1 : Store) :
  errno_wf E ->
  transient_capacity_error E e ->
  alloc_node_missing d = false ->
  validate_job_create_req X d (auth_uid msg) (store c) = (SLURM_SUCCESS, em0) ->
  (* batch submit *)
  (auth_uid msg = jd_user_id d
   \/ validate_super_user H X (auth_uid msg) = true ->
   submit_named_job H X d (store c) = Job_none ->
   job_allocate X d (jd_immediate d) false false (auth_uid msg) em0 (store c)
     = ((e, jp, em1), s1) ->
   let c' := exec (_slurm_rpc_submit_batch_job H E X msg d) c in
   store c' = s1
   /\ (jd_immediate d = 0 ->
       forall j, jp = Some j ->
       trace c' =
         Queue_job_scheduler :: Schedule_node_save :: Schedule_job_save
         :: Send (Resp_submit_batch_job
                    {| sr_job_id := job_id j;
                       sr_step_id := SLURM_BATCH_SCRIPT H;
                       sr_error_code := e |})
         :: trace c)
   /\ (jd_immediate d <> 0 ->
       trace c' =
         Send (rc_reply (ESLURM_CAN_NOT_START_IMMEDIATELY E) em1) :: trace c))
  /\
  (* allocate *)
  (forall host,
   auth_uid msg = jd_user_id d
   \/ validate_slurm_user X (auth_uid msg) = true ->
   HAVE_ALPS_CRAY X && allocated_session_in_use X d (store c) = false ->
   peer_addr msg = Some host ->
   job_allocate X (with_resp_host d host) (jd_immediate d) false true
     (auth_uid msg) em0 (store c) = ((e, jp, em1), s1) ->
   let c' := exec (_slurm_rpc_allocate_resources E X msg d) c in
   (jd_immediate d = 0 ->
    forall j, jp = Some j ->
    trace c' =
      Schedule_node_save :: Schedule_job_save
      :: Send (Resp_resource_allocation (build_alloc_msg e j))
      :: trace c
    /\ store c' =
         (if send_ok msg then s1
          else snd (job_complete X (job_id j) 0 false false 0 s1)))
   /\ (jd_immediate d <> 0 ->
       store c' = s1
       /\ trace c' = Send (rc_reply e em1) :: trace c)).
Proof.
  intros Hwf He Hnode Hval.
  destruct (transient_is_waiting e Hwf He) as (Hne & Hw & Hsub).
  split.
  - intros Huid Hnamed Halloc c'. subst c'. unfold exec.
    rewrite (submit_reaches_allocate msg d c em0 em1 e jp s1) by assumption.
    unfold submit_return_result. rewrite Hne. unfold c_true.
    destruct (Z.eqb_spec (jd_immediate d) 0) as [Hi | Hi]; cbn [negb andb].
    + rewrite Hne. cbn [negb andb]. rewrite Hsub.
      split; [|split; [|congruence]].
      * destruct jp; reflexivity.
      * intros _ j ->. reflexivity.
    + errno_eqb. cbn [negb andb].
      split; [|split; [congruence|]].
      * destruct em1; reflexivity.
      * intros _. destruct em1; reflexivity.
  - intros host Huid Hcray Hpeer Halloc c'. subst c'. unfold exec.
    rewrite (allocate_reaches_allocate msg d c em0 em1 e jp s1 host)
      by assumption.
    unfold allocate_return_result. rewrite Hne, Hw. cbn [orb].
    rewrite andb_true_r.
    destruct (Z.eqb_spec (jd_immediate d) 0) as [Hi | Hi].
    + split; [|congruence].
      intros _ j ->. unfold _kill_job_on_msg_fail.
      destruct (send_ok msg).
      * split; reflexivity.
      * unfold bind, emit, call, skip, ret.
        cbn [fst snd store trace with_trace with_store].
        destruct (job_complete X (job_id j) 0 false false 0 s1) as [rc s2].
        split; reflexivity.
    + split; [congruence|]. intros _.
      destruct em1; split; reflexivity.
Qed.
End HandlerFacts.

(** C1, counterexample.  An immediate allocation request for which
    [job_allocate] returns ESLURM_NODE_NOT_AVAIL is answered with that very
    code, not with ESLURM_CAN_NOT_START_IMMEDIATELY. *)
Lemma allocate_immediate_keeps_error_code :
  let X := Sample.env Sample.no_admins 2063 [] false in
  let d := Sample.job_desc 1000 1 0xfffffffe in
  let msg := Sample.request_from 1000 (Ctld.Req_resource_allocation d) in
  Ctld.trace (Ctld.exec
                (Ctld._slurm_rpc_allocate_resources Sample.errno_values X
                   msg d) Sample.ctld0)
    = [Ctld.Send (Ctld.Rc_msg (ESLURM_NODE_NOT_AVAIL Sample.errno_values))]
  /\ ESLURM_NODE_NOT_AVAIL Sample.errno_values
     <> ESLURM_CAN_NOT_START_IMMEDIATELY Sample.errno_values.
Proof. split; [vm_compute; reflexivity | discriminate]. Qed.

Lemma transient_capacity_errors_witness :
  let X := Sample.env Sample.no_admins 2063 [] false in
  let d := Sample.job_desc 1000 0 0xfffffffe in
  let d1 := Sample.job_desc 1000 1 0xfffffffe in
  let msg := Sample.request_from 1000 (Ctld.Req_submit_batch_job d) in
  let msg1 := Sample.request_from 1000 (Ctld.Req_resource_allocation d1) in
  (* an allocation request whose reply cannot be written *)
  let msg2 := {| Ctld.auth_uid := 1000; Ctld.auth_errno := 0;
                 Ctld.body := Ctld.Req_resource_allocation d;
                 Ctld.protocol_version := 7168; Ctld.flags := 0;
                 Ctld.peer_addr := Some "10.0.0.7"; Ctld.conn_errno := 0;
                 Ctld.send_ok := false |} in
  let c' := Ctld.exec
              (Ctld._slurm_rpc_submit_batch_job Sample.slurm_h_values
                 Sample.errno_values X msg d) Sample.ctld0 in
  let c1 := Ctld.exec
              (Ctld._slurm_rpc_allocate_resources Sample.errno_values X
                 msg1 d1) Sample.ctld0 in
  let c2 := Ctld.exec
              (Ctld._slurm_rpc_allocate_resources Sample.errno_values X
                 msg2 d) Sample.ctld0 in
  errno_wf Sample.errno_values
  /\ Spec.transient_capacity_error Sample.errno_values 2063
  /\ Ctld.alloc_node_missing d = false
  /\ Ctld.validate_job_create_req X d 1000 [] = (SLURM_SUCCESS, None)
  /\ Ctld.store c' = ["job_allocate"]
  /\ Ctld.sent_of (Ctld.trace c') =
       [Ctld.Resp_submit_batch_job
          {| Ctld.sr_job_id := 42; Ctld.sr_step_id := 0xfffffffe;
             Ctld.sr_error_code := 2063 |}]
  /\ Ctld.trace c1 = [Ctld.Send (Ctld.Rc_msg 2063)]
  /\ Ctld.sent_of (Ctld.trace c2) =
       [Ctld.Resp_resource_allocation
          (Ctld.build_alloc_msg 2063 (Sample.sample_job 42 0))]
  /\ Ctld.store c2 = ["job_complete"; "job_allocate"].
Proof.
  intros X d d1 msg msg1 msg2 c' c1 c2.
  assert (Ht : Spec.transient_capacity_error Sample.errno_values 2063)
    by (left; reflexivity).
  split; [exact errno_values_wf|]. split; [exact Ht|].
  split; [reflexivity|]. split; [reflexivity|].
  destruct (transient_capacity_errors Sample.slurm_h_values
              Sample.errno_values X 2063 msg d Sample.ctld0 None None
              (Some (Sample.sample_job 42 0)) ["job_allocate"]
              errno_values_wf Ht eq_refl eq_refl) as [Hsub _].
  destruct (Hsub (or_introl eq_refl) eq_refl eq_refl) as (Hs & Hq & _).
  split; [exact Hs|].
  split; [unfold c'; rewrite (Hq eq_refl _ eq_refl); reflexivity|].
  split.
  - destruct (transient_capacity_errors Sample.slurm_h_values
                Sample.errno_values X 2063 msg1 d1 Sample.ctld0 None None
                (Some (Sample.sample_job 42 0)) ["job_allocate"]
                errno_values_wf Ht eq_refl eq_refl) as [_ Hall].
    destruct (Hall "10.0.0.7" (or_introl eq_refl) eq_refl eq_refl eq_refl)
      as [_ Himm].
    assert (Hne : Ctld.jd_immediate d1 <> 0) by discriminate.
    exact (proj2 (Himm Hne)).
  - destruct (transient_capacity_errors Sample.slurm_h_values
                Sample.errno_values X 2063 msg2 d Sample.ctld0 None None
                (Some (Sample.sample_job 42 0)) ["job_allocate"]
                errno_values_wf Ht eq_refl eq_refl) as [_ Hall].
    destruct (Hall "10.0.0.7" (or_introl eq_refl) eq_refl eq_refl eq_refl)
      as [Hwait _].
    destruct (Hwait eq_refl _ eq_refl) as [Htr Hst].
    split; [unfold c2; rewrite Htr; reflexivity | exact Hst].
Defined.

(** ** Job ids named by a batch submission *)

Section SubmitFacts.
Import StateMacros RpcStats Ctld Spec.
Context (H : slurm_h) (E : slurm_errno_h).
Context {Store : Type} (X : ctld_env Store).

Lemma submit_named_job_found (d : job_desc_msg) (s : Store) (j : job_record) :
  jd_job_id d <> SLURM_BATCH_SCRIPT H ->
  find_job_record X (jd_job_id d) s = Some j ->
  submit_named_job H X d s =
    if IS_JOB_FINISHED H (job_state j)
    then if IS_JOB_COMPLETING H (job_state j)
         then Job_duplicate j else Job_none
    else Job_active j.
Proof.
  intros Hid Hfind. unfold submit_named_job.
  destruct (Z.eqb_spec (jd_job_id d) (SLURM_BATCH_SCRIPT H)) as [|_];
    [contradiction|].
  cbn [negb]. now rewrite Hfind.
Qed.

Lemma submit_return_result_store (error_code : Z) (jp : option job_record)
    (em : option string) (c : ctld Store) :
  store (exec (submit_return_result H E error_code jp em) c) = store c.
Proof.
  unfold submit_return_result.
  destruct (negb (error_code =? SLURM_SUCCESS) && _ && _ && _ && _ && _).
  - destruct em; reflexivity.
  - destruct jp; reflexivity.
Qed.

(** A named job that is still active or still completing keeps
    [job_allocate] from being called. *)
Lemma submit_named_not_completed (msg : slurm_msg) (d : job_desc_msg)
    (c : ctld Store) (j : job_record) :
  jd_job_id d <> SLURM_BATCH_SCRIPT H ->
  find_job_record X (jd_job_id d) (store c) = Some j ->
  IS_JOB_COMPLETED H (job_state j) = false ->
  let c' := exec (_slurm_rpc_submit_batch_job H E X msg d) c in
  store c' = store c
  \/ store c' = snd (_launch_batch_step X d (auth_uid msg)
                       (protocol_version msg) (store c)).
Proof.
  intros Hid Hfind Hnc c'. subst c'.
  remember (exec (_slurm_rpc_submit_batch_job H E X msg d) c) as c' eqn:Hc'.
  revert Hc'.
  unfold _slurm_rpc_submit_batch_job. cbv zeta.
  set (ec := if alloc_node_missing d then _ else _).
  unfold exec, bind at 1.
  destruct ((if ec =? SLURM_SUCCESS
             then look (validate_job_create_req X d (auth_uid msg))
             else ret (ec, None)) c) as [[rc em] c1] eqn:Hv.
  assert (Hc1 : c1 = c).
  { destruct (ec =? SLURM_SUCCESS); unfold look, ret in Hv; congruence. }
  subst c1.
  destruct (rc =? SLURM_SUCCESS).
  2:{ intros ->. left. apply (submit_return_result_store rc None em c). }
  unfold bind at 1, look at 1.
  rewrite (submit_named_job_found d (store c) j Hid Hfind).
  unfold IS_JOB_COMPLETED in Hnc. unfold IS_JOB_COMPLETING, c_true.
  destruct (IS_JOB_FINISHED H (job_state j)).
  - cbn [andb] in Hnc. rewrite Hnc. cbn [negb]. intros ->. left. reflexivity.
  - destruct (HAVE_FRONT_END X && negb (HAVE_BGQ X) && negb (HAVE_ALPS_CRAY X)
              && negb (validate_slurm_user X (auth_uid msg)));
      [intros ->; left; reflexivity|].
    destruct (negb (user_id j =? auth_uid msg));
      [intros ->; left; reflexivity|].
    match goal with
    | |- context [if ?b then emit (Send (Rc_msg (EAGAIN E))) else _] =>
        destruct b; [intros ->; left; reflexivity|]
    end.
    unfold bind, call.
    destruct (_launch_batch_step X d (auth_uid msg) (protocol_version msg)
                (store c)) as [[rc' step_id] s1].
    destruct (negb (rc' =? SLURM_SUCCESS)); intros ->; right; reflexivity.
Qed.

Lemma submit_duplicate (msg : slurm_msg) (d : job_desc_msg)
    (c : ctld Store) (j : job_record) (em0 : option string) :
  jd_job_id d <> SLURM_BATCH_SCRIPT H ->
  find_job_record X (jd_job_id d) (store c) = Some j ->
  IS_JOB_FINISHED H (job_state j) = true ->
  IS_JOB_COMPLETING H (job_state j) = true ->
  alloc_node_missing d = false ->
  auth_uid msg = jd_user_id d
  \/ validate_super_user H X (auth_uid msg) = true ->
  validate_job_create_req X d (auth_uid msg) (store c)
    = (SLURM_SUCCESS, em0) ->
  _slurm_rpc_submit_batch_job H E X msg d c =
    emit (Send (Rc_msg (ESLURM_DUPLICATE_JOB_ID E))) c.
Proof.
  intros Hid Hfind Hfin Hcg Hnode Huid Hval.
  unfold _slurm_rpc_submit_batch_job.
  assert (Hu : negb (auth_uid msg =? jd_user_id d)
               && negb (validate_super_user H X (auth_uid msg)) = false).
  { destruct Huid as [-> | ->];
      [rewrite Z.eqb_refl | rewrite andb_false_r]; reflexivity. }
  rewrite Hu, Hnode. cbv beta iota zeta. rewrite Z.eqb_refl.
  unfold bind at 1, look at 1. rewrite Hval. cbv beta iota zeta.
  rewrite Z.eqb_refl. unfold bind at 1, look at 1.
  rewrite (submit_named_job_found d (store c) j Hid Hfind), Hfin, Hcg.
  reflexivity.
Qed.

(** C7, as amended.  A batch submission naming an explicit job id whose
    record exists: unless that record is Completed (finished with the
    Completing flag clear), [job_allocate] is not called: the handler
    leaves the store alone or launches a batch step in the existing
    allocation, and a finished, still completing record is answered with
    ESLURM_DUPLICATE_JOB_ID once the request passes the earlier checks.  A
    Completed record does not protect its id: the request goes on to
    [job_allocate] under the named id. *)
Theorem named_job_id_reuse (msg : slurm_msg) (d : job_desc_msg)
    (c : ctld Store) (j : job_record) (em0 : option string) :
  jd_job_id d <> SLURM_BATCH_SCRIPT H ->
  find_job_record X (jd_job_id d) (store c) = Some j ->
  let c' := exec (_slurm_rpc_submit_batch_job H E X msg d) c in
  let checks_pass :=
    alloc_node_missing d = false
    /\ (auth_uid msg = jd_user_id d
        \/ validate_super_user H X (auth_uid msg) = true)
    /\ validate_job_create_req X d (auth_uid msg) (store c)
       = (SLURM_SUCCESS, em0) in
  (IS_JOB_COMPLETED H (job_state j) = false ->
   (store c' = store c
    \/ store c' = snd (_launch_batch_step X d (auth_uid msg)
                         (protocol_version msg) (store c)))
   /\ (IS_JOB_FINISHED H (job_state j) = true -> checks_pass ->
       store c' = store c
       /\ trace c' = Send (Rc_msg (ESLURM_DUPLICATE_JOB_ID E)) :: trace c))
  /\ (IS_JOB_COMPLETED H (job_state j) = true -> checks_pass ->
      store c' = snd (job_allocate X d (jd_immediate d) false false
                        (auth_uid msg) em0 (store c))).
Proof.
  intros Hid Hfind c' checks_pass. split.
  - intros Hnc. split.
    + now apply submit_named_not_completed with (j := j).
    + intros Hfin (Hnode & Huid & Hval). subst c'.
      unfold IS_JOB_COMPLETED in Hnc. rewrite Hfin in Hnc. cbn [andb] in Hnc.
      assert (Hcg : IS_JOB_COMPLETING H (job_state j) = true).
      { unfold IS_JOB_COMPLETING, c_true. now rewrite Hnc. }
      unfold exec.
      rewrite (submit_duplicate msg d c j em0) by assumption.
      split; reflexivity.
  - intros Hcomp (Hnode & Huid & Hval). subst c'.
    unfold IS_JOB_COMPLETED in Hcomp.
    apply andb_true_iff in Hcomp as [Hfin Hz].
    assert (Hnamed : submit_named_job H X d (store c) = Job_none).
    { rewrite (submit_named_job_found d (store c) j Hid Hfind), Hfin.
      unfold IS_JOB_COMPLETING, c_true. now rewrite Hz. }
    destruct (job_allocate X d (jd_immediate d) false false (auth_uid msg)
                em0 (store c)) as [[[e jp] em1] s1] eqn:Halloc.
    unfold exec.
    rewrite (submit_reaches_allocate H E X msg d c em0 em1 e jp s1)
      by assumption.
    apply (submit_return_result_store _ _ _ (with_store c s1)).
Qed.
End SubmitFacts.

(** C7, counterexample.  The store holds job 7 in state JOB_COMPLETE with
    the Completing flag clear.  A batch submission naming id 7 is neither
    rejected nor taken as a step of job 7: [job_allocate] runs and the
    response announces a new job under id 7. *)
Lemma completed_job_id_is_reused :
  let X := Sample.env Sample.no_admins 0 [Sample.sample_job 7 3] false in
  let d := Sample.job_desc 1000 0 7 in
  let msg := Sample.request_from 1000 (Ctld.Req_submit_batch_job d) in
  let c' := Ctld.exec
              (Ctld._slurm_rpc_submit_batch_job Sample.slurm_h_values
                 Sample.errno_values X msg d) Sample.ctld0 in
  Ctld.find_job_record X 7 (Ctld.store Sample.ctld0)
    = Some (Sample.sample_job 7 3)
  /\ Ctld.store c' = ["job_allocate"]
  /\ Ctld.sent_of (Ctld.trace c') =
       [Ctld.Resp_submit_batch_job
          {| Ctld.sr_job_id := 7; Ctld.sr_step_id := 0xfffffffe;
             Ctld.sr_error_code := 0 |}].
Proof. vm_compute. repeat split. Qed.

Lemma named_job_id_reuse_witness :
  let j := Sample.sample_job 7 0x8003 in
  let X := Sample.env Sample.no_admins 0 [j] false in
  let d := Sample.job_desc 1000 0 7 in
  let msg := Sample.request_from 1000 (Ctld.Req_submit_batch_job d) in
  let c' := Ctld.exec
              (Ctld._slurm_rpc_submit_batch_job Sample.slurm_h_values
                 Sample.errno_values X msg d) Sample.ctld0 in
  Ctld.jd_job_id d <> SLURM_BATCH_SCRIPT Sample.slurm_h_values
  /\ Ctld.find_job_record X (Ctld.jd_job_id d) (Ctld.store Sample.ctld0)
     = Some j
  /\ Ctld.store c' = []
  /\ Ctld.trace c' = [Ctld.Send (Ctld.Rc_msg 2011)].
Proof.
  intros j X d msg c'.
  assert (Hid : Ctld.jd_job_id d <> SLURM_BATCH_SCRIPT Sample.slurm_h_values)
    by discriminate.
  split; [exact Hid|]. split; [reflexivity|].
  destruct (named_job_id_reuse Sample.slurm_h_values Sample.errno_values X
              msg d Sample.ctld0 j None Hid eq_refl) as [Hnc _].
  destruct (Hnc eq_refl) as [_ Hdup].
  exact (Hdup eq_refl (conj eq_refl (conj (or_introl eq_refl) eq_refl))).
Defined.

(** ** Identity checks of the node-origin and administrative handlers *)

Section IdentityFacts.
Import StateMacros RpcStats Ctld Spec.
Context (H : slurm_h) (E : slurm_errno_h).
Context {Store : Type} (X : ctld_env Store).

Lemma c_true_code (a : Z) : a <> SLURM_SUCCESS -> c_true a = true.
Proof. intros Ha. now apply c_true_iff. Qed.

Lemma user_id_missing_true :
  errno_wf E -> c_true (ESLURM_USER_ID_MISSING E) = true.
Proof. intros Hwf. apply c_true_code. errno_ne. Qed.

Lemma not_super_not_slurm (uid : Z) :
  validate_super_user H X uid = false -> validate_slurm_user X uid = false.
Proof.
  intros Hs. destruct (validate_slurm_user X uid) eqn:Hu; auto.
  apply (slurm_user_is_super_user H) in Hu. congruence.
Qed.

(** C3, as amended.  Node registration, epilog complete and batch complete
    check for the slurm user themselves: from any other caller a
    registration is answered with ESLURM_USER_ID_MISSING and the two
    completion messages are dropped without a reply, the controller state
    staying as it was.  Ping checks nothing: any caller gets SLURM_SUCCESS,
    and nothing else happens.  Step complete has no check of its own: it
    hands the caller's uid to [step_partial_comp]; when that returns an
    error, or nodes of the step remain, the reply is the code that
    [step_partial_comp] returned, with the store as it left it (and a job
    state save when the code is 0); when it returns 0 and no node remains,
    the handler hands the uid on to [job_complete] (for the batch script
    step) or [job_step_complete] and replies with the code of that
    function, scheduling a job state save when the code is 0. *)
Theorem node_origin_identity_checks (msg : slurm_msg) (c : ctld Store) :
  errno_wf E ->
  (validate_slurm_user X (auth_uid msg) = false ->
   (forall m,
      exec (_slurm_rpc_node_registration E X msg m) c =
        with_trace c (Send (Rc_msg (ESLURM_USER_ID_MISSING E)) :: trace c))
   /\ (forall m, exec (_slurm_rpc_epilog_complete X msg m) c = c)
   /\ (forall m, exec (_slurm_rpc_complete_batch_script H E X msg m) c = c))
  /\ exec (_slurm_rpc_ping msg) c =
       with_trace c (Send (Rc_msg SLURM_SUCCESS) :: trace c)
  /\ (forall req rc rem step_rc s1,
        step_partial_comp X req (auth_uid msg) (store c)
          = ((rc, rem, step_rc), s1) ->
        let c' := exec (_slurm_rpc_step_complete H X msg req) c in
        (rc <> 0 ->
         c' = with_trace (with_store c s1) (Send (Rc_msg rc) :: trace c))
        /\ (rc = 0 -> rem <> 0 ->
            c' = with_trace (with_store c s1)
                   (Schedule_job_save :: Send (Rc_msg rc) :: trace c))
        /\ (rc = 0 -> rem = 0 ->
            forall code s2,
              (if sc_job_step_id req =? SLURM_BATCH_SCRIPT H
               then job_complete X (sc_job_id req) (auth_uid msg) false
                      false step_rc s1
               else job_step_complete X (sc_job_id req)
                      (sc_job_step_id req) (auth_uid msg) false step_rc s1)
                = (code, s2) ->
              c' = with_trace (with_store c s2)
                     (if c_true code then Send (Rc_msg code) :: trace c
                      else Schedule_job_save
                           :: Send (Rc_msg SLURM_SUCCESS) :: trace c))).
Proof.
  intros Hwf. pose proof (user_id_missing_true Hwf) as Hm.
  assert (Hz : (ESLURM_USER_ID_MISSING E =? SLURM_SUCCESS) = false)
    by (errno_eqb; reflexivity).
  split; [|split].
  - intros Hu. split; [|split]; intros m.
    + unfold _slurm_rpc_node_registration. rewrite Hu. cbn [negb].
      cbv zeta. rewrite Hz. unfold exec, bind, ret. rewrite Hm. reflexivity.
    + unfold _slurm_rpc_epilog_complete. rewrite Hu. destruct c; reflexivity.
    + unfold _slurm_rpc_complete_batch_script. rewrite Hu.
      destruct c; reflexivity.
  - reflexivity.
  - intros req rc rem step_rc s1 Hp c'. subst c'.
    split; [|split].
    + intros Hrc.
      unfold _slurm_rpc_step_complete, exec, bind at 1, call at 1.
      rewrite Hp. cbv beta iota zeta.
      rewrite (c_true_code rc Hrc). cbn [orb negb]. reflexivity.
    + intros -> Hrem.
      unfold _slurm_rpc_step_complete, exec, bind at 1, call at 1.
      rewrite Hp. cbv beta iota zeta.
      rewrite (c_true_code rem Hrem). reflexivity.
    + intros -> -> code s2 Hdone.
      unfold _slurm_rpc_step_complete, exec, bind at 1, call at 1.
      rewrite Hp. cbv beta iota zeta. cbn [c_true Z.eqb negb orb].
      unfold bind at 1.
      destruct (sc_job_step_id req =? SLURM_BATCH_SCRIPT H);
        unfold call at 1; cbn [store with_store]; rewrite Hdone;
        cbv beta iota zeta; destruct (c_true code); reflexivity.
Qed.

(** C4, as amended.  Node update, partition create/update/delete, shutdown
    and reconfigure call into the store only for a super-user: any other
    caller gets the return code ESLURM_USER_ID_MISSING (from reconfigure
    EINPROGRESS, when a reconfiguration or shutdown is under way) and the
    store, the flags and the counters stay as they were; node update still
    schedules the node save, the scheduler and the reconfigure trigger.
    Reservation create/update/delete ask for operator level only: a caller
    below operator gets ESLURM_USER_ID_MISSING and nothing changes. *)
Theorem admin_rpc_authorisation (msg : slurm_msg) (c : ctld Store) :
  errno_wf E ->
  (validate_super_user H X (auth_uid msg) = false ->
   (forall m,
      exec (_slurm_rpc_update_node H E X msg m) c =
        with_trace c (Trigger_reconfig :: Queue_job_scheduler
                      :: Schedule_node_save
                      :: Send (Rc_msg (ESLURM_USER_ID_MISSING E))
                      :: trace c))
   /\ (forall m,
         exec (_slurm_rpc_update_partition H E X msg m) c =
           with_trace c (Send (Rc_msg (ESLURM_USER_ID_MISSING E)) :: trace c))
   /\ (forall m,
         exec (_slurm_rpc_delete_partition H E X msg m) c =
           with_trace c (Send (Rc_msg (ESLURM_USER_ID_MISSING E)) :: trace c))
   /\ (forall m,
         exec (_slurm_rpc_shutdown_controller H E X msg m) c =
           with_trace c (Send (Rc_msg (ESLURM_USER_ID_MISSING E)) :: trace c))
   /\ exec (_slurm_rpc_reconfigure_controller H E X msg) c =
        with_trace c
          (Send (Rc_msg (if in_progress c || c_true (shutdown_time c)
                         then EINPROGRESS E
                         else ESLURM_USER_ID_MISSING E)) :: trace c))
  /\ (validate_operator H X (auth_uid msg) = false ->
      (forall m,
         exec (_slurm_rpc_resv_create H E X msg m) c =
           with_trace c (Send (Rc_msg (ESLURM_USER_ID_MISSING E)) :: trace c))
      /\ (forall m,
            exec (_slurm_rpc_resv_update H E X msg m) c =
              with_trace c
                (Send (Rc_msg (ESLURM_USER_ID_MISSING E)) :: trace c))
      /\ (forall m,
            exec (_slurm_rpc_resv_delete H E X msg m) c =
              with_trace c
                (Send (Rc_msg (ESLURM_USER_ID_MISSING E)) :: trace c))).
Proof.
  intros Hwf. pose proof (user_id_missing_true Hwf) as Hm.
  assert (Hz : (ESLURM_USER_ID_MISSING E =? SLURM_SUCCESS) = false)
    by (errno_eqb; reflexivity).
  assert (Hp : c_true (EINPROGRESS E) = true)
    by (apply c_true_code; errno_ne).
  assert (Hpz : (EINPROGRESS E =? SLURM_SUCCESS) = false)
    by (errno_eqb; reflexivity).
  split.
  - intros Hs. repeat split; try intros m.
    + unfold _slurm_rpc_update_node. rewrite Hs. cbn [negb]. cbv zeta.
      rewrite Hz. unfold send_rc_result, exec, bind, ret. rewrite Hm.
      reflexivity.
    + unfold _slurm_rpc_update_partition. rewrite Hs. cbn [negb]. cbv zeta.
      rewrite Hz. unfold exec, bind, ret. rewrite Hm. reflexivity.
    + unfold _slurm_rpc_delete_partition. rewrite Hs. cbn [negb]. cbv zeta.
      rewrite Hz. unfold exec, bind, ret. rewrite Hm. reflexivity.
    + unfold _slurm_rpc_shutdown_controller. rewrite Hs. cbn [negb].
      cbv zeta. rewrite Hm, Hz. unfold exec, bind, ret. cbn [andb].
      destruct c; reflexivity.
    + unfold _slurm_rpc_reconfigure_controller. rewrite Hs. cbn [negb].
      cbv zeta. unfold exec, bind at 1, get at 1.
      destruct (in_progress c || c_true (shutdown_time c)).
      * rewrite Hpz. unfold bind, ret. rewrite Hp. reflexivity.
      * rewrite Hz. unfold bind, ret. rewrite Hm. reflexivity.
  - intros Ho. repeat split; intros m.
    + unfold _slurm_rpc_resv_create. rewrite Ho. cbn [negb]. cbv zeta.
      rewrite Hz. unfold exec, bind, ret. rewrite Hm. reflexivity.
    + unfold _slurm_rpc_resv_update. rewrite Ho. cbn [negb]. cbv zeta.
      rewrite Hz. unfold exec, bind, ret. rewrite Hm. reflexivity.
    + unfold _slurm_rpc_resv_delete. rewrite Ho. cbn [negb]. cbv zeta.
      rewrite Hz. unfold exec, bind, ret. rewrite Hm. reflexivity.
Qed.
End IdentityFacts.

(** C3, counterexample.  Uid 1000 is neither root nor the daemon's uid
    (500), yet its ping is answered with SLURM_SUCCESS, and its step
    complete message reaches the step manager. *)
Lemma ping_and_step_complete_unchecked :
  let X := Sample.env Sample.no_admins 0 [] false in
  let req := {| Ctld.sc_job_id := 42; Ctld.sc_job_step_id := 0;
                Ctld.sc_range_first := 0; Ctld.sc_range_last := 0;
                Ctld.sc_step_rc := 0 |} in
  Ctld.validate_slurm_user X 1000 = false
  /\ Ctld.trace (Ctld.exec
                   (Ctld._slurm_rpc_ping
                      (Sample.request_from 1000 Ctld.Req_ping))
                   Sample.ctld0)
     = [Ctld.Send (Ctld.Rc_msg SLURM_SUCCESS)]
  /\ Ctld.store (Ctld.exec
                   (Ctld._slurm_rpc_step_complete Sample.slurm_h_values X
                      (Sample.request_from 1000 (Ctld.Req_step_complete req))
                      req)
                   Sample.ctld0)
     = ["job_step_complete"; "step_partial_comp"].
Proof. vm_compute. repeat split. Qed.

Lemma node_origin_identity_checks_witness :
  let X := Sample.env Sample.no_admins 0 [] false in
  let m := {| Ctld.ec_job_id := 42; Ctld.ec_return_code := 0;
              Ctld.ec_node_name := Some "n1" |} in
  let msg := Sample.request_from 1000 (Ctld.Req_epilog_complete m) in
  let req := {| Ctld.sc_job_id := 42; Ctld.sc_job_step_id := 0;
                Ctld.sc_range_first := 0; Ctld.sc_range_last := 0;
                Ctld.sc_step_rc := 0 |} in
  errno_wf Sample.errno_values
  /\ Ctld.validate_slurm_user X (Ctld.auth_uid msg) = false
  /\ Ctld.exec (Ctld._slurm_rpc_epilog_complete X msg m) Sample.ctld0
     = Sample.ctld0
  /\ Ctld.step_partial_comp X req (Ctld.auth_uid msg)
       (Ctld.store Sample.ctld0)
     = ((0, 0, 0), ["step_partial_comp"])
  /\ Ctld.exec (Ctld._slurm_rpc_step_complete Sample.slurm_h_values X msg
                  req) Sample.ctld0
     = Ctld.with_trace
         (Ctld.with_store Sample.ctld0
            ["job_step_complete"; "step_partial_comp"])
         [Ctld.Schedule_job_save; Ctld.Send (Ctld.Rc_msg SLURM_SUCCESS)].
Proof.
  intros X m msg req.
  split; [exact errno_values_wf|]. split; [reflexivity|].
  destruct (node_origin_identity_checks Sample.slurm_h_values
              Sample.errno_values X msg Sample.ctld0 errno_values_wf)
    as (Hn & _ & Hstep).
  destruct (Hn eq_refl) as (_ & He & _).
  split; [exact (He m)|]. split; [reflexivity|].
  destruct (Hstep req 0 0 0 ["step_partial_comp"] eq_refl) as (_ & _ & Hd).
  exact (Hd eq_refl eq_refl SLURM_SUCCESS
           ["job_step_complete"; "step_partial_comp"] eq_refl).
Defined.

(** C4, counterexample.  Uid 2000 has operator level only, so it is not a
    super-user; its reservation create request is carried out and answered
    with the reservation name. *)
Lemma operator_creates_reservation :
  let X := Sample.env Sample.operator_2000 0 [] false in
  let m := {| Ctld.rd_name := Some "maint" |} in
  let msg := Sample.request_from 2000 (Ctld.Req_create_reservation m) in
  let c' := Ctld.exec
              (Ctld._slurm_rpc_resv_create Sample.slurm_h_values
                 Sample.errno_values X msg m) Sample.ctld0 in
  Ctld.validate_super_user Sample.slurm_h_values X 2000 = false
  /\ Ctld.store c' = ["create_resv"]
  /\ Ctld.sent_of (Ctld.trace c')
     = [Ctld.Resp_create_reservation (Some "maint")].
Proof. vm_compute. repeat split. Qed.

Lemma admin_rpc_authorisation_witness :
  let X := Sample.env Sample.operator_2000 0 [] false in
  let m := {| Ctld.un_node_names := Some "n1"; Ctld.un_node_state := 1;
              Ctld.un_reason := Some "test" |} in
  let msg := Sample.request_from 2000 (Ctld.Req_update_node m) in
  let c' := Ctld.exec
              (Ctld._slurm_rpc_update_node Sample.slurm_h_values
                 Sample.errno_values X msg m) Sample.ctld0 in
  errno_wf Sample.errno_values
  /\ Ctld.validate_super_user Sample.slurm_h_values X (Ctld.auth_uid msg)
     = false
  /\ Ctld.store c' = []
  /\ Ctld.sent_of (Ctld.trace c') = [Ctld.Rc_msg 2010].
Proof.
  intros X m msg c'.
  split; [exact errno_values_wf|]. split; [reflexivity|].
  destruct (admin_rpc_authorisation Sample.slurm_h_values
              Sample.errno_values X msg Sample.ctld0 errno_values_wf)
    as [Hs _].
  destruct (Hs eq_refl) as (Hn & _).
  unfold c'. rewrite (Hn m). split; reflexivity.
Defined.

(** ** Batch completion *)

Section BatchCompleteFacts.
Import StateMacros RpcStats Ctld Spec.
Context (H : slurm_h) (E : slurm_errno_h).
Context {Store : Type} (X : ctld_env Store).

(** A slurm-user caller reporting from the batch host gets the accounting
    record, the return-code block and then the completion of the job with
    the requeue flag that the block computed. *)
Lemma complete_batch_script_runs_block (msg : slurm_msg)
    (comp_msg : complete_batch_script_msg) (c : ctld Store) :
  validate_slurm_user X (auth_uid msg) = true ->
  batch_from_wrong_node (find_job_record X (cb_job_id comp_msg) (store c))
    comp_msg = false ->
  let job_ptr := find_job_record X (cb_job_id comp_msg) (store c) in
  _slurm_rpc_complete_batch_script H E X msg comp_msg c =
    bind (batch_step_accounting H X comp_msg job_ptr)
      (fun _ => bind (batch_rc_block H E X comp_msg job_ptr)
                  (batch_mark_complete X msg comp_msg job_ptr)) c.
Proof.
  intros Hu Hw job_ptr. unfold _slurm_rpc_complete_batch_script.
  rewrite Hu. cbn [negb]. unfold bind at 1, look at 1. rewrite Hw.
  reflexivity.
Qed.

End BatchCompleteFacts.



(** ** Responses *)

Section ReplyFacts.
Import StateMacros RpcStats Ctld Spec.
Context (H : slurm_h) (E : slurm_errno_h).
Context {Store : Type} (X : ctld_env Store).

Lemma replies_trans (c c1 c2 : ctld Store) (r1 r2 : list response) :
  replies c c1 r1 -> replies c1 c2 r2 -> replies c c2 (r1 ++ r2).
Proof.
  unfold replies. intros H1 H2. now rewrite H2, H1, app_assoc.
Qed.

Lemma sends_ret {A} (a : A) : sends (Store := Store) 0 (ret a).
Proof.
  intros c. exists []. split; [reflexivity|].
  unfold replies. now rewrite app_nil_r.
Qed.

Lemma sends_bind {A B} (n k : nat) (m : M Store A) (f : A -> M Store B) :
  sends n m -> (forall a, sends k (f a)) -> sends (n + k) (bind m f).
Proof.
  intros Hm Hf c. unfold bind.
  destruct (Hm c) as (r1 & L1 & R1).
  destruct (m c) as [a c1]. cbn [snd] in R1.
  destruct (Hf a c1) as (r2 & L2 & R2).
  exists (r1 ++ r2). split.
  - rewrite length_app. lia.
  - now apply replies_trans with (c1 := c1).
Qed.

Lemma sends_emit_send (r : response) : sends (Store := Store) 1 (emit (Send r)).
Proof. intros c. exists [r]. split; reflexivity. Qed.

Lemma sends_emit (e : event) :
  (forall r, e <> Send r) -> sends (Store := Store) 0 (emit e).
Proof.
  intros He c. exists []. split; [reflexivity|].
  unfold replies. rewrite app_nil_r. cbn.
  destruct e; try reflexivity. now destruct (He r).
Qed.

Lemma sends_silent {A} (m : M Store A) :
  (forall c, trace (snd (m c)) = trace c) -> sends 0 m.
Proof.
  intros Hm c. exists []. split; [reflexivity|].
  unfold replies. now rewrite Hm, app_nil_r.
Qed.

Lemma sends_call {A} (f : Store -> A * Store) : sends 0 (call f).
Proof.
  apply sends_silent. intros c. unfold call. now destruct (f (store c)).
Qed.

Lemma sends_call_ (f : Store -> Store) : sends 0 (call_ f).
Proof. now apply sends_silent. Qed.

Lemma sends_look {A} (f : Store -> A) : sends 0 (look f).
Proof. now apply sends_silent. Qed.

Lemma sends_get {A} (f : ctld Store -> A) : sends 0 (get f).
Proof. now apply sends_silent. Qed.

Lemma sends_put (f : ctld Store -> ctld Store) :
  (forall c, trace (f c) = trace c) -> sends 0 (put f).
Proof. intros Hf. now apply sends_silent. Qed.

Lemma sent_of_emit_sends (rs : list response) (c : ctld Store) :
  replies c (snd (emit_sends rs c)) rs.
Proof.
  revert c. induction rs as [|r rs IH]; intros c; cbn [emit_sends].
  - unfold replies. now rewrite app_nil_r.
  - unfold bind, emit.
    apply (replies_trans c (with_trace c (Send r :: trace c)) _ [r] rs);
      [reflexivity | apply IH].
Qed.

Lemma sends_emit_sends (rs : list response) :
  sends (Store := Store) (length rs) (emit_sends rs).
Proof.
  induction rs as [|r rs IH]; cbn [emit_sends length].
  - apply sends_ret.
  - apply (sends_bind 1 (length rs)); [apply sends_emit_send | intros _; exact IH].
Qed.

(** Counts the messages sent by a handler written with the monad's
    primitives. *)
Ltac count_sends :=
  cbv beta zeta;
  lazymatch goal with
  | |- sends _ (match ?x with _ => _ end) => destruct x; count_sends
  | |- sends 0 (bind _ _) =>
      apply (sends_bind 0 0); [count_sends | intros ?; count_sends]
  | |- sends 1 (bind _ _) =>
      first [ solve [apply (sends_bind 0 1);
                     [count_sends | intros ?; count_sends]]
            | solve [apply (sends_bind 1 0);
                     [count_sends | intros ?; count_sends]] ]
  | |- sends 0 (ret _) => apply sends_ret
  | |- sends 0 skip => apply sends_ret
  | |- sends 1 (emit (Send _)) => apply sends_emit_send
  | |- sends 0 (emit _) => apply sends_emit; discriminate
  | |- sends 0 (call _) => apply sends_call
  | |- sends 0 (call_ _) => apply sends_call_
  | |- sends 0 (look _) => apply sends_look
  | |- sends 0 (get _) => apply sends_get
  | |- sends 0 (put _) => apply sends_put; reflexivity
  | |- sends _ (send_rc_or_err _ _) => unfold send_rc_or_err; count_sends
  | |- sends _ (send_rc_result _) => unfold send_rc_result; count_sends
  | |- sends _ (_kill_job_on_msg_fail _ _) =>
      unfold _kill_job_on_msg_fail; count_sends
  end.

Lemma ping_sends (msg : slurm_msg) : sends (Store := Store) 1 (_slurm_rpc_ping msg).
Proof. unfold _slurm_rpc_ping. count_sends. Qed.

Lemma node_registration_sends (msg : slurm_msg) m :
  sends 1 (_slurm_rpc_node_registration E X msg m).
Proof. unfold _slurm_rpc_node_registration. count_sends. Qed.

Lemma reconfigure_sends (msg : slurm_msg) :
  sends 1 (_slurm_rpc_reconfigure_controller H E X msg).
Proof. unfold _slurm_rpc_reconfigure_controller. count_sends. Qed.

Lemma shutdown_sends (msg : slurm_msg) m :
  sends 1 (_slurm_rpc_shutdown_controller H E X msg m).
Proof. unfold _slurm_rpc_shutdown_controller. count_sends. Qed.

Lemma takeover_sends (msg : slurm_msg) :
  sends 1 (_slurm_rpc_takeover H E X msg).
Proof. unfold _slurm_rpc_takeover. count_sends. Qed.

Lemma step_complete_sends (msg : slurm_msg) m :
  sends 1 (_slurm_rpc_step_complete H X msg m).
Proof. unfold _slurm_rpc_step_complete. count_sends. Qed.

Lemma update_node_sends (msg : slurm_msg) m :
  sends 1 (_slurm_rpc_update_node H E X msg m).
Proof. unfold _slurm_rpc_update_node. count_sends. Qed.

Lemma update_partition_sends (msg : slurm_msg) m :
  sends 1 (_slurm_rpc_update_partition H E X msg m).
Proof. unfold _slurm_rpc_update_partition. count_sends. Qed.

Lemma delete_partition_sends (msg : slurm_msg) m :
  sends 1 (_slurm_rpc_delete_partition H E X msg m).
Proof. unfold _slurm_rpc_delete_partition. count_sends. Qed.

Lemma resv_create_sends (msg : slurm_msg) m :
  sends 1 (_slurm_rpc_resv_create H E X msg m).
Proof. unfold _slurm_rpc_resv_create. count_sends. Qed.

Lemma resv_update_sends (msg : slurm_msg) m :
  sends 1 (_slurm_rpc_resv_update H E X msg m).
Proof. unfold _slurm_rpc_resv_update. count_sends. Qed.

Lemma resv_delete_sends (msg : slurm_msg) m :
  sends 1 (_slurm_rpc_resv_delete H E X msg m).
Proof. unfold _slurm_rpc_resv_delete. count_sends. Qed.

Lemma dump_stats_sends (msg : slurm_msg) m t :
  sends 1 (_slurm_rpc_dump_stats H E X msg m t).
Proof. unfold _slurm_rpc_dump_stats. count_sends. Qed.

Lemma epilog_complete_sends (msg : slurm_msg) m :
  sends 0 (_slurm_rpc_epilog_complete X msg m).
Proof. unfold _slurm_rpc_epilog_complete. count_sends. Qed.

Lemma shutdown_immediate_sends (msg : slurm_msg) :
  sends 0 (_slurm_rpc_shutdown_controller_immediate H E X msg).
Proof. unfold _slurm_rpc_shutdown_controller_immediate. count_sends. Qed.

Lemma accounting_first_reg_sends (msg : slurm_msg) :
  sends 0 (_slurm_rpc_accounting_first_reg H X msg).
Proof. unfold _slurm_rpc_accounting_first_reg. count_sends. Qed.

Lemma accounting_register_ctld_sends (msg : slurm_msg) :
  sends 0 (_slurm_rpc_accounting_register_ctld H X msg).
Proof. unfold _slurm_rpc_accounting_register_ctld. count_sends. Qed.

Lemma batch_rc_block_sends m jp : sends 0 (batch_rc_block H E X m jp).
Proof. unfold batch_rc_block. count_sends. Qed.

Lemma batch_step_accounting_sends m jp :
  sends 0 (batch_step_accounting H X m jp).
Proof. unfold batch_step_accounting. count_sends. Qed.

(** Silent steps before or after a step do not change what it sends. *)
Lemma via_prefix {A B} (P : list response -> Prop) (m : M Store A)
    (f : A -> M Store B) :
  sends 0 m ->
  (forall a c1, exists rs, P rs /\ replies c1 (snd (f a c1)) rs) ->
  forall c, exists rs, P rs /\ replies c (snd (bind m f c)) rs.
Proof.
  intros Hm Hf c. unfold bind.
  destruct (Hm c) as (r1 & L1 & R1).
  destruct (m c) as [a c1]. cbn [snd] in R1.
  destruct r1; [|discriminate].
  destruct (Hf a c1) as (rs & HP & R2).
  exists rs. split; [exact HP|].
  apply (replies_trans c c1 _ [] rs R1 R2).
Qed.

Lemma via_suffix {A B} (P : list response -> Prop) (m : M Store A)
    (f : A -> M Store B) :
  (forall c, exists rs, P rs /\ replies c (snd (m c)) rs) ->
  (forall a, sends 0 (f a)) ->
  forall c, exists rs, P rs /\ replies c (snd (bind m f c)) rs.
Proof.
  intros Hm Hf c. unfold bind.
  destruct (Hm c) as (rs & HP & R1).
  destruct (m c) as [a c1]. cbn [snd] in R1.
  destruct (Hf a c1) as (r2 & L2 & R2).
  destruct r2; [|discriminate].
  exists rs. split; [exact HP|].
  rewrite <- (app_nil_r rs).
  apply (replies_trans c c1 _ rs [] R1 R2).
Qed.

Lemma via_sends_one {A} (P : list response -> Prop) (m : M Store A) :
  (forall r, P [r]) -> sends 1 m ->
  forall c, exists rs, P rs /\ replies c (snd (m c)) rs.
Proof.
  intros HP Hm c. destruct (Hm c) as (rs & L & R).
  destruct rs as [|r [|]]; try discriminate.
  exists [r]. split; [apply HP | exact R].
Qed.

(** What a batch completion from the slurm user gets in reply: one
    return-code message or what [replace_batch_job] sends. *)
Lemma batch_mark_complete_replies (msg : slurm_msg) m jp o (c : ctld Store) :
  exists rs,
    (length rs = 1%nat
     \/ exists s, rs = snd (fst (replace_batch_job X msg jp s)))
    /\ replies c (snd (batch_mark_complete X msg m jp o c)) rs.
Proof.
  revert c. unfold batch_mark_complete. cbv zeta.
  apply via_prefix; [count_sends|]. intros _.
  apply via_prefix; [count_sends|]. intros i.
  apply via_prefix; [count_sends|]. intros error_code.
  apply via_suffix.
  2:{ intros [run_sched dump_job]. count_sends. }
  destruct (c_true error_code).
  - apply via_sends_one; [intros r; now left | count_sends].
  - apply via_prefix; [count_sends|]. intros _.
    intros c. unfold bind at 1, call.
    destruct (replace_batch_job X msg jp (store c)) as [rb s1] eqn:Hrb.
    enough (G : forall c1 : ctld Store,
              exists rs,
                (length rs = 1%nat
                 \/ exists s, rs = snd (fst (replace_batch_job X msg jp s)))
                /\ replies c1
                     (snd (bind (emit_sends (snd rb))
                             (fun _ => ret (fst rb, true)) c1)) rs)
      by exact (G (with_store c s1)).
    apply via_suffix; [|intros; count_sends].
    intros c1. exists (snd rb). split.
    + right. exists (store c). now rewrite Hrb.
    + apply sent_of_emit_sends.
Qed.

Lemma complete_batch_script_replies (msg : slurm_msg) m (c : ctld Store) :
  let c' := exec (_slurm_rpc_complete_batch_script H E X msg m) c in
  if validate_slurm_user X (auth_uid msg)
  then exists rs,
         (length rs = 1%nat
          \/ exists s,
               rs = snd (fst (replace_batch_job X msg
                                (find_job_record X (cb_job_id m) (store c))
                                s)))
         /\ replies c c' rs
  else c' = c.
Proof.
  cbv zeta. unfold _slurm_rpc_complete_batch_script, exec.
  destruct (validate_slurm_user X (auth_uid msg)); cbn [negb];
    [|reflexivity].
  unfold bind at 1, look at 1.
  destruct (batch_from_wrong_node _ m).
  - exists [Rc_msg SLURM_SUCCESS]. split; [now left | reflexivity].
  - revert c. intros c.
    generalize (find_job_record X (cb_job_id m) (store c)). intros jp.
    revert c.
    apply via_prefix; [apply batch_step_accounting_sends|]. intros _.
    apply via_prefix; [apply batch_rc_block_sends|]. intros o c1.
    apply batch_mark_complete_replies.
Qed.

Lemma sends_one_reply_or_abort {A} (m : M Store A) (c : ctld Store) :
  sends 1 m -> reply_or_abort c (snd (m c)).
Proof.
  intros Hm. destruct (Hm c) as (rs & L & R).
  destruct rs as [|r [|]]; try discriminate. left. now exists r.
Qed.

Lemma reply_or_abort_prefix {A B} (m : M Store A) (f : A -> M Store B) :
  sends 0 m ->
  (forall a c1, reply_or_abort c1 (snd (f a c1))) ->
  forall c, reply_or_abort c (snd (bind m f c)).
Proof.
  intros Hm Hf c. unfold bind.
  destruct (Hm c) as (r1 & L1 & R1).
  destruct (m c) as [a c1]. cbn [snd] in R1.
  destruct r1; [|discriminate].
  destruct (Hf a c1) as [(r & R2) | (R2 & t & Ht)].
  - left. exists r. apply (replies_trans c c1 _ [] [r] R1 R2).
  - right. split; [apply (replies_trans c c1 _ [] [] R1 R2) | now exists t].
Qed.

Lemma abort_reply_or_abort (c : ctld Store) :
  reply_or_abort c (snd (emit Abort c)).
Proof.
  right. split; [|now exists (trace c)].
  unfold replies. cbn. now rewrite app_nil_r.
Qed.

Lemma allocate_return_result_replies (msg : slurm_msg) imm ec jp em
    (c : ctld Store) :
  reply_or_abort c (snd (allocate_return_result E X msg imm ec jp em c)).
Proof.
  unfold allocate_return_result. cbv zeta.
  destruct ((ec =? SLURM_SUCCESS) || (imm =? 0) && job_waiting_code E ec).
  - destruct jp as [j|]; [|apply abort_reply_or_abort].
    apply sends_one_reply_or_abort. count_sends.
  - apply sends_one_reply_or_abort. count_sends.
Qed.

Lemma submit_return_result_replies ec jp em (c : ctld Store) :
  reply_or_abort c (snd (submit_return_result H E ec jp em c)).
Proof.
  unfold submit_return_result.
  destruct (negb (ec =? SLURM_SUCCESS) && _ && _ && _ && _ && _).
  - apply sends_one_reply_or_abort. count_sends.
  - destruct jp as [j|]; [|apply abort_reply_or_abort].
    apply sends_one_reply_or_abort. count_sends.
Qed.

Lemma allocate_resources_replies (msg : slurm_msg) d (c : ctld Store) :
  reply_or_abort c (exec (_slurm_rpc_allocate_resources E X msg d) c).
Proof.
  unfold exec. revert c. unfold _slurm_rpc_allocate_resources. cbv zeta.
  apply reply_or_abort_prefix; [count_sends|]. intros [ec em].
  apply reply_or_abort_prefix; [count_sends|]. intros in_use.
  apply reply_or_abort_prefix; [count_sends|]. intros [[ec' jp] em'] c1.
  apply allocate_return_result_replies.
Qed.

Lemma submit_batch_job_replies (msg : slurm_msg) d (c : ctld Store) :
  reply_or_abort c (exec (_slurm_rpc_submit_batch_job H E X msg d) c).
Proof.
  unfold exec. revert c. unfold _slurm_rpc_submit_batch_job. cbv zeta.
  apply reply_or_abort_prefix; [count_sends|]. intros [ec em].
  destruct (ec =? SLURM_SUCCESS);
    [|intros c1; apply submit_return_result_replies].
  apply reply_or_abort_prefix; [count_sends|]. intros named.
  destruct named as [j | j |].
  - intros c1. apply sends_one_reply_or_abort. count_sends.
  - intros c1. apply sends_one_reply_or_abort. count_sends.
  - apply reply_or_abort_prefix; [count_sends|]. intros [[ec' jp] em'] c1.
    apply submit_return_result_replies.
Qed.

Lemma sends_one_exists {A} (m : M Store A) (c : ctld Store) :
  sends 1 m -> exists r, replies c (snd (m c)) [r].
Proof.
  intros Hm. destruct (Hm c) as (rs & L & R).
  destruct rs as [|r [|]]; try discriminate. now exists r.
Qed.

Lemma sends_none {A} (m : M Store A) (c : ctld Store) :
  sends 0 m -> replies c (snd (m c)) [].
Proof.
  intros Hm. destruct (Hm c) as (rs & L & R).
  destruct rs; [exact R | discriminate].
Qed.

Context (other : slurm_msg -> M Store unit).

(** C5, as amended.  What the handler of a dispatched request sends back.
    Epilog complete, shutdown-immediate and the two accounting
    registrations never send anything.  A batch completion from a caller
    other than the slurm user is dropped without a reply; from the slurm
    user it gets one return-code message or, when the completion went
    through, what [replace_batch_job] sends.  Allocation and batch
    submission send one message, unless the daemon stops on the assertion
    that a job record exists.  An unknown message type gets EINVAL.  Every
    other embedded handler sends exactly one message. *)
Theorem rpc_responses (msg : slurm_msg) (t : rpc_tables) (c : ctld Store) :
  let c' := snd (dispatch H E X other msg t c) in
  match body msg with
  | Req_epilog_complete _ | Req_shutdown_immediate
  | Req_accounting_first_reg | Req_accounting_register_ctld =>
      replies c c' []
  | Req_complete_batch_job m | Req_complete_batch_script m =>
      if validate_slurm_user X (auth_uid msg)
      then exists rs,
             (length rs = 1%nat
              \/ exists s,
                   rs = snd (fst (replace_batch_job X msg
                                    (find_job_record X (cb_job_id m)
                                       (store c)) s)))
             /\ replies c c' rs
      else c' = c
  | Req_resource_allocation _ | Req_submit_batch_job _ =>
      reply_or_abort c c'
  | Req_other ty =>
      ty ∉ other_rpc_types -> replies c c' [Rc_msg (EINVAL E)]
  | _ => exists r, replies c c' [r]
  end.
Proof.
  cbv zeta. unfold dispatch.
  destruct (body msg); rewrite ?snd_bind_ret.
  - apply allocate_resources_replies.
  - apply submit_batch_job_replies.
  - apply sends_none, epilog_complete_sends.
  - apply complete_batch_script_replies.
  - apply complete_batch_script_replies.
  - apply sends_one_exists, step_complete_sends.
  - apply sends_one_exists, node_registration_sends.
  - apply sends_one_exists, sends_emit_send.
  - apply sends_one_exists, ping_sends.
  - apply sends_one_exists, reconfigure_sends.
  - apply sends_one_exists, shutdown_sends.
  - apply sends_one_exists, shutdown_sends.
  - apply sends_none, shutdown_immediate_sends.
  - apply sends_one_exists, takeover_sends.
  - apply sends_one_exists, update_node_sends.
  - apply sends_one_exists, update_partition_sends.
  - apply sends_one_exists, update_partition_sends.
  - apply sends_one_exists, delete_partition_sends.
  - apply sends_one_exists, resv_create_sends.
  - apply sends_one_exists, resv_update_sends.
  - apply sends_one_exists, resv_delete_sends.
  - apply sends_one_exists, dump_stats_sends.
  - apply sends_none, accounting_first_reg_sends.
  - apply sends_none, accounting_register_ctld_sends.
  - intros Hty. rewrite bool_decide_eq_false_2 by exact Hty.
    rewrite snd_bind_ret. reflexivity.
Qed.
End ReplyFacts.


(** C5, counterexample.  An epilog complete message from the slurm user
    (uid 500) is dispatched and carried out, and nothing is sent back. *)
Lemma epilog_complete_gets_no_response :
  let X := Sample.env Sample.no_admins 0 [] false in
  let m := {| Ctld.ec_job_id := 42; Ctld.ec_return_code := 0;
              Ctld.ec_node_name := Some "n1" |} in
  let msg := Sample.request_from 500 (Ctld.Req_epilog_complete m) in
  let c' := snd (Ctld.slurmctld_req Sample.slurm_h_values Sample.errno_values
                   X Sample.other_noop msg 5 RpcStats.rpc_tables_init
                   Sample.ctld0) in
  Ctld.store c' = ["schedule"; "job_epilog_complete"]
  /\ Ctld.sent_of (Ctld.trace c') = [].
Proof. vm_compute. split; reflexivity. Qed.

(** * Further properties of the code *)

(** ** Job and node state macros *)

Section StateOrderFacts.
Import StateMacros.
Context (H : slurm_h).

(** X1.  With JOB_PENDING below JOB_SUSPENDED in the enumeration, the
    job state macros are ordered: a completed job is finished, a finished
    job is started, a pending job is not started, a suspended job is
    started and not finished, and a job that is not started is not
    completed. *)
Theorem job_state_order (job_state : Z) :
  JOB_PENDING H < JOB_SUSPENDED H ->
  (IS_JOB_COMPLETED H job_state = true -> IS_JOB_FINISHED H job_state = true)
  /\ (IS_JOB_FINISHED H job_state = true -> IS_JOB_STARTED H job_state = true)
  /\ (IS_JOB_PENDING H job_state = true -> IS_JOB_STARTED H job_state = false)
  /\ (IS_JOB_SUSPENDED H job_state = true ->
        IS_JOB_STARTED H job_state = true
        /\ IS_JOB_FINISHED H job_state = false)
  /\ (IS_JOB_STARTED H job_state = false ->
        IS_JOB_COMPLETED H job_state = false).
Proof.
  intros Hord.
  unfold IS_JOB_COMPLETED, IS_JOB_FINISHED, IS_JOB_STARTED, IS_JOB_PENDING,
    IS_JOB_SUSPENDED.
  set (b := Z.land job_state (JOB_STATE_BASE H)).
  split; [|split; [|split; [|split]]].
  - intros Hc. now apply andb_true_iff in Hc as [Hc _].
  - rewrite !Z.gtb_lt. lia.
  - rewrite Z.eqb_eq. intros ->.
    destruct (Z.gtb_spec (JOB_PENDING H) (JOB_PENDING H));
      [lia | reflexivity].
  - rewrite Z.eqb_eq. intros ->. split.
    + apply Z.gtb_lt. lia.
    + destruct (Z.gtb_spec (JOB_SUSPENDED H) (JOB_SUSPENDED H));
        [lia | reflexivity].
  - intros Hs. apply andb_false_iff. left.
    destruct (Z.gtb_spec b (JOB_SUSPENDED H)); [|reflexivity].
    destruct (Z.gtb_spec b (JOB_PENDING H)); [discriminate | lia].
Qed.

(** X2.  IS_NODE_DRAIN holds exactly when IS_NODE_DRAINING or
    IS_NODE_DRAINED holds, and these two never hold together; a drained
    node is neither allocated, nor in error, nor mixed. *)
Theorem node_drain_split (node_state : Z) :
  IS_NODE_DRAIN H node_state
    = IS_NODE_DRAINING H node_state || IS_NODE_DRAINED H node_state
  /\ IS_NODE_DRAINING H node_state && IS_NODE_DRAINED H node_state = false
  /\ (IS_NODE_DRAINED H node_state = true ->
        IS_NODE_ALLOCATED H node_state = false
        /\ IS_NODE_ERROR H node_state = false
        /\ IS_NODE_MIXED H node_state = false).
Proof.
  unfold IS_NODE_DRAINED, IS_NODE_DRAINING, IS_NODE_DRAIN.
  destruct (c_true (Z.land node_state (NODE_STATE_DRAIN H)));
    destruct (IS_NODE_ALLOCATED H node_state);
    destruct (IS_NODE_ERROR H node_state);
    destruct (IS_NODE_MIXED H node_state); cbn; repeat split; congruence.
Qed.

Lemma land_lor_disjoint (s f m : Z) :
  Z.land f m = 0 -> Z.land (Z.lor s f) m = Z.land s m.
Proof.
  intros Hd. rewrite Z.land_lor_distr_l, Hd. apply Z.lor_0_r.
Qed.

(** X3.  When the JOB_COMPLETING flag is not zero and shares no bit with
    JOB_STATE_BASE, setting it on a job state leaves IS_JOB_PENDING,
    IS_JOB_SUSPENDED, IS_JOB_STARTED and IS_JOB_FINISHED as they were,
    makes IS_JOB_COMPLETING true and IS_JOB_COMPLETED false. *)
Theorem completing_flag_keeps_base (job_state : Z) :
  Z.land (JOB_COMPLETING H) (JOB_STATE_BASE H) = 0 ->
  JOB_COMPLETING H <> 0 ->
  let s' := Z.lor job_state (JOB_COMPLETING H) in
  IS_JOB_PENDING H s' = IS_JOB_PENDING H job_state
  /\ IS_JOB_SUSPENDED H s' = IS_JOB_SUSPENDED H job_state
  /\ IS_JOB_STARTED H s' = IS_JOB_STARTED H job_state
  /\ IS_JOB_FINISHED H s' = IS_JOB_FINISHED H job_state
  /\ IS_JOB_COMPLETING H s' = true
  /\ IS_JOB_COMPLETED H s' = false.
Proof.
  intros Hd Hnz s'.
  assert (Hb : Z.land s' (JOB_STATE_BASE H)
               = Z.land job_state (JOB_STATE_BASE H))
    by (apply land_lor_disjoint; exact Hd).
  assert (Hc : Z.land s' (JOB_COMPLETING H) = JOB_COMPLETING H).
  { unfold s'. apply Z.bits_inj'. intros n _.
    rewrite Z.land_spec, Z.lor_spec.
    destruct (Z.testbit job_state n), (Z.testbit (JOB_COMPLETING H) n);
      reflexivity. }
  unfold IS_JOB_PENDING, IS_JOB_SUSPENDED, IS_JOB_STARTED, IS_JOB_FINISHED,
    IS_JOB_COMPLETING, IS_JOB_COMPLETED, IS_JOB_FINISHED.
  rewrite Hb, Hc. repeat split.
  - unfold c_true.
    destruct (Z.eqb_spec (JOB_COMPLETING H) 0);
      [contradiction | reflexivity].
  - destruct (Z.eqb_spec (JOB_COMPLETING H) 0); [contradiction|].
    apply andb_false_r.
Qed.
End StateOrderFacts.

Lemma job_state_order_witness :
  JOB_PENDING Sample.slurm_h_values < JOB_SUSPENDED Sample.slurm_h_values
  /\ (StateMacros.IS_JOB_SUSPENDED Sample.slurm_h_values 0x8002 = true ->
      StateMacros.IS_JOB_STARTED Sample.slurm_h_values 0x8002 = true
      /\ StateMacros.IS_JOB_FINISHED Sample.slurm_h_values 0x8002 = false).
Proof.
  assert (Hord : JOB_PENDING Sample.slurm_h_values
                 < JOB_SUSPENDED Sample.slurm_h_values) by (cbn; lia).
  split; [exact Hord|].
  exact (proj1 (proj2 (proj2 (proj2
           (job_state_order Sample.slurm_h_values 0x8002 Hord))))).
Defined.

Lemma completing_flag_keeps_base_witness :
  Z.land (JOB_COMPLETING Sample.slurm_h_values)
    (JOB_STATE_BASE Sample.slurm_h_values) = 0
  /\ JOB_COMPLETING Sample.slurm_h_values <> 0
  /\ StateMacros.IS_JOB_FINISHED Sample.slurm_h_values
       (Z.lor 3 (JOB_COMPLETING Sample.slurm_h_values))
     = StateMacros.IS_JOB_FINISHED Sample.slurm_h_values 3
  /\ StateMacros.IS_JOB_COMPLETED Sample.slurm_h_values
       (Z.lor 3 (JOB_COMPLETING Sample.slurm_h_values)) = false.
Proof.
  assert (Hd : Z.land (JOB_COMPLETING Sample.slurm_h_values)
                 (JOB_STATE_BASE Sample.slurm_h_values) = 0)
    by reflexivity.
  assert (Hnz : JOB_COMPLETING Sample.slurm_h_values <> 0)
    by (cbn; lia).
  split; [exact Hd|]. split; [exact Hnz|].
  destruct (completing_flag_keeps_base Sample.slurm_h_values 3 Hd Hnz)
    as (_ & _ & _ & Hf & _ & Hc).
  split; [exact Hf | exact Hc].
Defined.
(** ** Telemetry tables *)

Section TableInvFacts.
Import RpcStats Ctld Spec TableInv.

Lemma used_prefix_zero (from n : nat) : used_prefix from (replicate n 0).
Proof.
  split.
  - intros j k id Hj Hnz. apply lookup_replicate in Hj as [-> _]. congruence.
  - intros i j id Hi _ Hnz. apply lookup_replicate in Hi as [-> _]. congruence.
Qed.

Lemma used_prefix_nil (from : nat) : used_prefix from [].
Proof. split; intros; discriminate. Qed.

(** Handing the first serving slot to [key] keeps the invariant. *)
Lemma used_prefix_insert (P : nat -> Z -> Prop) (from : nat) (key : Z)
    (ids : list Z) (j : nat) :
  (forall k id, P k id <-> ((id = 0 /\ (from <= k)%nat) \/ id = key)) ->
  used_prefix from ids ->
  first_slot P ids j ->
  used_prefix from (<[j := key]> ids).
Proof.
  intros HP [Hpre Hdis] [(id0 & Hj & Hs) Hfirst].
  apply HP in Hs. destruct Hs as [[-> Hfj] | ->].
  2:{ rewrite list_insert_id by exact Hj. now split. }
  destruct (Z.eq_dec key 0) as [-> | Hk].
  { rewrite list_insert_id by exact Hj. now split. }
  assert (Hlt : (j < length ids)%nat) by (eapply lookup_lt_Some; eauto).
  (* every slot behind [j] is free *)
  assert (Hafter : forall k id, (j < k)%nat -> ids !! k = Some id -> id = 0).
  { intros k id Hjk Hk'. destruct (Z.eq_dec id 0) as [|Hnz]; auto.
    exfalso. apply (Hpre k j id Hk' Hnz); [lia | exact Hj]. }
  (* no slot in front of [j] holds [key] *)
  assert (Hbefore : forall k id, (k < j)%nat -> ids !! k = Some id ->
                                 id <> key).
  { intros k id Hkj Hk' ->. apply (Hfirst k key Hkj Hk'). apply HP. now right. }
  split.
  - intros i k id Hi Hnz Hr.
    destruct (Nat.eq_dec k j) as [-> | Hkj].
    + (* a used slot behind j: impossible *)
      destruct (Nat.eq_dec i j) as [-> | Hij]; [lia|].
      rewrite list_lookup_insert_ne in Hi by auto.
      exfalso. apply Hnz. apply (Hafter i id); [lia | exact Hi].
    + rewrite list_lookup_insert_ne by auto.
      destruct (Nat.eq_dec i j) as [-> | Hij].
      * (* slots in front of j are not free *)
        intros Hk'. apply (Hfirst k 0); [lia | exact Hk' |].
        apply HP. left. split; [reflexivity | lia].
      * rewrite list_lookup_insert_ne in Hi by auto.
        now apply (Hpre i k id).
  - intros a b id Ha Hb Hnz.
    destruct (Nat.eq_dec a j) as [-> | Haj];
      destruct (Nat.eq_dec b j) as [-> | Hbj]; auto.
    + rewrite list_lookup_insert_eq in Ha by exact Hlt. injection Ha as <-.
      rewrite list_lookup_insert_ne in Hb by auto.
      destruct (Nat.lt_ge_cases b j) as [Hlt' | Hge].
      * exfalso. now apply (Hbefore b key Hlt' Hb).
      * exfalso. apply Hnz. apply (Hafter b key); [lia | exact Hb].
    + rewrite list_lookup_insert_eq in Hb by exact Hlt. injection Hb as <-.
      rewrite list_lookup_insert_ne in Ha by auto.
      destruct (Nat.lt_ge_cases a j) as [Hlt' | Hge].
      * exfalso. now apply (Hbefore a key Hlt' Ha).
      * exfalso. apply Hnz. apply (Hafter a key); [lia | exact Ha].
    + rewrite list_lookup_insert_ne in Ha, Hb by auto.
      now apply (Hdis a b id).
Qed.


Context (H : slurm_h) (E : slurm_errno_h).

Lemma scan_keeps_type_prefix (key : Z) (ids : list Z) :
  used_prefix 0 ids ->
  used_prefix 0 (fst (type_scan (length ids) 0 ids key)).
Proof.
  intros Hu.
  destruct (type_scan_spec key (length ids) 0 ids eq_refl)
    as [(j & _ & Hf & ->) | (_ & _ & ->)]; auto.
  { intros k id Hk. lia. }
  apply (used_prefix_insert (type_slot key)); auto.
  intros k id. unfold type_slot. split; intros [A | A]; auto.
  - left. split; [exact A | lia].
  - left. tauto.
Qed.

Lemma scan_keeps_user_prefix (uid : Z) (ids : list Z) :
  used_prefix 1 ids ->
  used_prefix 1 (fst (user_scan (length ids) 0 ids uid)).
Proof.
  intros Hu.
  destruct (user_scan_spec uid (length ids) 0 ids eq_refl)
    as [(j & _ & Hf & ->) | (_ & _ & ->)]; auto.
  { intros k id Hk. lia. }
  apply (used_prefix_insert (user_slot uid)); auto.
  intros k id. unfold user_slot. split; intros [A | A]; auto.
  - left. split; [tauto | lia].
  - left. split; [tauto | lia].
Qed.

(** In every reachable state the slots in use form a prefix of each table
    (behind the reserved slot 0 of the per-user table) and hold pairwise
    distinct ids. *)
Lemma reachable_used_prefix (t : rpc_tables) :
  reachable H E t ->
  used_prefix 0 (rpc_type_id t) /\ used_prefix 1 (rpc_user_id t).
Proof.
  induction 1 as [| t Store X other msg delta c Hr [IHt IHu] | t Hr IH].
  - split; apply used_prefix_nil.
  - destruct (reachable_slot0 H E t Hr) as [Hok _].
    rewrite slurmctld_req_tables.
    destruct (negb (auth_errno msg =? SLURM_SUCCESS)); [now split|].
    cbv zeta.
    set (b := rpc_stats_begin (msg_type msg) (u32 (auth_uid msg)) t).
    pose proof (begin_allocated (msg_type msg) (u32 (auth_uid msg)) t Hok)
      as Hb. fold b in Hb.
    destruct (stats_reset_granted H X msg).
    + destruct (rpc_stats_end_fields (fst (snd b)) (snd (snd b)) delta
                  (_clear_rpc_stats (fst b)))
        as (_ & F2 & _ & _ & _ & F6 & _ & _).
      rewrite F2, F6.
      destruct (clear_rpc_stats_spec (fst b) (or_intror Hb))
        as ((Z1 & _ & _ & Z4 & _ & _) & _ & _).
      rewrite Z1, Z4. split; apply used_prefix_zero.
    + destruct (rpc_stats_end_fields (fst (snd b)) (snd (snd b)) delta
                  (fst b))
        as (_ & F2 & _ & _ & _ & F6 & _ & _).
      rewrite F2, F6. subst b. rewrite rpc_stats_begin_eq. cbn [fst].
      cbn [rpc_type_id rpc_user_id].
      pose proof (alloc_tables_ok t Hok) as [A1 A2 _ _ A5 A6 _ _].
      set (t0 := alloc_user_table (alloc_type_table t)) in *.
      assert (Ht0 : used_prefix 0 (rpc_type_id t0)
                    /\ used_prefix 1 (rpc_user_id t0)).
      { subst t0. destruct Hok as [-> | Ha].
        - split; apply used_prefix_zero.
        - pose proof Ha as [B1 _ _ _ B5 _ _ _].
          unfold alloc_type_table. rewrite B1. cbn.
          unfold alloc_user_table. rewrite B5. cbn. now split. }
      destruct Ht0 as [T0 U0].
      split.
      * rewrite A1, <- A2. now apply scan_keeps_type_prefix.
      * rewrite A5, <- A6. now apply scan_keeps_user_prefix.
  - split; apply used_prefix_nil.
Qed.

(** X4.  In every state of the telemetry tables that [slurmctld_req] and
    [free_rpc_stats] can lead to, no request type other than 0 is held by
    two slots of the per-type table, and no user id other than 0 by two
    slots of the per-user table. *)
Theorem one_slot_per_id (t : rpc_tables) :
  reachable H E t ->
  (forall i j id, rpc_type_id t !! i = Some id ->
                  rpc_type_id t !! j = Some id -> id <> 0 -> i = j)
  /\ (forall i j id, rpc_user_id t !! i = Some id ->
                     rpc_user_id t !! j = Some id -> id <> 0 -> i = j).
Proof.
  intros Hr. destruct (reachable_used_prefix t Hr) as [[_ Ht] [_ Hu]].
  split; assumption.
Qed.

End TableInvFacts.

Lemma one_slot_per_id_witness :
  let X := Sample.env Sample.no_admins 0 [] false in
  let t1 := fst (Ctld.slurmctld_req Sample.slurm_h_values Sample.errno_values
                   X Sample.other_noop
                   (Sample.request_from 1000 Ctld.Req_ping) 7
                   RpcStats.rpc_tables_init Sample.ctld0) in
  Spec.reachable Sample.slurm_h_values Sample.errno_values t1
  /\ forall i j id, RpcStats.rpc_user_id t1 !! i = Some id ->
                    RpcStats.rpc_user_id t1 !! j = Some id ->
                    id <> 0 -> i = j.
Proof.
  intros X t1.
  assert (Hr : Spec.reachable Sample.slurm_h_values Sample.errno_values t1).
  { apply Spec.reach_req, Spec.reach_init. }
  split; [exact Hr|].
  exact (proj2 (one_slot_per_id Sample.slurm_h_values Sample.errno_values
                  t1 Hr)).
Defined.

Section ResetFacts.
Import RpcStats Ctld Spec.
Context (H : slurm_h) (E : slurm_errno_h).
Context {Store : Type} (X : ctld_env Store).
Context (other : slurm_msg -> M Store unit).


End ResetFacts.

(** ** Identity checks *)

Section LevelFacts.
Import Ctld.
Context (H : slurm_h).
Context {Store : Type} (X : ctld_env Store).

(** X7.  With SLURMDB_ADMIN_OPERATOR not above SLURMDB_ADMIN_SUPER_USER:
    [validate_slurm_user] accepts exactly uid 0 and the uid of the daemon;
    whoever it accepts, [validate_super_user] accepts, and whoever that
    accepts, [validate_operator] accepts; a uid that [validate_operator]
    rejects is neither 0 nor the daemon's and has an admin level below
    operator. *)
Theorem identity_levels (uid : Z) :
  SLURMDB_ADMIN_OPERATOR H <= SLURMDB_ADMIN_SUPER_USER H ->
  (validate_slurm_user X uid = true <-> uid = 0 \/ uid = getuid X)
  /\ (validate_slurm_user X uid = true ->
      validate_super_user H X uid = true)
  /\ (validate_super_user H X uid = true ->
      validate_operator H X uid = true)
  /\ (validate_operator H X uid = false ->
      uid <> 0 /\ uid <> getuid X
      /\ assoc_mgr_get_admin_level X uid < SLURMDB_ADMIN_OPERATOR H).
Proof.
  intros Hord.
  unfold validate_slurm_user, validate_super_user, validate_operator.
  destruct (Z.eqb_spec uid 0) as [H0 | H0];
    destruct (Z.eqb_spec uid (getuid X)) as [H1 | H1]; cbn [orb];
    try (repeat split; intros; try tauto; try discriminate; fail).
  destruct (Z.geb_spec (assoc_mgr_get_admin_level X uid)
              (SLURMDB_ADMIN_SUPER_USER H)) as [Hs | Hs];
    destruct (Z.geb_spec (assoc_mgr_get_admin_level X uid)
                (SLURMDB_ADMIN_OPERATOR H)) as [Ho | Ho];
    repeat split; intros; try tauto; try discriminate; try lia.
Qed.
End LevelFacts.

Lemma identity_levels_witness :
  let X := Sample.env Sample.operator_2000 0 [] false in
  SLURMDB_ADMIN_OPERATOR Sample.slurm_h_values
    <= SLURMDB_ADMIN_SUPER_USER Sample.slurm_h_values
  /\ (Ctld.validate_slurm_user X 500 = true ->
      Ctld.validate_super_user Sample.slurm_h_values X 500 = true).
Proof.
  intros X.
  assert (Hord : SLURMDB_ADMIN_OPERATOR Sample.slurm_h_values
                 <= SLURMDB_ADMIN_SUPER_USER Sample.slurm_h_values)
    by (cbn; lia).
  split; [exact Hord|].
  exact (proj1 (proj2
           (identity_levels Sample.slurm_h_values X 500 Hord))).
Defined.
(** ** C integers *)

Lemma to_int_small (x : Z) : - 2 ^ 31 <= x < 2 ^ 31 -> CInt.to_int x = x.
Proof.
  intros Hx. unfold CInt.to_int.
  rewrite Z.mod_small by lia. lia.
Qed.


(** ** Handlers *)

Lemma c_true_nonzero (a : Z) : a <> 0 -> StateMacros.c_true a = true.
Proof. intros Ha. now apply c_true_iff. Qed.

Ltac run_handler :=
  unfold Ctld.exec, Ctld.bind, Ctld.get, Ctld.put, Ctld.call, Ctld.call_,
    Ctld.look, Ctld.emit, Ctld.ret, Ctld.skip, Ctld.with_store,
    Ctld.with_trace, Ctld.with_diag, Ctld.with_in_progress,
    Ctld.with_shutdown_time, Ctld.with_resume_backup,
    Ctld.with_defer_sched;
  cbn.

Section AdminFacts.
Import StateMacros RpcStats Ctld Spec.
Context (H : slurm_h) (E : slurm_errno_h).
Context {Store : Type} (X : ctld_env Store).

(** X8.  [_slurm_rpc_reconfigure_controller], error codes being distinct
    from SLURM_SUCCESS: the function-local flag [in_progress] has the same
    value after the request as before; while the flag is set or a shutdown
    is under way the only effect is the reply EINPROGRESS, whoever sent
    the request; and when [read_slurm_conf] fails for a super user, the
    scheduler plugin is still notified, the missing uids are set, power
    management is started and the reconfigure trigger is pulled, then the
    code of [read_slurm_conf] is the reply: the credential key and the
    state location are not updated, the slurmd daemons are not told, and
    no state is saved. *)
Theorem reconfigure_guard (msg : slurm_msg) (c : ctld Store) :
  errno_wf E ->
  in_progress (exec (_slurm_rpc_reconfigure_controller H E X msg) c)
    = in_progress c
  /\ (in_progress c || c_true (shutdown_time c) = true ->
      exec (_slurm_rpc_reconfigure_controller H E X msg) c =
        with_trace c (Send (Rc_msg (EINPROGRESS E)) :: trace c))
  /\ (forall rc s1,
        in_progress c || c_true (shutdown_time c) = false ->
        validate_super_user H X (auth_uid msg) = true ->
        read_slurm_conf X 1 true (store c) = (rc, s1) ->
        rc <> SLURM_SUCCESS ->
        let c' := exec (_slurm_rpc_reconfigure_controller H E X msg) c in
        store c' = s1
        /\ trace c' = Send (Rc_msg rc) :: Trigger_reconfig
                      :: Start_power_mgr :: Assoc_mgr_set_missing_uids
                      :: Sched_partition_change :: trace c).
Proof.
  intros Hwf.
  assert (Hp : c_true (EINPROGRESS E) = true)
    by (apply c_true_nonzero; change 0 with SLURM_SUCCESS; errno_ne).
  assert (Hpz : (EINPROGRESS E =? SLURM_SUCCESS) = false)
    by (errno_eqb; reflexivity).
  assert (Hm : c_true (ESLURM_USER_ID_MISSING E) = true)
    by (apply c_true_nonzero; change 0 with SLURM_SUCCESS; errno_ne).
  assert (Hz : (ESLURM_USER_ID_MISSING E =? SLURM_SUCCESS) = false)
    by (errno_eqb; reflexivity).
  assert (Hbusy : in_progress c || c_true (shutdown_time c) = true ->
      exec (_slurm_rpc_reconfigure_controller H E X msg) c =
        with_trace c (Send (Rc_msg (EINPROGRESS E)) :: trace c)).
  { intros Hb. unfold _slurm_rpc_reconfigure_controller. cbv zeta.
    unfold exec, bind at 1, get at 1. rewrite Hb, Hpz.
    unfold bind, ret. rewrite Hp. reflexivity. }
  split; [|split].
  - destruct (in_progress c || c_true (shutdown_time c)) eqn:Hb.
    + now rewrite Hbusy.
    + apply orb_false_iff in Hb as [Hip Hst]. rewrite Hip.
      unfold _slurm_rpc_reconfigure_controller. cbv zeta.
      unfold exec, bind at 1, get at 1. rewrite Hip, Hst.
      cbn [orb].
      destruct (validate_super_user H X (auth_uid msg)); cbn [negb].
      * rewrite Z.eqb_refl.
        unfold bind at 1. unfold bind at 1. unfold put at 1.
        unfold bind at 1. unfold call at 1.
        destruct (read_slurm_conf X 1 true _) as [rc s1].
        destruct (rc =? SLURM_SUCCESS); unfold bind, put, emit, ret; cbn;
          destruct (c_true rc); reflexivity.
      * rewrite Hz. unfold bind, ret. rewrite Hm. cbn. exact Hip.
  - exact Hbusy.
  - intros rc s1 Hb Hs Hread Hrc c'. subst c'.
    destruct c as [s tr dg ip st rb tid clu spd ds]. cbn in Hb, Hread.
    unfold _slurm_rpc_reconfigure_controller, exec, bind, get, put, call,
      emit, ret, skip, with_in_progress, with_store, with_trace.
    cbn. rewrite Hb, Hs. cbn. rewrite Hread.
    pose proof (proj2 (Z.eqb_neq rc SLURM_SUCCESS) Hrc) as Hrz.
    rewrite Hrz. cbn. rewrite (c_true_nonzero rc Hrc). cbn.
    split; reflexivity.
Qed.
End AdminFacts.

Lemma reconfigure_guard_witness :
  let X := Sample.env Sample.no_admins 0 [] false in
  let msg := Sample.request_from 0 Ctld.Req_reconfigure in
  let c := Ctld.with_shutdown_time Sample.ctld0 1000 in
  errno_wf Sample.errno_values
  /\ Ctld.exec (Ctld._slurm_rpc_reconfigure_controller Sample.slurm_h_values
                  Sample.errno_values X msg) c
     = Ctld.with_trace c
         (Ctld.Send (Ctld.Rc_msg (EINPROGRESS Sample.errno_values))
          :: Ctld.trace c).
Proof.
  intros X msg c. split; [exact errno_values_wf|].
  exact (proj1 (proj2 (reconfigure_guard Sample.slurm_h_values
                         Sample.errno_values X msg c errno_values_wf))
           eq_refl).
Defined.
Section ShutdownFacts.
Import StateMacros RpcStats Ctld Spec.
Context (H : slurm_h) (E : slurm_errno_h).
Context {Store : Type} (X : ctld_env Store).

(** X9.  [_slurm_rpc_shutdown_controller] for a super user.  With
    options 1 it only replies SLURM_SUCCESS and then signals SIGABRT to
    the signal thread (when there is one); with other options, when a
    shutdown is already under way it only replies; otherwise it asks the
    slurmd daemons to shut down only with options 0, signals SIGTERM or,
    without a signal thread, sets the shutdown time and calls
    [slurmctld_shutdown], and then replies SLURM_SUCCESS, the store being
    left as it is.  REQUEST_CONTROL sets [resume_backup], sends nothing
    to the slurmd daemons and starts the shutdown unless one is under
    way. *)
Theorem shutdown_modes (msg : slurm_msg) (c : ctld Store) :
  validate_super_user H X (auth_uid msg) = true ->
  (* immediate shutdown without state save *)
  (forall m, body msg = Req_shutdown m -> sd_options m = 1 ->
     exec (_slurm_rpc_shutdown_controller H E X msg (Some m)) c =
       with_trace c
         ((if c_true (thread_id_sig c) then [Pthread_kill SIGABRT] else [])
          ++ Send (Rc_msg SLURM_SUCCESS) :: trace c))
  (* a shutdown is already under way *)
  /\ (forall m, body msg = Req_shutdown m -> sd_options m <> 1 ->
        shutdown_time c <> 0 ->
        exec (_slurm_rpc_shutdown_controller H E X msg (Some m)) c =
          with_trace c (Send (Rc_msg SLURM_SUCCESS) :: trace c))
  (* orderly shutdown *)
  /\ (forall m, body msg = Req_shutdown m -> sd_options m <> 1 ->
        shutdown_time c = 0 ->
        let c' := exec (_slurm_rpc_shutdown_controller H E X msg (Some m)) c
        in
        store c' = store c /\ resume_backup c' = resume_backup c
        /\ trace c' =
             Send (Rc_msg SLURM_SUCCESS)
             :: (if c_true (thread_id_sig c) then Pthread_kill SIGTERM
                 else Slurmctld_shutdown)
             :: (if sd_options m =? 0
                 then [Msg_to_slurmd MsgType.REQUEST_SHUTDOWN] else [])
             ++ trace c
        /\ shutdown_time c' =
             if c_true (thread_id_sig c) then 0 else now X)
  (* REQUEST_CONTROL: the backup controller resumes *)
  /\ (body msg = Req_control ->
        let c' := exec (_slurm_rpc_shutdown_controller H E X msg None) c in
        store c' = store c /\ resume_backup c' = true
        /\ trace c' =
             Send (Rc_msg SLURM_SUCCESS)
             :: (if c_true (shutdown_time c) then []
                 else if c_true (thread_id_sig c)
                      then [Pthread_kill SIGTERM]
                      else [Slurmctld_shutdown])
             ++ trace c).
Proof.
  intros Hs.
  destruct c as [s tr dg ip st rb tid clu spd ds].
  unfold _slurm_rpc_shutdown_controller, msg_type.
  split; [|split; [|split]].
  - intros m Hb Ho. rewrite Hb, Hs, Ho. run_handler.
    destruct (c_true tid); reflexivity.
  - intros m Hb Ho Hd. rewrite Hb, Hs. run_handler.
    rewrite (proj2 (Z.eqb_neq _ _) Ho), (c_true_nonzero st Hd).
    cbn. rewrite ?andb_false_r. reflexivity.
  - intros m Hb Ho Hd. cbn in Hd. subst st. rewrite Hb, Hs. run_handler.
    rewrite (proj2 (Z.eqb_neq _ _) Ho). cbn.
    destruct (c_true tid); cbn; rewrite ?andb_false_r;
      destruct (sd_options m =? 0); repeat split; reflexivity.
  - intros Hb. rewrite Hb, Hs. run_handler.
    destruct (c_true st); [repeat split; reflexivity|].
    destruct (c_true tid); repeat split; reflexivity.
Qed.
End ShutdownFacts.

Lemma shutdown_modes_witness :
  let X := Sample.env Sample.no_admins 0 [] false in
  let m := {| Ctld.sd_options := 1 |} in
  let msg := Sample.request_from 0 (Ctld.Req_shutdown m) in
  Ctld.validate_super_user Sample.slurm_h_values X (Ctld.auth_uid msg) = true
  /\ Ctld.exec (Ctld._slurm_rpc_shutdown_controller Sample.slurm_h_values
                  Sample.errno_values X msg (Some m)) Sample.ctld0
     = Ctld.with_trace Sample.ctld0
         [Ctld.Pthread_kill Ctld.SIGABRT;
          Ctld.Send (Ctld.Rc_msg SLURM_SUCCESS)].
Proof.
  intros X m msg.
  assert (Hs : Ctld.validate_super_user Sample.slurm_h_values X
                 (Ctld.auth_uid msg) = true) by reflexivity.
  split; [exact Hs|].
  exact (proj1 (shutdown_modes Sample.slurm_h_values Sample.errno_values X
                  msg Sample.ctld0 Hs) m eq_refl eq_refl).
Defined.
Section NodeMessageFacts.
Import StateMacros RpcStats Ctld Spec.
Context (H : slurm_h) (E : slurm_errno_h).
Context {Store : Type} (X : ctld_env Store).

(** X10.  A batch completion that the slurm user sends for a job found in
    the store, from a node other than the job's batch host, is answered
    SLURM_SUCCESS and changes nothing: no accounting record, no node
    drained, no job completed, no counter touched. *)
Theorem batch_complete_from_other_node (msg : slurm_msg)
    (comp_msg : complete_batch_script_msg) (c : ctld Store)
    (job_ptr : job_record) (host node : string) :
  validate_slurm_user X (auth_uid msg) = true ->
  find_job_record X (cb_job_id comp_msg) (store c) = Some job_ptr ->
  batch_host job_ptr = Some host ->
  cb_node_name comp_msg = Some node ->
  host <> node ->
  exec (_slurm_rpc_complete_batch_script H E X msg comp_msg) c =
    with_trace c (Send (Rc_msg SLURM_SUCCESS) :: trace c).
Proof.
  intros Hu Hf Hh Hn Hne.
  destruct c as [s tr dg ip st rb tid clu spd ds]. cbn in Hf.
  unfold _slurm_rpc_complete_batch_script. rewrite Hu. run_handler.
  rewrite Hf. unfold batch_from_wrong_node. rewrite Hh, Hn.
  rewrite (proj2 (String.eqb_neq host node) Hne). reflexivity.
Qed.

(** X12.  [_slurm_rpc_step_complete] when [step_partial_comp] succeeds.
    While nodes of the step remain, the reply is SLURM_SUCCESS, a job
    state save is scheduled and neither the job nor the step is completed.
    Once none remains, [job_complete] is called for the batch script step
    and [job_step_complete] for any other, with the step's return code; a
    nonzero result is the reply, without a state save; otherwise the reply
    is SLURM_SUCCESS and a job state save is scheduled. *)
Theorem step_complete_outcomes (msg : slurm_msg) (req : step_complete_msg)
    (c : ctld Store) (rem step_rc : Z) (s1 : Store) :
  step_partial_comp X req (auth_uid msg) (store c)
    = ((SLURM_SUCCESS, rem, step_rc), s1) ->
  let c' := exec (_slurm_rpc_step_complete H X msg req) c in
  (rem <> 0 ->
     c' = with_trace (with_store c s1)
            (Schedule_job_save :: Send (Rc_msg SLURM_SUCCESS) :: trace c))
  /\ (rem = 0 ->
      forall rc s2,
        (if sc_job_step_id req =? SLURM_BATCH_SCRIPT H
         then job_complete X (sc_job_id req) (auth_uid msg) false false
                step_rc s1
         else job_step_complete X (sc_job_id req) (sc_job_step_id req)
                (auth_uid msg) false step_rc s1) = (rc, s2) ->
        c' = with_trace (with_store c s2)
               (if c_true rc then Send (Rc_msg rc) :: trace c
                else Schedule_job_save :: Send (Rc_msg SLURM_SUCCESS)
                     :: trace c)).
Proof.
  intros Hp c'. subst c'.
  destruct c as [s tr dg ip st rb tid clu spd ds]. cbn in Hp.
  unfold _slurm_rpc_step_complete. run_handler. rewrite Hp.
  split.
  - intros Hrem. rewrite (c_true_nonzero rem Hrem). reflexivity.
  - intros -> rc s2 Hdone. cbn.
    destruct (sc_job_step_id req =? SLURM_BATCH_SCRIPT H);
      cbn; rewrite Hdone; destruct (c_true rc); reflexivity.
Qed.
End NodeMessageFacts.

Lemma batch_complete_from_other_node_witness :
  let job := Sample.sample_job 7 1 in
  let X := Sample.env Sample.no_admins 0 [job] false in
  let comp_msg := {| Ctld.cb_job_id := 7; Ctld.cb_job_rc := 0;
                     Ctld.cb_slurm_rc := 0;
                     Ctld.cb_node_name := Some "n2";
                     Ctld.cb_user_id := 1000 |} in
  let msg := Sample.request_from 0 (Ctld.Req_complete_batch_script comp_msg) in
  Ctld.validate_slurm_user X (Ctld.auth_uid msg) = true
  /\ Ctld.find_job_record X 7 (Ctld.store Sample.ctld0) = Some job
  /\ Ctld.batch_host job = Some "n1"
  /\ "n1" <> "n2"
  /\ Ctld.exec (Ctld._slurm_rpc_complete_batch_script Sample.slurm_h_values
                  Sample.errno_values X msg comp_msg) Sample.ctld0
     = Ctld.with_trace Sample.ctld0 [Ctld.Send (Ctld.Rc_msg SLURM_SUCCESS)].
Proof.
  intros job X comp_msg msg.
  assert (Hu : Ctld.validate_slurm_user X (Ctld.auth_uid msg) = true)
    by reflexivity.
  assert (Hf : Ctld.find_job_record X (Ctld.cb_job_id comp_msg)
                 (Ctld.store Sample.ctld0) = Some job) by reflexivity.
  assert (Hne : "n1" <> "n2") by discriminate.
  split; [exact Hu|]. split; [exact Hf|]. split; [reflexivity|].
  split; [exact Hne|].
  exact (batch_complete_from_other_node Sample.slurm_h_values
           Sample.errno_values X msg comp_msg Sample.ctld0 job "n1" "n2"
           Hu Hf eq_refl eq_refl Hne).
Defined.

Lemma step_complete_outcomes_witness :
  let X := Sample.env Sample.no_admins 0 [] false in
  let req := {| Ctld.sc_job_id := 7; Ctld.sc_job_step_id := 0;
                Ctld.sc_range_first := 0; Ctld.sc_range_last := 1;
                Ctld.sc_step_rc := 0 |} in
  let msg := Sample.request_from 0 (Ctld.Req_step_complete req) in
  Ctld.step_partial_comp X req (Ctld.auth_uid msg) (Ctld.store Sample.ctld0)
    = ((SLURM_SUCCESS, 0, 0), ["step_partial_comp"])
  /\ Ctld.exec (Ctld._slurm_rpc_step_complete Sample.slurm_h_values X msg
                  req) Sample.ctld0
     = Ctld.with_trace
         (Ctld.with_store Sample.ctld0
            ["job_step_complete"; "step_partial_comp"])
         [Ctld.Schedule_job_save; Ctld.Send (Ctld.Rc_msg SLURM_SUCCESS)].
Proof.
  intros X req msg.
  assert (Hp : Ctld.step_partial_comp X req (Ctld.auth_uid msg)
                 (Ctld.store Sample.ctld0)
               = ((SLURM_SUCCESS, 0, 0), ["step_partial_comp"]))
    by reflexivity.
  split; [exact Hp|].
  exact (proj2 (step_complete_outcomes Sample.slurm_h_values X msg req
                  Sample.ctld0 0 0 ["step_partial_comp"] Hp)
           eq_refl SLURM_SUCCESS
           ["job_step_complete"; "step_partial_comp"] eq_refl).
Defined.
Section BatchReplyFacts.
Import StateMacros RpcStats Ctld Spec.
Context (H : slurm_h) (E : slurm_errno_h).
Context {Store : Type} (X : ctld_env Store).

Lemma emit_sends_eq (rs : list response) (c : ctld Store) :
  emit_sends rs c = (tt, with_trace c (rev (map Send rs) ++ trace c)).
Proof.
  revert c. induction rs as [|r rs IH]; intros c; cbn [emit_sends].
  - destruct c; reflexivity.
  - unfold bind, emit. rewrite IH. cbn [map rev].
    rewrite <- app_assoc. destruct c; reflexivity.
Qed.

Lemma sent_of_sends (rs : list response) (t : list event) :
  sent_of (rev (map Send rs) ++ t) = sent_of t ++ rs.
Proof.
  induction rs as [|r rs IH] using rev_ind.
  - cbn. now rewrite app_nil_r.
  - rewrite map_app, rev_app_distr. cbn [map rev app sent_of].
    now rewrite IH, app_assoc.
Qed.

(** X11.  The end of [_slurm_rpc_complete_batch_script], when no block is
    to be updated: the code is the larger of the earlier error code and
    the result of [job_complete].  A nonzero code is the only reply and
    the counter of completed jobs stays as it is; with code 0 the counter
    grows by one, the replies are those of [replace_batch_job], and the
    scheduler runs exactly when [replace_batch_job] asks for it.  A
    negative result of [job_complete] with no earlier error therefore
    counts as success. *)
Theorem batch_complete_reply_code (msg : slurm_msg)
    (comp_msg : complete_batch_script_msg) (job_ptr : option job_record)
    (o : batch_rc_outcome) (c : ctld Store) (i : Z) (s1 : Store) :
  bo_block_id o = None ->
  let s0 := if msg_type msg =? MsgType.REQUEST_COMPLETE_BATCH_JOB
            then snd (job_epilog_complete X (cb_job_id comp_msg)
                        (cb_node_name comp_msg) 0 (store c))
            else store c in
  job_complete X (cb_job_id comp_msg) (auth_uid msg) (bo_job_requeue o)
    false (cb_job_rc comp_msg) s0 = (i, s1) ->
  let code := Z.max (bo_error_code o) i in
  let c' := exec (batch_mark_complete X msg comp_msg job_ptr o) c in
  (code <> 0 ->
     store c' = s1 /\ diag c' = diag c
     /\ sent_of (trace c') = sent_of (trace c) ++ [Rc_msg code])
  /\ (code = 0 ->
      jobs_completed (diag c') = jobs_completed (diag c) + 1
      /\ jobs_failed (diag c') = jobs_failed (diag c)
      /\ forall run_sched rs s2,
           replace_batch_job X msg job_ptr s1 = ((run_sched, rs), s2) ->
           store c' = (if run_sched then schedule X 0 s2 else s2)
           /\ sent_of (trace c') = sent_of (trace c) ++ rs).
Proof.
  intros Hblk s0 Hjc code c'. subst c'.
  destruct c as [s tr dg ip st rb tid clu spd ds]. cbn [store diag trace] in *.
  assert (Heq :
    batch_mark_complete X msg comp_msg job_ptr o
      {| store := s; trace := tr; diag := dg; in_progress := ip;
         shutdown_time := st; resume_backup := rb; thread_id_sig := tid;
         conf_last_update := clu; sched_params_defer := spd;
         defer_sched := ds |}
    = bind (if c_true code then
              bind (emit (Send (Rc_msg code)))
                (fun _ => ret (false, bo_dump_job o))
            else
              bind (put (fun c => with_diag c
                      {| jobs_failed := jobs_failed (diag c);
                         jobs_completed := jobs_completed (diag c) + 1 |}))
                (fun _ => bind (call (replace_batch_job X msg job_ptr))
                   (fun rb0 => bind (emit_sends (snd rb0))
                      (fun _ => ret (fst rb0, true)))))
        (fun r => let '(run_sched, dump_job) := r in
           bind (if run_sched : bool then call_ (schedule X 0) else skip)
             (fun _ => bind (if dump_job : bool then emit Schedule_job_save
                             else skip)
                (fun _ => if bo_dump_node o then emit Schedule_node_save
                          else skip)))
        {| store := s1; trace := tr; diag := dg; in_progress := ip;
           shutdown_time := st; resume_backup := rb; thread_id_sig := tid;
           conf_last_update := clu; sched_params_defer := spd;
           defer_sched := ds |}).
  { unfold batch_mark_complete. rewrite Hblk. subst s0 code.
    destruct (msg_type msg =? MsgType.REQUEST_COMPLETE_BATCH_JOB).
    - destruct (job_epilog_complete X (cb_job_id comp_msg)
                  (cb_node_name comp_msg) 0 s) as [x s0] eqn:Hep.
      cbn [snd] in Hjc.
      unfold bind at 1. unfold bind at 1. unfold call at 1.
      cbn [store with_store]. rewrite Hep. unfold skip at 1, ret at 1.
      unfold bind at 1. unfold call at 1. cbn [store with_store].
      rewrite Hjc. unfold bind at 1. unfold ret at 1. reflexivity.
    - unfold bind at 1. unfold skip at 1, ret at 1.
      unfold bind at 1. unfold call at 1. cbn [store with_store].
      rewrite Hjc. unfold bind at 1. unfold ret at 1. reflexivity. }
  unfold exec. rewrite Heq. clear Heq. split.
  - intros Hcode.
    assert (Hc : c_true code = true) by now apply c_true_iff.
    rewrite Hc. run_handler.
    destruct (bo_dump_job o), (bo_dump_node o); cbn; repeat split.
  - intros Hcode. rewrite Hcode. cbn [c_true Z.eqb negb].
    assert (Hgen : forall run_sched rs s2,
      replace_batch_job X msg job_ptr s1 = ((run_sched, rs), s2) ->
      let c2 := snd (bind
        (bind (put (fun c => with_diag c
                 {| jobs_failed := jobs_failed (diag c);
                    jobs_completed := jobs_completed (diag c) + 1 |}))
           (fun _ => bind (call (replace_batch_job X msg job_ptr))
              (fun rb0 => bind (emit_sends (snd rb0))
                 (fun _ => ret (fst rb0, true)))))
        (fun r => let '(run_sched, dump_job) := r in
           bind (if run_sched : bool then call_ (schedule X 0) else skip)
             (fun _ => bind (if dump_job : bool then emit Schedule_job_save
                             else skip)
                (fun _ => if bo_dump_node o then emit Schedule_node_save
                          else skip)))
        {| store := s1; trace := tr; diag := dg; in_progress := ip;
           shutdown_time := st; resume_backup := rb; thread_id_sig := tid;
           conf_last_update := clu; sched_params_defer := spd;
           defer_sched := ds |}) in
      jobs_completed (diag c2) = jobs_completed dg + 1
      /\ jobs_failed (diag c2) = jobs_failed dg
      /\ store c2 = (if run_sched then schedule X 0 s2 else s2)
      /\ sent_of (trace c2) = sent_of tr ++ rs).
    { intros run_sched rs s2 Hrb. cbv zeta.
      unfold bind, put, call. cbn [store with_diag with_store diag].
      rewrite Hrb. cbn [snd fst]. rewrite emit_sends_eq.
      destruct run_sched, (bo_dump_node o);
        unfold bind, ret, call_, skip, emit, put, ret;
        cbn [fst snd store trace diag with_trace with_store with_diag
             jobs_completed jobs_failed sent_of];
        rewrite ?sent_of_sends; repeat split. }
    destruct (replace_batch_job X msg job_ptr s1) as [[run_sched rs] s2]
      eqn:Hrb.
    destruct (Hgen run_sched rs s2 eq_refl) as (A1 & A2 & A3 & A4).
    split; [exact A1|]. split; [exact A2|].
    intros run_sched' rs' s2' Heq'. inversion Heq'; subst.
    split; [exact A3 | exact A4].
Qed.
End BatchReplyFacts.

Lemma batch_complete_reply_code_witness :
  let X := Sample.env Sample.no_admins 0 [] false in
  let comp_msg := {| Ctld.cb_job_id := 7; Ctld.cb_job_rc := 0;
                     Ctld.cb_slurm_rc := 0;
                     Ctld.cb_node_name := Some "n1";
                     Ctld.cb_user_id := 1000 |} in
  let msg := Sample.request_from 0 (Ctld.Req_complete_batch_script comp_msg) in
  let o := {| Ctld.bo_slurm_rc := 0; Ctld.bo_error_code := 0;
              Ctld.bo_job_requeue := false; Ctld.bo_dump_job := false;
              Ctld.bo_dump_node := false; Ctld.bo_block_id := None |} in
  let c' := Ctld.exec (Ctld.batch_mark_complete X msg comp_msg None o)
              Sample.ctld0 in
  Ctld.bo_block_id o = None
  /\ Ctld.job_complete X 7 0 false false 0 [] = (0, ["job_complete"])
  /\ Ctld.jobs_completed (Ctld.diag c') = 1
  /\ Ctld.jobs_failed (Ctld.diag c') = 0.
Proof.
  intros X comp_msg msg o c'.
  assert (Hb : Ctld.bo_block_id o = None) by reflexivity.
  assert (Hj : Ctld.job_complete X 7 0 false false 0 []
               = (0, ["job_complete"])) by reflexivity.
  split; [exact Hb|]. split; [exact Hj|].
  destruct (proj2 (batch_complete_reply_code X msg comp_msg None o
                     Sample.ctld0 0 ["job_complete"] Hb Hj) eq_refl)
    as (Hc & Hf & _).
  split; [exact Hc | exact Hf].
Defined.
Section EpilogFacts.
Import StateMacros RpcStats Ctld Spec.
Context {Store : Type} (X : ctld_env Store).

(** X13.  [_slurm_rpc_epilog_complete] from the slurm user: the cached
    defer setting is read again from the scheduler parameters on every
    request for which the configuration's last-update time is not 0 (the
    static [config_update] is never assigned); no message is sent in
    reply; when [job_epilog_complete] does not ask for the scheduler
    nothing else happens; when it does, node and job state saves are
    scheduled, and the scheduler itself runs unless scheduling is
    deferred. *)
Theorem epilog_complete_scheduling (msg : slurm_msg)
    (epilog_msg : epilog_complete_msg) (c : ctld Store)
    (run_scheduler : bool) (s1 : Store) :
  validate_slurm_user X (auth_uid msg) = true ->
  job_epilog_complete X (ec_job_id epilog_msg) (ec_node_name epilog_msg)
    (ec_return_code epilog_msg) (store c) = (run_scheduler, s1) ->
  let c' := exec (_slurm_rpc_epilog_complete X msg epilog_msg) c in
  let defer := if conf_last_update c =? 0 then defer_sched c
               else sched_params_defer c in
  defer_sched c' = defer
  /\ sent_of (trace c') = sent_of (trace c)
  /\ (run_scheduler = false -> store c' = s1 /\ trace c' = trace c)
  /\ (run_scheduler = true ->
      store c' = (if defer then s1 else schedule X 0 s1)
      /\ trace c' = Schedule_job_save :: Schedule_node_save :: trace c).
Proof.
  intros Hu He c' defer. subst c' defer.
  destruct c as [s tr dg ip st rb tid clu spd ds]. cbn [store] in He.
  unfold _slurm_rpc_epilog_complete. rewrite Hu. cbn [negb].
  cbn [conf_last_update defer_sched sched_params_defer trace store].
  destruct clu as [|p|p]; run_handler; rewrite He;
    destruct run_scheduler; cbn.
  all: try (destruct ds; cbn; repeat split; intros; congruence).
  all: try (destruct spd; cbn; repeat split; intros; congruence).
Qed.
End EpilogFacts.

Lemma epilog_complete_scheduling_witness :
  let X := Sample.env Sample.no_admins 0 [] false in
  let epilog_msg := {| Ctld.ec_job_id := 7; Ctld.ec_return_code := 0;
                       Ctld.ec_node_name := Some "n1" |} in
  let msg := Sample.request_from 0 (Ctld.Req_epilog_complete epilog_msg) in
  let c' := Ctld.exec (Ctld._slurm_rpc_epilog_complete X msg epilog_msg)
              Sample.ctld0 in
  Ctld.validate_slurm_user X (Ctld.auth_uid msg) = true
  /\ Ctld.job_epilog_complete X 7 (Some "n1") 0 (Ctld.store Sample.ctld0)
     = (true, ["job_epilog_complete"])
  /\ Ctld.sent_of (Ctld.trace c') = []
  /\ Ctld.store c' = ["schedule"; "job_epilog_complete"].
Proof.
  intros X epilog_msg msg c'.
  assert (Hu : Ctld.validate_slurm_user X (Ctld.auth_uid msg) = true)
    by reflexivity.
  assert (He : Ctld.job_epilog_complete X (Ctld.ec_job_id epilog_msg)
                 (Ctld.ec_node_name epilog_msg)
                 (Ctld.ec_return_code epilog_msg) (Ctld.store Sample.ctld0)
               = (true, ["job_epilog_complete"])) by reflexivity.
  split; [exact Hu|]. split; [exact He|].
  destruct (epilog_complete_scheduling X msg epilog_msg Sample.ctld0 true
              ["job_epilog_complete"] Hu He) as (_ & Hs & _ & Hr).
  split; [exact Hs|]. exact (proj1 (Hr eq_refl)).
Defined.
Section OtherUserFacts.
Import StateMacros RpcStats Ctld Spec.
Context (H : slurm_h) (E : slurm_errno_h).
Context {Store : Type} (X : ctld_env Store).

(** X14.  A batch submission by someone who is not a super user, or an
    allocation request (not on an ALPS Cray build, peer address known) by
    someone who is not the slurm user, made for another user id than the
    sender's, is refused without touching the store: the only effect is
    the reply ESLURM_USER_ID_MISSING, or ESLURM_INVALID_NODE_NAME when the
    request also lacks its allocating node. *)
Theorem request_for_another_user (msg : slurm_msg) (d : job_desc_msg)
    (c : ctld Store) :
  errno_wf E ->
  auth_uid msg <> jd_user_id d ->
  let code := if alloc_node_missing d then ESLURM_INVALID_NODE_NAME E
              else ESLURM_USER_ID_MISSING E in
  (validate_super_user H X (auth_uid msg) = false ->
   exec (_slurm_rpc_submit_batch_job H E X msg d) c =
     with_trace c (Send (Rc_msg code) :: trace c))
  /\ (validate_slurm_user X (auth_uid msg) = false ->
      HAVE_ALPS_CRAY X = false ->
      forall host, peer_addr msg = Some host ->
      exec (_slurm_rpc_allocate_resources E X msg d) c =
        with_trace c (Send (Rc_msg code) :: trace c)).
Proof.
  intros Hwf Huid code.
  pose proof (proj2 (Z.eqb_neq _ _) Huid) as Hne.
  destruct c as [s tr dg ip st rb tid clu spd ds].
  split.
  - intros Hs. unfold _slurm_rpc_submit_batch_job. rewrite Hne, Hs.
    cbn [negb andb]. cbv zeta. subst code.
    destruct (alloc_node_missing d); errno_eqb; run_handler;
      unfold submit_return_result; errno_eqb; reflexivity.
  - intros Hs Hcray host Hpeer.
    unfold _slurm_rpc_allocate_resources. rewrite Hne, Hs, Hcray, Hpeer.
    cbn [negb andb]. cbv zeta. subst code.
    destruct (alloc_node_missing d); errno_eqb; run_handler; errno_eqb;
      unfold allocate_return_result, job_waiting_code; errno_eqb;
      cbn; rewrite ?andb_false_r; reflexivity.
Qed.

Lemma allocate_no_peer (msg : slurm_msg) (d : job_desc_msg)
    (c : ctld Store) :
  peer_addr msg = None ->
  exists err_msg,
    _slurm_rpc_allocate_resources E X msg d c =
      allocate_return_result E X msg (jd_immediate d)
        (if c_true (conn_errno msg) then conn_errno msg else SLURM_ERROR)
        None err_msg c.
Proof.
  intros Hpeer. unfold _slurm_rpc_allocate_resources. rewrite Hpeer.
  cbv zeta.
  match goal with |- context [bind ?m _ c] =>
    assert (Hm : exists ec em, m c = ((ec, em), c))
  end.
  { match goal with |- context [if ?b then look _ else _] => destruct b end.
    - unfold look.
      destruct (validate_job_create_req X d (auth_uid msg) (store c))
        as [ec em]. eauto.
    - unfold ret. eauto. }
  destruct Hm as (ec & em & Hm). exists em.
  unfold bind at 1. rewrite Hm.
  match goal with |- context [bind ?m _ c] =>
    assert (Hi : exists b, m c = (b, c))
  end.
  { destruct (HAVE_ALPS_CRAY X); unfold look, ret; eauto. }
  destruct Hi as (b & Hi). unfold bind at 1. rewrite Hi.
  unfold bind, ret. destruct (c_true (conn_errno msg)); reflexivity.
Qed.

(** X15.  An allocation request whose peer address cannot be read never
    reaches the job manager: the store is unchanged; and unless the code
    is one of the job-waiting codes while the request is not immediate,
    the only effect is one return-code reply, with the errno of the
    failed call, or SLURM_ERROR when that errno is 0. *)
Theorem allocate_without_peer_address (msg : slurm_msg) (d : job_desc_msg)
    (c : ctld Store) :
  peer_addr msg = None ->
  let code := if c_true (conn_errno msg) then conn_errno msg
              else SLURM_ERROR in
  let c' := exec (_slurm_rpc_allocate_resources E X msg d) c in
  store c' = store c
  /\ (job_waiting_code E code = false \/ jd_immediate d <> 0 ->
      exists err_msg,
        c' = with_trace c (Send (rc_reply code err_msg) :: trace c)).
Proof.
  intros Hpeer code c'. subst c'.
  destruct (allocate_no_peer msg d c Hpeer) as (em & Heq).
  fold code in Heq. unfold exec. rewrite Heq.
  assert (Hcode : (code =? SLURM_SUCCESS) = false).
  { subst code. unfold c_true.
    destruct (Z.eqb_spec (conn_errno msg) 0) as [|Hn]; cbn [negb].
    - reflexivity.
    - now apply Z.eqb_neq. }
  unfold allocate_return_result. rewrite Hcode. cbn [orb].
  split.
  - destruct ((jd_immediate d =? 0) && job_waiting_code E code);
      [reflexivity|].
    unfold send_rc_or_err. destruct em; reflexivity.
  - intros Hor.
    assert (Hf : (jd_immediate d =? 0) && job_waiting_code E code = false).
    { destruct Hor as [-> | Hi]; [apply andb_false_r|].
      now rewrite (proj2 (Z.eqb_neq _ _) Hi). }
    rewrite Hf. exists em. unfold send_rc_or_err, rc_reply.
    destruct em; reflexivity.
Qed.
End OtherUserFacts.

Lemma request_for_another_user_witness :
  let X := Sample.env Sample.no_admins 0 [] false in
  let d := Sample.job_desc 1000 0 0 in
  let msg := Sample.request_from 1001 (Ctld.Req_submit_batch_job d) in
  errno_wf Sample.errno_values
  /\ Ctld.auth_uid msg <> Ctld.jd_user_id d
  /\ Ctld.exec (Ctld._slurm_rpc_submit_batch_job Sample.slurm_h_values
                  Sample.errno_values X msg d) Sample.ctld0
     = Ctld.with_trace Sample.ctld0
         [Ctld.Send
            (Ctld.Rc_msg (ESLURM_USER_ID_MISSING Sample.errno_values))].
Proof.
  intros X d msg.
  assert (Hne : Ctld.auth_uid msg <> Ctld.jd_user_id d) by (cbn; lia).
  split; [exact errno_values_wf|]. split; [exact Hne|].
  exact (proj1 (request_for_another_user Sample.slurm_h_values
                  Sample.errno_values X msg d Sample.ctld0 errno_values_wf
                  Hne) eq_refl).
Defined.

Lemma allocate_without_peer_address_witness :
  let X := Sample.env Sample.no_admins 0 [] false in
  let d := Sample.job_desc 1000 0 0 in
  let msg := {| Ctld.auth_uid := 1000; Ctld.auth_errno := 0;
                Ctld.body := Ctld.Req_resource_allocation d;
                Ctld.protocol_version := 7168; Ctld.flags := 0;
                Ctld.peer_addr := None; Ctld.conn_errno := 107;
                Ctld.send_ok := true |} in
  Ctld.peer_addr msg = None
  /\ Ctld.store (Ctld.exec (Ctld._slurm_rpc_allocate_resources
                              Sample.errno_values X msg d) Sample.ctld0)
     = Ctld.store Sample.ctld0.
Proof.
  intros X d msg. split; [reflexivity|].
  exact (proj1 (allocate_without_peer_address Sample.errno_values X msg d
                  Sample.ctld0 eq_refl)).
Defined.
Section NotifyFacts.
Import Ctld NotifyRpc.
Context (E : slurm_errno_h) {Store : Type} (X : ctld_env Store).
Context (ESLURM_INVALID_JOB_ID : Z).
Context (srun_user_message :
           job_record -> option string -> Store -> Z * Store).

(** X16.  [_slurm_rpc_job_notify]: an unknown job id is answered
    ESLURM_INVALID_JOB_ID; a request from someone who is neither the job's
    owner nor the slurm user is answered ESLURM_USER_ID_MISSING; in both
    cases nothing is passed on to srun.  From the owner or the slurm user
    the reply is what [srun_user_message] returns. *)
Theorem job_notify_checks (msg : slurm_msg) (notify_msg : job_notify_msg)
    (c : ctld Store) :
  let c' := exec (_slurm_rpc_job_notify E X ESLURM_INVALID_JOB_ID
                    srun_user_message msg notify_msg) c in
  (find_job_record X (jn_job_id notify_msg) (store c) = None ->
   c' = with_trace c (Send (Rc_msg ESLURM_INVALID_JOB_ID) :: trace c))
  /\ (forall job_ptr,
        find_job_record X (jn_job_id notify_msg) (store c) = Some job_ptr ->
        (user_id job_ptr <> auth_uid msg ->
         validate_slurm_user X (auth_uid msg) = false ->
         c' = with_trace c
                (Send (Rc_msg (ESLURM_USER_ID_MISSING E)) :: trace c))
        /\ (user_id job_ptr = auth_uid msg
            \/ validate_slurm_user X (auth_uid msg) = true ->
            forall rc s1,
              srun_user_message job_ptr (jn_message notify_msg) (store c)
                = (rc, s1) ->
              c' = with_trace (with_store c s1)
                     (Send (Rc_msg rc) :: trace c))).
Proof.
  intros c'. subst c'.
  destruct c as [s tr dg ip st rb tid clu spd ds]. cbn [store].
  unfold _slurm_rpc_job_notify. split.
  - intros Hf. run_handler. rewrite Hf. reflexivity.
  - intros job_ptr Hf. split.
    + intros Hne Hs. run_handler. rewrite Hf.
      rewrite (proj2 (Z.eqb_neq _ _) Hne), Hs. reflexivity.
    + intros Hor rc s1 Hm. run_handler. rewrite Hf.
      assert (Hc : (user_id job_ptr =? auth_uid msg)
                   || validate_slurm_user X (auth_uid msg) = true).
      { destruct Hor as [-> | ->]; [rewrite Z.eqb_refl | rewrite orb_true_r];
          reflexivity. }
      rewrite Hc. cbn. rewrite Hm. reflexivity.
Qed.
End NotifyFacts.
(** ** Debug flags, log levels and node reboot *)

Section AdminRpcFacts.
Import StateMacros RpcStats Ctld CInt AdminRpc.
Context (H : slurm_h) (E : slurm_errno_h) (A : admin_h).
Context (X : ctld_env admin_store).

Lemma not64_bits (x : Z) (n : Z) :
  0 <= n < 64 -> Z.testbit (not64 x) n = negb (Z.testbit x n).
Proof.
  intros Hn. unfold not64, u64.
  rewrite Z.mod_pow2_bits_low by lia.
  apply Z.lnot_spec. lia.
Qed.

Lemma calls_record_call (a : admin_call) (s : admin_store) :
  calls (record_call a s) = a :: calls s.
Proof. reflexivity. Qed.

(** X17.  [_slurm_rpc_set_debug_flags]: refused with EACCES and no other
    effect unless the sender is a super user.  For a super user the flags
    handed to [slurm_set_debug_flags] have, at each of the 64 bit
    positions, the bit set when the request's plus mask has it, or when
    the configured flags have it and the minus mask does not: a flag in
    both masks ends up set.  The eight calls that reset cached flags
    follow in the order of the code, the configuration's last-update time
    becomes the current time and the reply is SLURM_SUCCESS. *)
Theorem set_debug_flags_bits (msg : slurm_msg)
    (request_msg : set_debug_flags_msg) (c : ctld admin_store) :
  let c' := exec (_slurm_rpc_set_debug_flags H E X msg request_msg) c in
  (validate_super_user H X (auth_uid msg) = false ->
   c' = with_trace c (Send (Rc_msg (EACCES E)) :: trace c))
  /\ (validate_super_user H X (auth_uid msg) = true ->
      exists v,
        calls (store c') =
          [Switch_g_reconfig; Slurm_sched_g_reconfig; Select_g_reconfigure;
           Priority_g_reconfig; Acct_storage_g_reconfig;
           Gres_plugin_reconfig; Gs_reconfig; Log_set_debug_flags;
           Slurm_set_debug_flags v] ++ calls (store c)
        /\ (forall n, 0 <= n < 64 ->
              Z.testbit v n =
                Z.testbit (debug_flags_plus request_msg) n
                || (Z.testbit (debug_flags (store c)) n
                    && negb (Z.testbit (debug_flags_minus request_msg) n)))
        /\ trace c' = Send (Rc_msg SLURM_SUCCESS) :: trace c
        /\ conf_last_update c' = now X).
Proof.
  intros c'. subst c'.
  destruct c as [s tr dg ip st rb tid clu spd ds].
  unfold _slurm_rpc_set_debug_flags. split; intros Hs; rewrite Hs.
  - reflexivity.
  - unfold exec, bind, look, call_, put, emit, ret.
    cbn [fst snd store trace conf_last_update with_store with_trace
         with_conf_last_update negb].
    rewrite !calls_record_call.
    eexists. split; [reflexivity|]. split; [|repeat split].
    intros n Hn.
    rewrite Z.lor_spec, Z.land_spec, not64_bits by exact Hn.
    apply orb_comm.
Qed.

Lemma MIN_spec (a b : Z) : MIN a b = Z.min a b.
Proof. unfold MIN. destruct (Z.ltb_spec a b); lia. Qed.

Lemma MAX_spec (a b : Z) : MAX a b = Z.max a b.
Proof. unfold MAX. destruct (Z.gtb_spec a b); lia. Qed.

Lemma clamp_debug_level_spec (request : Z) :
  0 <= LOG_LEVEL_QUIET A <= LOG_LEVEL_END A - 1 ->
  LOG_LEVEL_END A - 1 < 2 ^ 31 ->
  0 <= request < 2 ^ 32 ->
  clamp_debug_level A request =
    Z.max (LOG_LEVEL_QUIET A) (Z.min request (LOG_LEVEL_END A - 1)).
Proof.
  intros Hq He Hr. unfold clamp_debug_level, u32. cbv zeta.
  rewrite MIN_spec, MAX_spec.
  rewrite (Z.mod_small (LOG_LEVEL_END A - 1)) by lia.
  rewrite to_int_small by lia. lia.
Qed.

(** X18.  [_slurm_rpc_set_debug_level], with LOG_LEVEL_QUIET between 0 and
    LOG_LEVEL_END - 1 and the request a uint32: refused with EACCES unless
    from a super user.  Otherwise the stored level is the request clamped
    into [LOG_LEVEL_QUIET, LOG_LEVEL_END - 1]; the level goes to the log
    file when one is configured, else to syslog when the daemon runs in
    the background, and to stderr when it runs in the foreground, the
    other channels (the log file apart, in the foreground) being quiet;
    the reply is SLURM_SUCCESS. *)
Theorem set_debug_level_clamps (msg : slurm_msg)
    (request_msg : set_debug_level_msg) (c : ctld admin_store) :
  0 <= LOG_LEVEL_QUIET A <= LOG_LEVEL_END A - 1 ->
  LOG_LEVEL_END A - 1 < 2 ^ 31 ->
  0 <= debug_level request_msg < 2 ^ 32 ->
  let c' := exec (_slurm_rpc_set_debug_level H E A X msg request_msg) c in
  (validate_super_user H X (auth_uid msg) = false ->
   c' = with_trace c (Send (Rc_msg (EACCES E)) :: trace c))
  /\ (validate_super_user H X (auth_uid msg) = true ->
      let level := slurmctld_debug (store c') in
      level = Z.max (LOG_LEVEL_QUIET A)
                (Z.min (debug_level request_msg) (LOG_LEVEL_END A - 1))
      /\ LOG_LEVEL_QUIET A <= level <= LOG_LEVEL_END A - 1
      /\ (exists log_opts,
            calls (store c') =
              Log_alter log_opts (slurmctld_logfile (store c))
              :: calls (store c)
            /\ stderr_level log_opts =
                 (if c_true (daemonize (store c)) then LOG_LEVEL_QUIET A
                  else level)
            /\ syslog_level log_opts =
                 (if c_true (daemonize (store c))
                  then match slurmctld_logfile (store c) with
                       | Some _ => LOG_LEVEL_QUIET A
                       | None => level
                       end
                  else LOG_LEVEL_QUIET A)
            /\ logfile_level log_opts =
                 match slurmctld_logfile (store c) with
                 | Some _ => level
                 | None => LOG_LEVEL_QUIET A
                 end)
      /\ trace c' = Send (Rc_msg SLURM_SUCCESS) :: trace c
      /\ conf_last_update c' = now X).
Proof.
  intros Hq He Hr c'. subst c'.
  destruct c as [s tr dg ip st rb tid clu spd ds].
  unfold _slurm_rpc_set_debug_level. split; intros Hs; rewrite Hs.
  - reflexivity.
  - run_handler. rewrite clamp_debug_level_spec by assumption.
    split; [reflexivity|]. split; [lia|]. split; [|split; reflexivity].
    eexists. split; [reflexivity|].
    unfold debug_log_opts.
    destruct (c_true (daemonize s)); destruct (slurmctld_logfile s);
      cbn; repeat split.
Qed.

Lemma clamp_schedlog_level_spec (request : Z) :
  0 <= LOG_LEVEL_QUIET A -> LOG_LEVEL_QUIET A + 1 < 2 ^ 31 ->
  0 <= request < 2 ^ 32 ->
  clamp_schedlog_level A request =
    if request <=? LOG_LEVEL_QUIET A then LOG_LEVEL_QUIET A
    else LOG_LEVEL_QUIET A + 1.
Proof.
  intros Hq He Hr. unfold clamp_schedlog_level, u32. cbv zeta.
  rewrite MIN_spec, MAX_spec.
  rewrite (Z.mod_small (LOG_LEVEL_QUIET A + 1)) by lia.
  rewrite to_int_small by lia.
  destruct (Z.leb_spec request (LOG_LEVEL_QUIET A)); lia.
Qed.

(** X19.  [_slurm_rpc_set_schedlog_level] for a super user, with
    LOG_LEVEL_QUIET not negative and the request a uint32: without a
    scheduler log file the only effect is the reply ESLURM_DISABLED.  With
    one, the level is a switch: LOG_LEVEL_QUIET when the request is at
    most that, LOG_LEVEL_QUIET + 1 for any larger request; it is stored
    as the scheduler log level and passed to [sched_log_alter] as the
    level of the log file, and the reply is SLURM_SUCCESS. *)
Theorem set_schedlog_level_switch (msg : slurm_msg)
    (request_msg : set_debug_level_msg) (c : ctld admin_store) :
  0 <= LOG_LEVEL_QUIET A -> LOG_LEVEL_QUIET A + 1 < 2 ^ 31 ->
  0 <= debug_level request_msg < 2 ^ 32 ->
  validate_super_user H X (auth_uid msg) = true ->
  let c' := exec (_slurm_rpc_set_schedlog_level H E A X msg request_msg) c in
  (sched_logfile (store c) = None ->
   c' = with_trace c (Send (Rc_msg (ESLURM_DISABLED A)) :: trace c))
  /\ (forall f, sched_logfile (store c) = Some f ->
      let level := if debug_level request_msg <=? LOG_LEVEL_QUIET A
                   then LOG_LEVEL_QUIET A else LOG_LEVEL_QUIET A + 1 in
      sched_log_level (store c') = level
      /\ calls (store c') =
           Sched_log_alter
             {| stderr_level := stderr_level (SCHEDLOG_OPTS_INITIALIZER A);
                syslog_level := syslog_level (SCHEDLOG_OPTS_INITIALIZER A);
                logfile_level := level |} (Some f)
           :: calls (store c)
      /\ trace c' = Send (Rc_msg SLURM_SUCCESS) :: trace c
      /\ conf_last_update c' = now X).
Proof.
  intros Hq He Hr Hs c'. subst c'.
  destruct c as [s tr dg ip st rb tid clu spd ds].
  unfold _slurm_rpc_set_schedlog_level. rewrite Hs. cbn [negb].
  split.
  - intros Hf. cbn in Hf. run_handler. rewrite Hf. reflexivity.
  - intros f Hf. cbn in Hf. run_handler. rewrite Hf. cbn.
    rewrite clamp_schedlog_level_spec by assumption.
    repeat split.
Qed.
End AdminRpcFacts.

Lemma set_debug_level_clamps_witness :
  let A := AdminSample.admin_h_values in
  let request_msg := {| AdminRpc.debug_level := 4000000000 |} in
  let msg := Sample.request_from 0
               (Ctld.Req_other MsgType.REQUEST_SET_DEBUG_LEVEL) in
  let c' := Ctld.exec (AdminRpc._slurm_rpc_set_debug_level
                         Sample.slurm_h_values Sample.errno_values A
                         AdminSample.env msg request_msg)
              AdminSample.ctld0 in
  0 <= AdminRpc.LOG_LEVEL_QUIET A <= AdminRpc.LOG_LEVEL_END A - 1
  /\ AdminRpc.LOG_LEVEL_END A - 1 < 2 ^ 31
  /\ 0 <= AdminRpc.debug_level request_msg < 2 ^ 32
  /\ AdminRpc.slurmctld_debug (Ctld.store c') = 10.
Proof.
  intros A request_msg msg c'.
  assert (Hq : 0 <= AdminRpc.LOG_LEVEL_QUIET A
               <= AdminRpc.LOG_LEVEL_END A - 1) by (cbn; lia).
  assert (He : AdminRpc.LOG_LEVEL_END A - 1 < 2 ^ 31) by (cbn; lia).
  assert (Hr : 0 <= AdminRpc.debug_level request_msg < 2 ^ 32)
    by (cbn; lia).
  split; [exact Hq|]. split; [exact He|]. split; [exact Hr|].
  exact (proj1 (proj2 (set_debug_level_clamps Sample.slurm_h_values
                         Sample.errno_values A AdminSample.env msg
                         request_msg AdminSample.ctld0 Hq He Hr)
                  eq_refl)).
Defined.

Lemma set_schedlog_level_switch_witness :
  let A := AdminSample.admin_h_values in
  let request_msg := {| AdminRpc.debug_level := 7 |} in
  let msg := Sample.request_from 0
               (Ctld.Req_other MsgType.REQUEST_SET_SCHEDLOG_LEVEL) in
  let c' := Ctld.exec (AdminRpc._slurm_rpc_set_schedlog_level
                         Sample.slurm_h_values Sample.errno_values A
                         AdminSample.env msg request_msg)
              AdminSample.ctld0 in
  0 <= AdminRpc.LOG_LEVEL_QUIET A
  /\ AdminRpc.LOG_LEVEL_QUIET A + 1 < 2 ^ 31
  /\ 0 <= AdminRpc.debug_level request_msg < 2 ^ 32
  /\ Ctld.validate_super_user Sample.slurm_h_values AdminSample.env
       (Ctld.auth_uid msg) = true
  /\ AdminRpc.sched_log_level (Ctld.store c') = 1.
Proof.
  intros A request_msg msg c'.
  assert (Hq : 0 <= AdminRpc.LOG_LEVEL_QUIET A) by (cbn; lia).
  assert (He : AdminRpc.LOG_LEVEL_QUIET A + 1 < 2 ^ 31) by (cbn; lia).
  assert (Hr : 0 <= AdminRpc.debug_level request_msg < 2 ^ 32)
    by (cbn; lia).
  assert (Hs : Ctld.validate_super_user Sample.slurm_h_values
                 AdminSample.env (Ctld.auth_uid msg) = true)
    by reflexivity.
  split; [exact Hq|]. split; [exact He|]. split; [exact Hr|].
  split; [exact Hs|].
  exact (proj1 (proj2 (set_schedlog_level_switch Sample.slurm_h_values
                         Sample.errno_values A AdminSample.env msg
                         request_msg AdminSample.ctld0 Hq He Hr Hs)
                  "/var/log/sched.log" eq_refl)).
Defined.
Section RebootFacts.
Import StateMacros RpcStats Ctld CInt AdminRpc.
Context (H : slurm_h) (E : slurm_errno_h) (A : admin_h).
Context (X : ctld_env admin_store).
Context (node_name2bitmap : string -> admin_store -> Z * list bool).

Lemma reboot_loop_spec (n i : nat) (bitmap : list bool) (table : list Z)
    (want : bool) :
  (i + n = length table)%nat ->
  let r := reboot_loop H A n i bitmap table want in
  length (fst r) = length table
  /\ (forall k st, table !! k = Some st ->
        fst r !! k = Some (if (i <=? k)%nat then rebooted H A bitmap k st
                           else st))
  /\ (snd r = true <->
      want = true
      \/ exists k st, (i <= k)%nat /\ table !! k = Some st
                      /\ bit_test bitmap k = true
                      /\ reboot_wanted H A st = true).
Proof.
  revert i table want. induction n as [|n IH]; intros i table want Hn;
    cbv zeta; cbn [reboot_loop].
  - cbn [fst snd]. split; [reflexivity|]. split.
    + intros k st Hk. pose proof (lookup_lt_Some _ _ _ Hk).
      destruct (Nat.leb_spec i k); [lia | exact Hk].
    + split; [tauto|]. intros [Hw | (k & st & Hik & Hk & _)]; auto.
      pose proof (lookup_lt_Some _ _ _ Hk). lia.
  - destruct (table !! i) as [sti|] eqn:Hi.
    2:{ apply lookup_ge_None in Hi. lia. }
    assert (Hskip :
      bit_test bitmap i && reboot_wanted H A sti = false ->
      let r := reboot_loop H A n (S i) bitmap table want in
      length (fst r) = length table
      /\ (forall k st, table !! k = Some st ->
            fst r !! k = Some (if (i <=? k)%nat then rebooted H A bitmap k st
                               else st))
      /\ (snd r = true <->
          want = true
          \/ exists k st, (i <= k)%nat /\ table !! k = Some st
                          /\ bit_test bitmap k = true
                          /\ reboot_wanted H A st = true)).
    { intros Hno. destruct (IH (S i) table want ltac:(lia))
        as (I1 & I2 & I3). cbv zeta.
      split; [exact I1|]. split.
      - intros k st Hk. rewrite (I2 k st Hk).
        destruct (Nat.eq_dec k i) as [-> | Hne].
        + rewrite Hi in Hk. injection Hk as <-.
          replace (S i <=? i)%nat with false
            by (symmetry; apply Nat.leb_gt; lia).
          rewrite Nat.leb_refl. unfold rebooted. now rewrite Hno.
        + destruct (Nat.leb_spec (S i) k), (Nat.leb_spec i k);
            try lia; reflexivity.
      - rewrite I3. split; intros [Hw | (k & st & Hik & Hk & Hb & Hr)];
          auto; right.
        + exists k, st. repeat split; auto. lia.
        + destruct (Nat.eq_dec k i) as [-> | Hne].
          * rewrite Hi in Hk. injection Hk as <-.
            rewrite Hb, Hr in Hno. discriminate.
          * exists k, st. repeat split; auto. lia. }
    destruct (bit_test bitmap i) eqn:Hb; cbn [negb].
    2:{ apply Hskip. reflexivity. }
    destruct (reboot_wanted H A sti) eqn:Hr; cbn [negb].
    2:{ apply Hskip. reflexivity. }
    destruct (IH (S i) (<[i := Z.lor sti (NODE_STATE_MAINT A)]> table) true)
      as (I1 & I2 & I3).
    { rewrite length_insert. lia. }
    cbv zeta in I1, I2, I3. rewrite length_insert in I1.
    split; [exact I1|]. split.
    + intros k st Hk. destruct (Nat.eq_dec k i) as [-> | Hne].
      * rewrite Hi in Hk. injection Hk as <-.
        rewrite (I2 i (Z.lor sti (NODE_STATE_MAINT A))).
        -- replace (S i <=? i)%nat with false
             by (symmetry; apply Nat.leb_gt; lia).
           rewrite Nat.leb_refl. unfold rebooted. now rewrite Hb, Hr.
        -- apply list_lookup_insert_eq. eapply lookup_lt_Some; eauto.
      * rewrite (I2 k st) by (rewrite list_lookup_insert_ne; auto).
        destruct (Nat.leb_spec (S i) k), (Nat.leb_spec i k);
          try lia; reflexivity.
    + split; [|intros _; apply I3; now left].
      intros _. right. exists i, sti. repeat split; auto.
Qed.

Lemma lor_lor_same (a b : Z) : Z.lor (Z.lor a b) b = Z.lor a b.
Proof. now rewrite <- Z.lor_assoc, Z.lor_diag. Qed.

(** X20.  The loop of [_slurm_rpc_reboot_nodes] over the node table keeps
    the number of nodes; it adds the MAINT flag to exactly the nodes that
    are in the bitmap and not already in maintenance, not FUTURE, not
    DOWN, and not powered-down cloud nodes, leaving every other node
    state as it was; [want_nodes_reboot] is true afterwards exactly when
    it was true before or some node was marked; running the loop again on
    its result changes nothing. *)
Theorem reboot_loop_marks (bitmap : list bool) (table : list Z)
    (want : bool) :
  let r := reboot_loop H A (length table) 0 bitmap table want in
  length (fst r) = length table
  /\ (forall k st, table !! k = Some st ->
        fst r !! k =
          Some (if bit_test bitmap k && reboot_wanted H A st
                then Z.lor st (NODE_STATE_MAINT A) else st))
  /\ (snd r = true <->
      want = true
      \/ exists k st, table !! k = Some st /\ bit_test bitmap k = true
                      /\ reboot_wanted H A st = true)
  /\ reboot_loop H A (length (fst r)) 0 bitmap (fst r) (snd r) = r.
Proof.
  cbv zeta.
  destruct (reboot_loop_spec (length table) 0 bitmap table want eq_refl)
    as (L1 & L2 & L3). cbv zeta in L1, L2, L3.
  set (r := reboot_loop H A (length table) 0 bitmap table want) in *.
  split; [exact L1|]. split; [|split].
  - intros k st Hk. rewrite (L2 k st Hk). reflexivity.
  - rewrite L3. split; intros [Hw | (k & st & Hx)]; auto; right;
      exists k, st; intuition lia.
  - destruct (reboot_loop_spec (length (fst r)) 0 bitmap (fst r) (snd r)
                eq_refl) as (M1 & M2 & M3). cbv zeta in M1, M2, M3.
    set (r2 := reboot_loop H A (length (fst r)) 0 bitmap (fst r) (snd r))
      in *.
    assert (Hsame : forall k st, table !! k = Some st ->
                      rebooted H A bitmap k (rebooted H A bitmap k st)
                      = rebooted H A bitmap k st).
    { intros k st _. unfold rebooted at 2 3.
      destruct (bit_test bitmap k && reboot_wanted H A st) eqn:Hc.
      - unfold rebooted. rewrite lor_lor_same.
        destruct (bit_test bitmap k
                  && reboot_wanted H A (Z.lor st (NODE_STATE_MAINT A)));
          reflexivity.
      - unfold rebooted. now rewrite Hc. }
    assert (Ht : fst r2 = fst r).
    { apply list_eq. intros k.
      destruct (table !! k) as [st|] eqn:Hk.
      - pose proof (L2 k st Hk) as Hr1. cbn [Nat.leb] in Hr1.
        rewrite (M2 k _ Hr1). cbn [Nat.leb]. rewrite Hr1.
        f_equal. now apply (Hsame k st).
      - apply lookup_ge_None in Hk.
        rewrite (proj2 (lookup_ge_None (fst r) k)) by lia.
        apply lookup_ge_None. lia. }
    assert (Hw : snd r2 = snd r).
    { destruct (snd r) eqn:Hsr.
      - apply M3. now left.
      - apply not_true_is_false. intros Hsr2.
        apply M3 in Hsr2. destruct Hsr2 as [? | (k & st1 & _ & Hk1 & Hb & Hr)];
          [discriminate|].
        exfalso.
        assert (Hkl : (k < length table)%nat)
          by (rewrite <- L1; eapply lookup_lt_Some; eauto).
        destruct (lookup_lt_is_Some_2 table k Hkl) as [st Hk].
        pose proof (L2 k st Hk) as Hr1. cbn [Nat.leb] in Hr1.
        rewrite Hk1 in Hr1. injection Hr1 as ->.
        unfold rebooted in Hr. rewrite Hb in Hr. cbn [andb] in Hr.
        destruct (reboot_wanted H A st) eqn:Hrw.
        + assert (Hc : false = true)
            by (apply L3; right; exists k, st; repeat split; auto; lia).
          discriminate.
        + congruence. }
    destruct r2 as [t2 w2], r as [t1 w1]. cbn in Ht, Hw. now subst.
Qed.

(** X21.  [_slurm_rpc_reboot_nodes]: answered EACCES unless from a super
    user, ESLURM_NOT_SUPPORTED on a front-end build, and
    ESLURM_INVALID_NODE_NAME when the node list (other than "ALL" in any
    letter case) does not translate to a bitmap, each time with no other
    effect.  Otherwise the loop runs on all nodes (no list, or "ALL") or
    on the named ones, the reply is SLURM_SUCCESS, and a node state save
    is scheduled whenever [want_nodes_reboot] is true afterwards, also
    when it was already true and no node was marked. *)
Theorem reboot_nodes_requests (msg : slurm_msg)
    (reboot_msg : option reboot_msg) (c : ctld admin_store) :
  let nodelist := match reboot_msg with
                  | Some m => node_list m
                  | None => None
                  end in
  let c' := exec (_slurm_rpc_reboot_nodes H E A X node_name2bitmap msg
                    reboot_msg) c in
  (validate_super_user H X (auth_uid msg) = false ->
   c' = with_trace c (Send (Rc_msg (EACCES E)) :: trace c))
  /\ (validate_super_user H X (auth_uid msg) = true ->
      HAVE_FRONT_END X = true ->
      c' = with_trace c (Send (Rc_msg (ESLURM_NOT_SUPPORTED A)) :: trace c))
  /\ (validate_super_user H X (auth_uid msg) = true ->
      HAVE_FRONT_END X = false ->
      forall l, nodelist = Some l -> strcasecmp l "ALL" <> 0 ->
      fst (node_name2bitmap l (store c)) <> 0 ->
      c' = with_trace c
             (Send (Rc_msg (ESLURM_INVALID_NODE_NAME E)) :: trace c))
  /\ (validate_super_user H X (auth_uid msg) = true ->
      HAVE_FRONT_END X = false ->
      forall bitmap,
        (match nodelist with
         | None => bitmap = all_nodes (length (node_record_table (store c)))
         | Some l =>
             if strcasecmp l "ALL" =? 0
             then bitmap = all_nodes (length (node_record_table (store c)))
             else node_name2bitmap l (store c) = (0, bitmap)
         end) ->
        let r := reboot_loop H A (length (node_record_table (store c))) 0
                   bitmap (node_record_table (store c))
                   (want_nodes_reboot (store c)) in
        store c' = set_nodes (fst r) (snd r) (store c)
        /\ trace c' =
             Send (Rc_msg SLURM_SUCCESS)
             :: (if snd r then [Schedule_node_save] else []) ++ trace c).
Proof.
  intros nodelist c'. subst c'.
  destruct c as [s tr dg ip st rb tid clu spd ds].
  unfold _slurm_rpc_reboot_nodes. fold nodelist.
  split; [|split; [|split]].
  - intros Hs. rewrite Hs. reflexivity.
  - intros Hs Hfe. rewrite Hs, Hfe. reflexivity.
  - intros Hs Hfe l Hl Hcmp Hrc. rewrite Hs, Hfe, Hl. cbn [negb].
    cbn [store] in Hrc. run_handler.
    rewrite (proj2 (Z.eqb_neq _ _) Hcmp). cbn.
    rewrite (proj2 (Z.eqb_neq _ _) Hrc). reflexivity.
  - intros Hs Hfe bitmap Hsel. rewrite Hs, Hfe. cbn [negb].
    cbn [store] in Hsel |- *.
    assert (Hb :
      (match nodelist with
       | Some l =>
           if strcasecmp l "ALL" =? 0
           then ret (Some (all_nodes (length (node_record_table s))))
           else bind (look (node_name2bitmap l))
                  (fun r => if negb (fst r =? 0) then ret None
                            else ret (Some (snd r)))
       | None => ret (Some (all_nodes (length (node_record_table s))))
       end)
        {| store := s; trace := tr; diag := dg; in_progress := ip;
           shutdown_time := st; resume_backup := rb; thread_id_sig := tid;
           conf_last_update := clu; sched_params_defer := spd;
           defer_sched := ds |}
      = (Some bitmap,
         {| store := s; trace := tr; diag := dg; in_progress := ip;
            shutdown_time := st; resume_backup := rb; thread_id_sig := tid;
            conf_last_update := clu; sched_params_defer := spd;
            defer_sched := ds |})).
    { destruct nodelist as [l|]; [|now subst bitmap].
      destruct (strcasecmp l "ALL" =? 0); [now subst bitmap|].
      unfold bind, look, ret. cbn [store]. rewrite Hsel. reflexivity. }
    match goal with
    | |- context [exec ?m ?c0] =>
        assert (Heq : m c0 =
          (bind (call_ (fun s =>
                   let '(table, want) :=
                     reboot_loop H A (length (node_record_table s)) 0 bitmap
                       (node_record_table s) (want_nodes_reboot s) in
                   set_nodes table want s))
             (fun _ =>
                bind (look want_nodes_reboot)
                  (fun want =>
                     bind (if want : bool then emit Schedule_node_save
                           else skip)
                       (fun _ => emit (Send (Rc_msg SLURM_SUCCESS))))))
            c0)
    end.
    { unfold bind at 1, look at 1. cbn [store].
      unfold bind at 1. rewrite Hb. reflexivity. }
    unfold exec. rewrite Heq. run_handler.
    destruct (reboot_loop H A _ 0 bitmap _ _) as [t w]. cbn.
    destruct w; split; reflexivity.
Qed.
End RebootFacts.
(** ** The RPC throttle *)

Section ThrottleFacts.
Import CInt Throttle.

Lemma throttled_insert (ts : list place) (i : nat) (p q : place) :
  ts !! i = Some p ->
  (throttled (<[i := q]> ts) + (if is_throttled p then 1 else 0)
   = throttled ts + (if is_throttled q then 1 else 0))%nat.
Proof.
  intros Hi. unfold throttled.
  rewrite <- (take_drop_middle ts i p Hi) at 2.
  rewrite insert_take_drop by (eapply lookup_lt_Some; eauto).
  rewrite !List.filter_app, !length_app. cbn [List.filter].
  destruct (is_throttled p), (is_throttled q); cbn [length]; lia.
Qed.

Lemma throttled_replicate (n : nat) : throttled (replicate n Outside) = 0%nat.
Proof. induction n; cbn; auto. Qed.

Lemma throttled_two (ts : list place) (i j : nat) :
  ts !! i = Some Throttled -> ts !! j = Some Throttled -> i <> j ->
  (2 <= throttled ts)%nat.
Proof.
  intros Hi Hj Hne.
  pose proof (throttled_insert ts i Throttled Outside Hi) as H1.
  assert (Hj' : <[i := Outside]> ts !! j = Some Throttled)
    by (rewrite list_lookup_insert_ne; auto).
  pose proof (throttled_insert _ j Throttled Outside Hj') as H2.
  cbn in H1, H2. lia.
Qed.

Lemma throttled_none (ts : list place) :
  throttled ts = 0%nat -> forall i, ts !! i <> Some Throttled.
Proof.
  intros H0 i Hi.
  pose proof (throttled_insert ts i Throttled Outside Hi) as H1.
  cbn in H1. lia.
Qed.

Lemma throttled_some (ts : list place) :
  (0 < throttled ts)%nat -> exists i, ts !! i = Some Throttled.
Proof.
  induction ts as [|p ts IH]; cbn; [lia|].
  destruct p; cbn.
  - intros Hc. destruct (IH Hc) as [i Hi]. now exists (S i).
  - intros Hc. destruct (IH Hc) as [i Hi]. now exists (S i).
  - intros _. now exists 0%nat.
Qed.

Lemma reachable_count (n : nat) (t : throttle) :
  throttle_reachable n t ->
  active_rpc_cnt t = Z.of_nat (throttled (threads t))
  /\ (throttled (threads t) <= 1)%nat.
Proof.
  induction 1 as [| i t Hr [IHc IHle]].
  - cbn [active_rpc_cnt threads]. rewrite throttled_replicate. split; lia.
  - unfold run_thread. destruct (threads t !! i) as [[| |]|] eqn:Hi;
      cbn [active_rpc_cnt threads]; auto.
    + pose proof (throttled_insert _ i _ Starting Hi) as Hc. cbn in Hc.
      split; lia.
    + unfold _throttle_start.
      destruct (Z.eqb_spec (active_rpc_cnt t) 0) as [H0 | H0];
        cbn [active_rpc_cnt threads]; auto.
      pose proof (throttled_insert _ i _ Throttled Hi) as Hc. cbn in Hc.
      rewrite H0. rewrite to_int_small by lia. split; lia.
    + pose proof (throttled_insert _ i _ Outside Hi) as Hc. cbn in Hc.
      unfold _throttle_fini. rewrite to_int_small by lia. split; lia.
Qed.

(** X22.  The throttle of [_throttle_start] and [_throttle_fini]: however
    the server threads of one handler are scheduled, at most one of them
    is between the two calls; the counter is 0 or 1, and is 1 exactly
    when a thread is in between; when none is, a thread that enters
    [_throttle_start] gets through. *)
Theorem throttle_mutual_exclusion (n : nat) (t : throttle) :
  throttle_reachable n t ->
  (forall i j, threads t !! i = Some Throttled ->
               threads t !! j = Some Throttled -> i = j)
  /\ (active_rpc_cnt t = 0 \/ active_rpc_cnt t = 1)
  /\ (active_rpc_cnt t = 1 <-> exists i, threads t !! i = Some Throttled)
  /\ ((forall i, threads t !! i <> Some Throttled) ->
      _throttle_start (active_rpc_cnt t) = Some 1).
Proof.
  intros Hr. destruct (reachable_count n t Hr) as [Hc Hle].
  split; [|split; [|split]].
  - intros i j Hi Hj. destruct (Nat.eq_dec i j) as [|Hne]; auto.
    pose proof (throttled_two _ i j Hi Hj Hne). lia.
  - lia.
  - split.
    + intros H1. apply throttled_some. lia.
    + intros [i Hi].
      pose proof (throttled_insert _ i _ Outside Hi) as Hi'. cbn in Hi'.
      lia.
  - intros Hnone. unfold _throttle_start.
    assert (H0 : active_rpc_cnt t = 0).
    { destruct (Z.eq_dec (active_rpc_cnt t) 0) as [|Hnz]; auto.
      destruct (throttled_some (threads t) ltac:(lia)) as [i Hi].
      now apply Hnone in Hi. }
    rewrite H0. reflexivity.
Qed.
End ThrottleFacts.

Lemma throttle_mutual_exclusion_witness :
  let t0 := {| Throttle.active_rpc_cnt := 0;
               Throttle.threads := replicate 3 Throttle.Outside |} in
  let t := Throttle.run_thread 1
             (Throttle.run_thread 0
                (Throttle.run_thread 0 (Throttle.run_thread 1 t0))) in
  Throttle.throttle_reachable 3 t
  /\ Throttle.threads t
     = [Throttle.Throttled; Throttle.Starting; Throttle.Outside]
  /\ Throttle.active_rpc_cnt t = 1.
Proof.
  intros t0 t.
  assert (Hr : Throttle.throttle_reachable 3 t).
  { do 4 apply Throttle.reach_run. apply Throttle.reach_start. }
  split; [exact Hr|]. split; [reflexivity|].
  exact (proj2 (proj1 (proj2 (proj2 (throttle_mutual_exclusion 3 t Hr))))
           (ex_intro _ 0%nat eq_refl)).
Defined.
(** ** String arrays *)

Section StringArrayFacts.
Import CInt StringArrays.

Lemma bytes_of_nonneg (n : nat) (array : c_array) : 0 <= bytes_of n array.
Proof. induction n; cbn [bytes_of]; lia. Qed.

Lemma bytes_of_mono (n m : nat) (array : c_array) :
  (n <= m)%nat -> bytes_of n array <= bytes_of m array.
Proof.
  induction 1; [lia|]. cbn [bytes_of]. lia.
Qed.

Lemma xduparray2_len_spec (n i : nat) (array : c_array) :
  bytes_of (i + n) array < 2 ^ 31 ->
  xduparray2_len n i array (bytes_of i array) = bytes_of (i + n) array.
Proof.
  revert i. induction n as [|n IH]; intros i Hb; cbn [xduparray2_len].
  - now rewrite Nat.add_0_r.
  - replace (i + S n)%nat with (S i + n)%nat in * by lia.
    rewrite <- IH by exact Hb. f_equal. cbn [bytes_of].
    apply to_int_small.
    pose proof (bytes_of_nonneg i array).
    pose proof (bytes_of_mono (S i) (S i + n) array ltac:(lia)) as Hm.
    cbn [bytes_of] in Hm. lia.
Qed.

Lemma length_chars (s : string) :
  length (String.list_ascii_of_string s) = String.length s.
Proof. induction s; cbn; auto. Qed.

Lemma strcpy_spec (src : string) (pre post : list ascii) :
  (String.length src < length post)%nat ->
  strcpy (pre ++ post) (length pre) src =
    pre ++ String.list_ascii_of_string src
        ++ NUL :: drop (S (String.length src)) post.
Proof.
  revert pre post. induction src as [|c src IH]; intros pre post Hl.
  - cbn [strcpy String.list_ascii_of_string String.length app].
    destruct post as [|p post]; [cbn in Hl; lia|].
    rewrite insert_app_r_alt by lia.
    rewrite Nat.sub_diag. cbn. now rewrite drop_0.
  - cbn [strcpy String.list_ascii_of_string String.length].
    destruct post as [|p post]; [cbn in Hl; lia|].
    rewrite insert_app_r_alt by lia. rewrite Nat.sub_diag.
    cbn [insert list_insert].
    change (pre ++ c :: post) with (pre ++ [c] ++ post).
    rewrite app_assoc.
    replace (S (length pre)) with (length (pre ++ [c]))
      by (rewrite length_app; cbn; lia).
    rewrite IH by (cbn in Hl; lia).
    rewrite <- app_assoc. reflexivity.
Qed.

Lemma length_image (n i : nat) (array : c_array) :
  Z.of_nat (length (image n i array))
  = bytes_of (i + n) array - bytes_of i array.
Proof.
  revert i. induction n as [|n IH]; intros i; cbn [image].
  - rewrite Nat.add_0_r. cbn. lia.
  - rewrite length_app. cbn [length]. rewrite length_chars.
    replace (i + S n)%nat with (S i + n)%nat by lia.
    specialize (IH (S i)). cbn [bytes_of] in IH. lia.
Qed.

Lemma xduparray2_copy_spec (n i : nat) (array : c_array)
    (pre : list ascii) (result : list (option Z)) (m : nat) :
  bytes_of (i + n) array < 2 ^ 31 ->
  Z.of_nat (length pre) = bytes_of i array ->
  Z.of_nat m = bytes_of (i + n) array - bytes_of i array ->
  let r := xduparray2_copy n i array (bytes_of i array)
             (pre ++ replicate m NUL) result in
  fst r = pre ++ image n i array
  /\ length (snd r) = length result
  /\ (forall k, (k < i)%nat -> snd r !! k = result !! k)
  /\ (forall k, (i <= k < i + n)%nat -> (k < length result)%nat ->
        snd r !! k = Some (Some (bytes_of k array))).
Proof.
  revert i pre result m. induction n as [|n IH];
    intros i pre result m Hb Hpre Hm; cbv zeta.
  - cbn [xduparray2_copy image fst snd].
    rewrite Nat.add_0_r in Hm.
    assert (m = 0%nat) as -> by lia. cbn [replicate].
    repeat split; auto. intros k Hk. lia.
  - cbn [xduparray2_copy image].
    replace (i + S n)%nat with (S i + n)%nat in * by lia.
    pose proof (bytes_of_nonneg i array) as H0.
    pose proof (bytes_of_mono (S i) (S i + n) array ltac:(lia)) as Hmono.
    cbn [bytes_of] in Hmono.
    set (len := String.length (array i)) in *.
    rewrite (to_int_small (Z.of_nat len)) by lia.
    replace (Z.to_nat (bytes_of i array)) with (length pre) by lia.
    rewrite strcpy_spec by (rewrite length_replicate; lia).
    fold len. rewrite drop_replicate.
    replace (pre ++ String.list_ascii_of_string (array i)
               ++ NUL :: replicate (m - S len) NUL)
      with ((pre ++ String.list_ascii_of_string (array i) ++ [NUL])
              ++ replicate (m - S len) NUL)
      by (rewrite <- !app_assoc; reflexivity).
    change (bytes_of i array + (Z.of_nat len + 1))
      with (bytes_of (S i) array).
    specialize (IH (S i) (pre ++ String.list_ascii_of_string (array i) ++ [NUL])
                  (<[i := Some (bytes_of i array)]> result) (m - S len)%nat
                  Hb).
    cbv zeta in IH.
    destruct IH as (I1 & I2 & I3 & I4).
    { rewrite !length_app, length_chars. cbn [length bytes_of].
      fold len. lia. }
    { cbn [bytes_of]. fold len. lia. }
    split; [|split; [|split]].
    + rewrite I1. rewrite <- !app_assoc. reflexivity.
    + rewrite I2. apply length_insert.
    + intros k Hk. rewrite I3 by lia.
      apply list_lookup_insert_ne. lia.
    + intros k Hk Hkl. destruct (Nat.eq_dec k i) as [-> | Hne].
      * rewrite I3 by lia. now apply list_lookup_insert_eq.
      * apply I4; [lia|]. now rewrite length_insert.
Qed.

Lemma read_string_chars (s : string) (rest : list ascii) :
  nul_free s = true ->
  read_string (String.list_ascii_of_string s ++ NUL :: rest) = Some s.
Proof.
  induction s as [|c s IH]; intros Hs; [reflexivity|].
  cbn [nul_free] in Hs. apply andb_true_iff in Hs as [Hc Hs].
  apply negb_true_iff in Hc.
  cbn [String.list_ascii_of_string app read_string]. rewrite Hc.
  now rewrite IH.
Qed.

Lemma image_app (a b i : nat) (array : c_array) :
  image (a + b) i array = image a i array ++ image b (i + a) array.
Proof.
  revert i. induction a as [|a IH]; intros i; cbn [image Nat.add app].
  - now rewrite Nat.add_0_r.
  - rewrite IH. rewrite <- app_assoc. cbn [app].
    now replace (S i + a)%nat with (i + S a)%nat by lia.
Qed.

Lemma xduparray_loop_spec (n i : nat) (array : c_array)
    (result : list (option string)) :
  length (xduparray_loop n i array result) = length result
  /\ (forall k, (k < i)%nat ->
        xduparray_loop n i array result !! k = result !! k)
  /\ (forall k, (i <= k < i + n)%nat -> (k < length result)%nat ->
        xduparray_loop n i array result !! k = Some (Some (array k))).
Proof.
  revert i result. induction n as [|n IH]; intros i result;
    cbn [xduparray_loop].
  - repeat split; auto. intros k Hk. lia.
  - destruct (IH (S i) (<[i := Some (array i)]> result)) as (I1 & I2 & I3).
    split; [|split].
    + rewrite I1. apply length_insert.
    + intros k Hk. rewrite I2 by lia. apply list_lookup_insert_ne. lia.
    + intros k Hk Hkl. destruct (Nat.eq_dec k i) as [-> | Hne].
      * rewrite I2 by lia. now apply list_lookup_insert_eq.
      * apply I3; [lia|]. now rewrite length_insert.
Qed.

(** X23.  [_xduparray2] and [xduparray] on a non-empty array of C strings
    that take less than 2^31 bytes in all: both return an array (not
    NULL) of [size] entries.  The single block of [_xduparray2] has
    exactly the size of the strings with their terminators; entry [i]
    points at the offset where the first [i] strings end, and the C
    string read there is [array[i]], as is entry [i] of [xduparray]. *)
Theorem xduparray2_layout (size : nat) (array : c_array) :
  (0 < size)%nat ->
  (forall i, (i < size)%nat -> nul_free (array i) = true) ->
  bytes_of size array < 2 ^ 31 ->
  exists block result copies,
    _xduparray2 size array = Some (block, result)
    /\ xduparray size array = Some copies
    /\ Z.of_nat (length block) = bytes_of size array
    /\ length result = size /\ length copies = size
    /\ forall i, (i < size)%nat ->
         result !! i = Some (Some (bytes_of i array))
         /\ string_at block (bytes_of i array) = Some (array i)
         /\ copies !! i = Some (Some (array i)).
Proof.
  intros Hsize Hnul Hb.
  unfold _xduparray2, xduparray.
  destruct (Nat.eqb_spec size 0) as [|_]; [lia|]. cbv zeta.
  pose proof (xduparray2_len_spec size 0 array Hb) as Hlen.
  cbn [bytes_of Nat.add] in Hlen. rewrite Hlen.
  pose proof (bytes_of_nonneg size array) as Hnn.
  destruct (xduparray2_copy_spec size 0 array [] (replicate size None)
              (Z.to_nat (bytes_of size array)) Hb eq_refl)
    as (C1 & C2 & _ & C4).
  { cbn [bytes_of Nat.add]. lia. }
  cbn [bytes_of app Nat.add] in C1, C2, C4.
  destruct (xduparray2_copy size 0 array 0 _ _) as [block result].
  cbn [fst snd] in C1, C2, C4. rewrite length_replicate in C2, C4.
  destruct (xduparray_loop_spec size 0 array (replicate size None))
    as (X1 & _ & X3).
  rewrite length_replicate in X1, X3.
  exists block, result, (xduparray_loop size 0 array (replicate size None)).
  split; [reflexivity|]. split; [reflexivity|].
  split; [|split; [exact C2 | split; [exact X1|]]].
  - rewrite C1, length_image. cbn [bytes_of Nat.add]. lia.
  - intros i Hi. split; [apply C4; lia|]. split; [|apply X3; lia].
    unfold string_at. rewrite C1.
    replace size with (i + S (size - S i))%nat by lia.
    rewrite image_app. cbn [Nat.add image].
    pose proof (length_image i 0 array) as Hli.
    cbn [bytes_of Nat.add] in Hli.
    rewrite drop_app_length' by lia.
    apply read_string_chars. apply Hnul. lia.
Qed.
End StringArrayFacts.

Lemma xduparray2_layout_witness :
  let array : StringArrays.c_array :=
    fun i => match i with
             | 0%nat => "PATH=/bin"
             | 1%nat => EmptyString
             | _ => "HOME=/root"
             end in
  (0 < 3)%nat
  /\ (forall i, (i < 3)%nat -> StringArrays.nul_free (array i) = true)
  /\ StringArrays.bytes_of 3 array < 2 ^ 31
  /\ exists block result copies,
       StringArrays._xduparray2 3 array = Some (block, result)
       /\ StringArrays.xduparray 3 array = Some copies
       /\ Z.of_nat (length block) = StringArrays.bytes_of 3 array
       /\ length result = 3%nat /\ length copies = 3%nat
       /\ forall i, (i < 3)%nat ->
            result !! i = Some (Some (StringArrays.bytes_of i array))
            /\ StringArrays.string_at block (StringArrays.bytes_of i array)
               = Some (array i)
            /\ copies !! i = Some (Some (array i)).
Proof.
  intros array.
  assert (Hs : (0 < 3)%nat) by lia.
  assert (Hn : forall i, (i < 3)%nat ->
                         StringArrays.nul_free (array i) = true).
  { intros [|[|[|i]]] Hi; [reflexivity | reflexivity | reflexivity | lia]. }
  assert (Hb : StringArrays.bytes_of 3 array < 2 ^ 31) by (cbn; lia).
  split; [exact Hs|]. split; [exact Hn|]. split; [exact Hb|].
  exact (xduparray2_layout 3 array Hs Hn Hb).
Defined.
(** ** The PBS job-submit plugin *)

Section PbsFacts.
Import JobSubmitPbs.
Local Open Scope string_scope.

Lemma split_scan (s : string) :
  split_commas s =
    fst (scan_token s)
    :: match snd (scan_token s) with
       | Some r => split_commas r
       | None => []
       end.
Proof.
  induction s as [|a s IH]; cbn; [reflexivity|].
  destruct (Ascii.eqb a ","); [reflexivity|].
  rewrite IH. destruct (scan_token s) as [t r]. reflexivity.
Qed.

Lemma scan_token_length (s : string) (r : string) :
  snd (scan_token s) = Some r -> (String.length r < String.length s)%nat.
Proof.
  induction s as [|a s IH]; cbn; [discriminate|].
  destruct (Ascii.eqb a ",").
  - cbn. intros [= ->]. lia.
  - destruct (scan_token s) as [t r']. cbn in *. intros Hr.
    specialize (IH Hr). lia.
Qed.

Lemma skip_delim_length (s : string) :
  (String.length (skip_delim s) <= String.length s)%nat.
Proof.
  induction s as [|a s IH]; cbn; [lia|].
  destruct (Ascii.eqb a ","); cbn; lia.
Qed.

Lemma fields_skip (s : string) : fields (skip_delim s) = fields s.
Proof.
  induction s as [|a s IH]; cbn [skip_delim]; [reflexivity|].
  destruct (Ascii.eqb a ",") eqn:Ha; [|reflexivity].
  rewrite IH. unfold fields. cbn [split_commas]. rewrite Ha. reflexivity.
Qed.

Lemma skip_delim_head (s : string) :
  match skip_delim s with
  | String a _ => Ascii.eqb a "," = false
  | EmptyString => True
  end.
Proof.
  induction s as [|a s IH]; cbn; [exact I|].
  destruct (Ascii.eqb a ",") eqn:Ha; [exact IH | exact Ha].
Qed.

(** What [strtok_r] returns, in terms of [fields]. *)
Lemma strtok_fields (s x : string) :
  match strtok_r (Some s) x with
  | (None, _) => fields s = []
  | (Some t, r) =>
      fields s = t :: fields r
      /\ (String.length r < String.length s)%nat
  end.
Proof.
  unfold strtok_r. rewrite <- (fields_skip s).
  pose proof (skip_delim_length s) as Hl.
  pose proof (skip_delim_head s) as Hh.
  destruct (skip_delim s) as [|a s1]; [reflexivity|].
  unfold fields at 1. rewrite split_scan.
  pose proof (scan_token_length (String a s1)) as Hr.
  cbn [scan_token] in *. rewrite Hh in *.
  destruct (scan_token s1) as [t r]. cbn [fst snd] in *.
  cbn [List.filter nonempty]. destruct r as [r|].
  - split; [reflexivity|]. specialize (Hr r eq_refl).
    cbn [String.length] in *. lia.
  - split; [reflexivity|]. cbn [String.length] in *. lia.
Qed.

Lemma xlate_loop_fields (fuel : nat) (s x : string)
    (result : option string) :
  (String.length s < fuel)%nat ->
  xlate_loop fuel (fst (strtok_r (Some s) x)) (snd (strtok_r (Some s) x))
    result
  = fold_left add_option (List.filter kept (fields s)) result.
Proof.
  revert s x result. induction fuel as [|fuel IH]; intros s x result Hf;
    [lia|].
  pose proof (strtok_fields s x) as Hs.
  destruct (strtok_r (Some s) x) as [[t|] r]; cbn [fst snd].
  - destruct Hs as [-> Hr]. cbn [xlate_loop List.filter].
    change (strtok_r None r) with (strtok_r (Some r) r).
    specialize (IH r r).
    destruct (strtok_r (Some r) r) as [tok' last'] eqn:Hn.
    cbn [fst snd] in IH. rewrite IH by lia.
    destruct (kept t); reflexivity.
  - rewrite Hs. destruct fuel; reflexivity.
Qed.

Lemma xlate_dependency_fields (s : string) :
  _xlate_dependency {| dependency := Some s |} =
    {| dependency :=
         fold_left add_option (List.filter kept (fields s)) None |}.
Proof.
  unfold _xlate_dependency. cbn [dependency].
  pose proof (xlate_loop_fields (S (String.length s)) s EmptyString None)
    as Hl.
  destruct (strtok_r (Some s) EmptyString) as [tok last_ptr].
  cbn [fst snd] in Hl. rewrite Hl by lia. reflexivity.
Qed.

Lemma strncmp_prefix (lit tok : string) :
  (forall i a, String.get i lit = Some a -> N_of_ascii a <> 0%N) ->
  (strncmp tok lit (String.length lit) =? 0)%Z = String.prefix lit tok.
Proof.
  revert tok. induction lit as [|b lit IH]; intros tok Hnz.
  - destruct tok; reflexivity.
  - cbn [String.length String.prefix].
    assert (Hb : N_of_ascii b <> 0%N) by (apply (Hnz 0%nat); reflexivity).
    destruct tok as [|a tok].
    + cbn [strncmp String.prefix]. apply Z.eqb_neq. lia.
    + cbn [strncmp String.prefix].
      destruct (Ascii.eqb_spec a b) as [-> | Hne].
      * destruct (ascii_dec b b) as [_|Hc]; [|contradiction].
        apply IH. intros i c Hi. apply (Hnz (S i)). exact Hi.
      * destruct (ascii_dec b a) as [->|_]; [contradiction|].
        apply Z.eqb_neq. intros Hd.
        apply Hne.
        assert (He : N_of_ascii a = N_of_ascii b) by lia.
        apply (f_equal ascii_of_N) in He.
        now rewrite !ascii_N_embedding in He.
Qed.

Lemma kept_slurm_option (tok : string) : kept tok = slurm_option tok.
Proof.
  unfold kept, slurm_option.
  rewrite <- (strncmp_prefix "after"), <- (strncmp_prefix "expand"),
    <- (strncmp_prefix "singleton"); auto.
  all: intros i a;
    do 10 (destruct i as [|i]; [intros [= <-]; discriminate|]);
    discriminate.
Qed.

Lemma split_comma_free (t : string) :
  comma_free t = true -> split_commas t = [t].
Proof.
  induction t as [|a t IH]; intros Ht; [reflexivity|].
  cbn [comma_free] in Ht. apply andb_true_iff in Ht as [Ha Ht].
  apply negb_true_iff in Ha.
  cbn [split_commas]. now rewrite Ha, IH.
Qed.

Lemma split_app_comma (t r : string) :
  comma_free t = true ->
  split_commas (t ++ String "," r) = t :: split_commas r.
Proof.
  induction t as [|a t IH]; intros Ht; [reflexivity|].
  cbn [comma_free] in Ht. apply andb_true_iff in Ht as [Ha Ht].
  apply negb_true_iff in Ha.
  change (split_commas (String a (t ++ String "," r))
          = String a t :: split_commas r).
  cbn [split_commas]. now rewrite Ha, IH.
Qed.

Lemma fields_option_list (ts : list string) :
  Forall is_option ts -> fields (String.concat "," ts) = ts.
Proof.
  induction 1 as [|t ts [Hne Hcf] Hts IH]; [reflexivity|].
  assert (Hn : nonempty t = true) by (destruct t; [contradiction|reflexivity]).
  destruct ts as [|t2 ts].
  - cbn [String.concat]. unfold fields. rewrite split_comma_free by exact Hcf.
    cbn. now rewrite Hn.
  - cbn [String.concat]. cbn [String.concat] in IH.
    unfold fields in *. change ("," ++ ?x) with (String "," x).
    rewrite split_app_comma by exact Hcf.
    cbn [List.filter]. now rewrite Hn, IH.
Qed.

Lemma split_commas_free (s : string) :
  Forall (fun t => comma_free t = true) (split_commas s).
Proof.
  induction s as [|a s IH]; cbn.
  - repeat constructor.
  - destruct (Ascii.eqb a ",") eqn:Ha.
    + constructor; [reflexivity | exact IH].
    + destruct (split_commas s) as [|t l]; inversion IH; subst;
        repeat constructor; cbn; rewrite ?Ha; auto.
Qed.

Lemma fields_are_options (s : string) : Forall is_option (fields s).
Proof.
  unfold fields. pose proof (split_commas_free s) as Hs.
  induction Hs as [|t l Ht Hl IH]; cbn; [constructor|].
  destruct t as [|a t]; cbn; [exact IH|].
  constructor; [|exact IH]. split; [discriminate | exact Ht].
Qed.

Lemma append_assoc (a b c : string) : (a ++ b) ++ c = a ++ (b ++ c).
Proof.
  induction a as [|x a IH]; [reflexivity|].
  change (String x ((a ++ b) ++ c) = String x (a ++ b ++ c)).
  now rewrite IH.
Qed.

Lemma fold_add_option (l : list string) (r : string) :
  fold_left add_option l (Some r) =
    Some (String.concat "," (r :: l)).
Proof.
  revert r. induction l as [|t l IH]; intros r; [reflexivity|].
  cbn [fold_left add_option xstrcat]. rewrite IH.
  f_equal. cbn [String.concat].
  destruct l as [|t2 l].
  - now rewrite append_assoc.
  - now rewrite !append_assoc.
Qed.

Lemma fold_add_option_list (l : list string) :
  fold_left add_option l None = option_list l.
Proof.
  destruct l as [|t l]; [reflexivity|].
  cbn [fold_left add_option xstrcat option_list]. apply fold_add_option.
Qed.

Lemma filter_kept (l : list string) :
  List.filter kept l = List.filter slurm_option l.
Proof.
  induction l as [|t l IH]; cbn; [reflexivity|].
  now rewrite kept_slurm_option, IH.
Qed.

(** What [_xlate_dependency] makes of any string. *)
Lemma xlate_dependency_result (s : string) :
  _xlate_dependency {| dependency := Some s |} =
    {| dependency := option_list (List.filter slurm_option (fields s)) |}.
Proof.
  now rewrite xlate_dependency_fields, filter_kept, fold_add_option_list.
Qed.

Lemma Forall_filter_options (l : list string) :
  Forall is_option l -> Forall is_option (List.filter slurm_option l).
Proof.
  induction 1 as [|t l Ht Hl IH]; cbn; [constructor|].
  destruct (slurm_option t); [constructor|]; auto.
Qed.

Lemma filter_filter_same (l : list string) :
  List.filter slurm_option (List.filter slurm_option l)
  = List.filter slurm_option l.
Proof.
  induction l as [|t l IH]; cbn; [reflexivity|].
  destruct (slurm_option t) eqn:Ht; cbn; rewrite ?Ht, IH; reflexivity.
Qed.

Lemma filter_none (l : list string) :
  (forall tok, In tok l -> slurm_option tok = false) ->
  List.filter slurm_option l = [].
Proof.
  induction l as [|t l IH]; intros Hl; cbn; [reflexivity|].
  rewrite (Hl t (or_introl eq_refl)). apply IH.
  intros tok Hin. apply Hl. now right.
Qed.

Lemma xlate_twice (job_desc : job_descriptor) :
  _xlate_dependency (_xlate_dependency job_desc)
  = _xlate_dependency job_desc.
Proof.
  destruct job_desc as [[s|]]; [|reflexivity].
  rewrite xlate_dependency_result.
  pose proof (Forall_filter_options (fields s) (fields_are_options s))
    as Hopt.
  pose proof (filter_filter_same (fields s)) as Hsame.
  destruct (List.filter slurm_option (fields s)) as [|tok l];
    [reflexivity|].
  unfold option_list at 1.
  rewrite xlate_dependency_result, fields_option_list by exact Hopt.
  now rewrite Hsame.
Qed.

(** X24.  [_xlate_dependency] (job_submit_pbs.c) keeps, in their order and
    joined by commas, exactly the options of a dependency list that begin
    with "after", "expand" or "singleton"; when none does, the dependency
    becomes NULL.  The options are non-empty strings without a comma. *)
Theorem xlate_dependency_keeps_slurm_options (ts : list string) :
  Forall is_option ts ->
  _xlate_dependency {| dependency := option_list ts |} =
    {| dependency := option_list (List.filter slurm_option ts) |}.
Proof.
  intros Hts. destruct ts as [|t ts]; [reflexivity|].
  unfold option_list at 1. rewrite xlate_dependency_fields.
  rewrite fields_option_list by exact Hts.
  now rewrite filter_kept, fold_add_option_list.
Qed.

(** X25.  For every job descriptor: translating the dependency twice gives
    what translating it once gives; a NULL dependency stays NULL; every
    comma-separated field of the result begins with "after", "expand" or
    "singleton"; a dependency string none of whose fields does (the empty
    string, or commas only, among them) becomes NULL; and [job_submit]
    and [job_modify] applied to a descriptor that went through
    [job_submit] return SLURM_SUCCESS and leave it as it is. *)
Theorem xlate_dependency_idempotent (job_desc : job_descriptor) :
  _xlate_dependency (_xlate_dependency job_desc)
  = _xlate_dependency job_desc
  /\ (dependency job_desc = None ->
      _xlate_dependency job_desc = job_desc)
  /\ (forall s tok,
        dependency (_xlate_dependency job_desc) = Some s ->
        In tok (fields s) -> slurm_option tok = true)
  /\ (forall s,
        dependency job_desc = Some s ->
        (forall tok, In tok (fields s) -> slurm_option tok = false) ->
        dependency (_xlate_dependency job_desc) = None)
  /\ (forall uid uid' job_ptr,
        job_submit (snd (job_submit job_desc uid)) uid'
          = (SLURM_SUCCESS, snd (job_submit job_desc uid))
        /\ job_modify (snd (job_submit job_desc uid)) job_ptr uid'
            = (SLURM_SUCCESS, snd (job_submit job_desc uid))).
Proof.
  split; [apply xlate_twice|]. split; [|split; [|split]].
  - destruct job_desc as [[s|]]; [discriminate | reflexivity].
  - intros s tok Hs Hin. destruct job_desc as [[s0|]]; [|discriminate].
    rewrite xlate_dependency_result in Hs. cbn [dependency] in Hs.
    pose proof (Forall_filter_options (fields s0) (fields_are_options s0))
      as Hopt.
    remember (List.filter slurm_option (fields s0)) as L eqn:HL.
    assert (Hs' : s = String.concat "," L).
    { destruct L; [discriminate|]. now injection Hs as <-. }
    rewrite Hs', fields_option_list in Hin by exact Hopt.
    rewrite HL in Hin. now apply filter_In in Hin as [_ Hk].
  - intros s Hs Hnone. destruct job_desc as [[s0|]]; [|discriminate].
    cbn [dependency] in Hs. injection Hs as ->.
    rewrite xlate_dependency_result. cbn [dependency].
    now rewrite (filter_none _ Hnone).
  - intros uid uid' job_ptr. unfold job_submit, job_modify. cbn [snd].
    now rewrite xlate_twice.
Qed.
End PbsFacts.

Lemma xlate_dependency_keeps_slurm_options_witness :
  let ts := ["afterok:12"; "on:3"; "singleton"; "before:4"] in
  Forall JobSubmitPbs.is_option ts
  /\ JobSubmitPbs._xlate_dependency
       {| JobSubmitPbs.dependency :=
            Some "afterok:12,on:3,singleton,before:4" |}
     = {| JobSubmitPbs.dependency := Some "afterok:12,singleton" |}.
Proof.
  intros ts.
  assert (Hts : Forall JobSubmitPbs.is_option ts).
  { repeat constructor; discriminate. }
  split; [exact Hts|].
  exact (xlate_dependency_keeps_slurm_options ts Hts).
Defined.
(** ** The srun front end *)

Section SrunLaunchFacts.
Import CInt StringArrays SrunLaunch.

Lemma get_nul_free (s : string) (i : nat) (c : ascii) :
  nul_free s = true -> String.get i s = Some c -> Ascii.eqb c NUL = false.
Proof.
  revert i. induction s as [|a s IH]; intros i Hs Hg; [discriminate|].
  cbn [nul_free] in Hs. apply andb_true_iff in Hs as [Ha Hs].
  apply negb_true_iff in Ha.
  destruct i as [|i]; cbn in Hg.
  - now injection Hg as <-.
  - now apply (IH i).
Qed.

Lemma get_lt (s : string) (i : nat) :
  (i < String.length s)%nat -> exists c, String.get i s = Some c.
Proof.
  revert i. induction s as [|a s IH]; intros i Hi; [cbn in Hi; lia|].
  destruct i as [|i]; cbn; [eauto|]. apply IH. cbn in Hi. lia.
Qed.

Lemma step_test (s : string) (i : nat) :
  nul_free s = true -> (i + 2 < String.length s)%nat ->
  (Ascii.eqb (char_at s i) DQUOTE
   && Ascii.eqb (char_at s (i + 1)) " "
   && (Ascii.eqb (char_at s (i + 2)) DQUOTE
       || Ascii.eqb (char_at s (i + 2)) NUL)) = true
  <-> separator_at s i.
Proof.
  intros Hs Hi. unfold separator_at, char_at.
  destruct (get_lt s i ltac:(lia)) as (c0 & ->).
  destruct (get_lt s (i + 1) ltac:(lia)) as (c1 & ->).
  destruct (get_lt s (i + 2) ltac:(lia)) as (c2 & G2). rewrite G2.
  rewrite (get_nul_free s _ c2 Hs G2), orb_false_r.
  rewrite !andb_true_iff, !Ascii.eqb_eq.
  split.
  - intros [[-> ->] ->]. auto.
  - intros ([= ->] & [= ->] & [= ->]). auto.
Qed.

Lemma separator_in_range (s : string) (j : nat) :
  separator_at s j -> (j + 2 < String.length s)%nat.
Proof.
  intros (_ & _ & G). revert G. generalize (j + 2)%nat. clear j.
  induction s as [|a s IH]; intros i G; [discriminate|].
  destruct i as [|i]; cbn in *; [lia|]. specialize (IH i G). lia.
Qed.

Lemma find_loop_spec (s : string) (n i : nat) :
  nul_free s = true -> (i + n + 2 = String.length s)%nat \/ (n = 0)%nat ->
  (forall k, (k < i)%nat -> ~ separator_at s k) ->
  match find_srun_sep_loop n i s with
  | Some p => exists j, p = S j /\ separator_at s j
                        /\ forall k, (k < j)%nat -> ~ separator_at s k
  | None => forall k, (k < i + n)%nat -> ~ separator_at s k
  end.
Proof.
  intros Hs. revert i. induction n as [|n IH]; intros i Hn Hprev;
    cbn [find_srun_sep_loop].
  - intros k Hk. apply Hprev. lia.
  - destruct Hn as [Hn | Hn]; [|discriminate].
    pose proof (step_test s i Hs ltac:(lia)) as Ht.
    destruct (_ && _ && _) eqn:Hc.
    + exists i. split; [lia|]. split; [now apply Ht | exact Hprev].
    + specialize (IH (S i) ltac:(lia)).
      replace (i + S n)%nat with (S i + n)%nat by lia. apply IH.
      intros k Hk. destruct (Nat.eq_dec k i) as [-> | Hne].
      * intros Hsep. apply Ht in Hsep. congruence.
      * apply Hprev. lia.
Qed.

(** X26.  [_find_srun_sep] on a command line shorter than 2^31: a result
    other than NULL points at the space of the first occurrence of
    quote, space, quote; the result is NULL exactly when that sequence
    does not occur.  A quote and a space that end the command line are
    not found, the loop stopping two characters before the end. *)
Theorem find_srun_sep_first_separator (cmd_line : string) :
  nul_free cmd_line = true ->
  Z.of_nat (String.length cmd_line) < 2 ^ 31 ->
  match _find_srun_sep cmd_line with
  | Some p =>
      exists j, p = S j /\ separator_at cmd_line j
                /\ forall k, (k < j)%nat -> ~ separator_at cmd_line k
  | None => forall k, ~ separator_at cmd_line k
  end.
Proof.
  intros Hs Hl. unfold _find_srun_sep.
  rewrite to_int_small by lia. cbv zeta.
  set (len := String.length cmd_line) in *.
  pose proof (find_loop_spec cmd_line (Z.to_nat (Z.of_nat len - 2)) 0 Hs)
    as Hf.
  destruct (find_srun_sep_loop _ 0 cmd_line) as [p|].
  - apply Hf; [|intros k Hk; lia].
    destruct (Nat.lt_ge_cases len 2); [right | left]; fold len; lia.
  - intros k Hsep. pose proof (separator_in_range _ _ Hsep) as Hr.
    fold len in Hr. apply (Hf ltac:(left; fold len; lia)
                             ltac:(intros ? ?; lia) k); [lia | exact Hsep].
Qed.
End SrunLaunchFacts.

Lemma find_srun_sep_first_separator_witness :
  let q := SrunLaunch.DQUOTE in
  (* the command line: "a" "b" *)
  let cmd_line :=
    String q (String "a" (String q (String " "
      (String q (String "b" (String q EmptyString)))))) in
  StringArrays.nul_free cmd_line = true
  /\ Z.of_nat (String.length cmd_line) < 2 ^ 31
  /\ SrunLaunch._find_srun_sep cmd_line = Some 3%nat
  /\ exists j, 3%nat = S j /\ SrunLaunch.separator_at cmd_line j.
Proof.
  intros q cmd_line.
  assert (Hs : StringArrays.nul_free cmd_line = true) by reflexivity.
  assert (Hl : Z.of_nat (String.length cmd_line) < 2 ^ 31) by (cbn; lia).
  split; [exact Hs|]. split; [exact Hl|]. split; [reflexivity|].
  pose proof (find_srun_sep_first_separator cmd_line Hs Hl) as Hf.
  change (SrunLaunch._find_srun_sep cmd_line) with (Some 3%nat) in Hf.
  destruct Hf as (j & Hj & Hsep & _). exists j. split; [exact Hj | exact Hsep].
Defined.
